(** * LabfolderPy: the element classes and the table conversion

    A shallow embedding of [labfolder/classes/data_elements.py]: the
    wire-to-tabular and tabular-to-wire conversions of [TableElement],
    the create and update operations of the element classes with
    [_handle_response], and the type-tag dispatch of
    [parse_data_element].

    Python values are modelled by the data the code looks at: a dict is
    an association list in iteration order, an exception is its class,
    [print] is a line appended to a log. *)

From Stdlib Require Import ZArith List String Bool Lia Ascii DecimalString Finite.
Import ListNotations.

Set Warnings "-register-all".

Local Open Scope string_scope.
Local Open Scope list_scope.
Local Open Scope Z_scope.

(** ** Python exceptions and results *)

Module Py.

(** The exception classes the modelled code can raise. *)
Inductive exn : Type :=
| KeyError
| AttributeError
| IndexError
| TypeError
| ValueError.

Inductive result (A : Type) : Type :=
| Ok (a : A)
| Raise (e : exn).

Arguments Ok {A} a.
Arguments Raise {A} e.

Definition bind {A B : Type} (m : result A) (f : A -> result B) : result B :=
  match m with
  | Ok a => f a
  | Raise e => Raise e
  end.

Definition exn_eqb (a b : exn) : bool :=
  match a, b with
  | KeyError, KeyError
  | AttributeError, AttributeError
  | IndexError, IndexError
  | TypeError, TypeError
  | ValueError, ValueError => true
  | _, _ => false
  end.

(** [for x in xs: ys.append(f(x))]: the first exception ends the loop. *)
Fixpoint for_each {A B : Type} (f : A -> result B) (xs : list A)
  : result (list B) :=
  match xs with
  | [] => Ok []
  | x :: xs' =>
      bind (f x) (fun y => bind (for_each f xs') (fun ys => Ok (y :: ys)))
  end.

End Py.

Import Py.

Notation "x <- m ;; k" := (Py.bind m (fun x => k))
  (at level 61, m at next level, right associativity).

(** ** Scalars and dicts *)

(** A cell value: [None], [nan], an infinity, a number or a string.
    [SNum] carries the value of a number, an int of at most 64 bits or
    the float equal to such an int; the two are not told apart, so what
    a change of dtype shows is the rounding of an int to the nearest
    double. *)
Inductive scalar : Type :=
| SNone
| SNaN
| SInf (negative : bool)
| SNum (z : Z)
| SStr (s : string).

Definition scalar_eqb (a b : scalar) : bool :=
  match a, b with
  | SNone, SNone => true
  | SNaN, SNaN => true
  | SInf x, SInf y => Bool.eqb x y
  | SNum x, SNum y => Z.eqb x y
  | SStr x, SStr y => String.eqb x y
  | _, _ => false
  end.

(** [pd.isna]: [None] and [nan] are the missing values. *)
Definition isna (s : scalar) : bool :=
  match s with
  | SNone | SNaN => true
  | _ => false
  end.

Definition notna (s : scalar) : bool := negb (isna s).

Definition is_none (s : scalar) : bool :=
  match s with SNone => true | _ => false end.

Definition is_str (s : scalar) : bool :=
  match s with SStr _ => true | _ => false end.

Definition is_int (s : scalar) : bool :=
  match s with SNum _ => true | _ => false end.

(** [nan] and the infinities are floats. *)
Definition is_float (s : scalar) : bool :=
  match s with SNaN | SInf _ => true | _ => false end.

(** [float(z)]: the double nearest to the int [z], ties to the even
    significand of 53 bits. *)
Definition float_of_int (z : Z) : Z :=
  let a := Z.abs z in
  let e := Z.log2 a - 52 in
  if e <=? 0 then z
  else
    let q := Z.shiftr a e in
    let r := a - Z.shiftl q e in
    let half := Z.shiftl 1 (e - 1) in
    let q := if (half <? r) || ((r =? half) && Z.odd q) then q + 1 else q in
    Z.sgn z * Z.shiftl q e.

(** A value stored in a float64 column. *)
Definition as_float (s : scalar) : scalar :=
  match s with
  | SNum z => SNum (float_of_int z)
  | SNone => SNaN
  | _ => s
  end.

(** The values make a float64 column when pandas infers the dtype: no
    string among them, and a float, or [None] beside an int. *)
Definition float_column (vs : list scalar) : bool :=
  negb (existsb is_str vs)
  && (existsb is_float vs || (existsb is_none vs && existsb is_int vs)).

(** The dtype of a column that holds these values, as pandas 3 infers
    it: str with strings and missing values only, object with any other
    mix that has a string or [None], float64 with a float, int64 with
    ints only. *)
Inductive dtype : Type := DInt64 | DFloat64 | DStr | DObject.

Definition dtype_of (vs : list scalar) : dtype :=
  if existsb is_str vs
  then if forallb (fun v => is_str v || negb (notna v)) vs
       then DStr else DObject
  else if existsb is_none vs then DObject
  else if existsb is_float vs then DFloat64
  else match vs with
       | [] => DObject
       | _ :: _ => DInt64
       end.

(** Whether a column of the dtype takes the value as it is, and the
    value it stores then. *)
Definition can_hold (d : dtype) (v : scalar) : bool :=
  match d, v with
  | DObject, _ => true
  | DInt64, SNum _ => true
  | DFloat64, SNum z => float_of_int z =? z
  | DFloat64, (SNaN | SInf _ | SNone) => true
  | DStr, (SStr _ | SNaN | SNone) => true
  | _, _ => false
  end.

Definition stored (d : dtype) (v : scalar) : scalar :=
  match d, v with
  | (DFloat64 | DStr), SNone => SNaN
  | _, _ => v
  end.

(** A Python dict in iteration order; its keys are pairwise distinct. *)
Definition dict (K V : Type) : Type := list (K * V).

Definition keys {K V : Type} (d : dict K V) : list K := map fst d.

Definition dict_wf {K V : Type} (d : dict K V) : Prop := NoDup (keys d).

Fixpoint dict_get {V : Type} (k : scalar) (d : dict scalar V) : option V :=
  match d with
  | [] => None
  | (k', v) :: d' => if scalar_eqb k k' then Some v else dict_get k d'
  end.

Fixpoint str_get {V : Type} (k : string) (d : dict string V) : option V :=
  match d with
  | [] => None
  | (k', v) :: d' => if String.eqb k k' then Some v else str_get k d'
  end.

(** [d.update({k: v})]: the value of a key the dict has is replaced where
    it stands, a new key goes to the end. *)
Fixpoint str_set {V : Type} (k : string) (v : V) (d : dict string V)
  : dict string V :=
  match d with
  | [] => [(k, v)]
  | (k', v') :: d' =>
      if String.eqb k k' then (k', v) :: d' else (k', v') :: str_set k v d'
  end.

(** ** The wire grid of a sheet *)

(** What is stored at [table[row][col]].  The code only ever calls
    [.get("value", None)] on it:
    - [CDict]: a dict, as the API sends it;
    - [CAtom]: a string, a number or null, which has no [get];
    - [CMapping]: any other object with a [get] of its own, given by what
      that call does. *)
Inductive cell : Type :=
| CDict (fields : dict string scalar)
| CAtom (v : scalar)
| CMapping (get : result scalar).

Definition wire_row : Type := dict scalar cell.
Definition grid : Type := dict scalar wire_row.

(** [table[row][col].get("value", None)] *)
Definition get_value (c : cell) : result scalar :=
  match c with
  | CDict fields =>
      match str_get "value" fields with
      | Some v => Ok v
      | None => Ok SNone
      end
  | CAtom _ => Raise AttributeError
  | CMapping g => g
  end.

(** ** DataFrames *)

(** A frame with integer row labels: the column labels, and the rows in
    positional order, each with its label. *)
Record DataFrame : Type := mkDF {
  columns : list scalar;
  rows : list (Z * list scalar)
}.

Definition index (df : DataFrame) : list Z := map fst (rows df).
Definition values (df : DataFrame) : list (list scalar) := map snd (rows df).

(** [df.shape] *)
Definition shape0 (df : DataFrame) : Z := Z.of_nat (List.length (rows df)).
Definition shape1 (df : DataFrame) : Z := Z.of_nat (List.length (columns df)).

Fixpoint enumerate_from {A : Type} (i : Z) (l : list A) : list (Z * A) :=
  match l with
  | [] => []
  | x :: l' => (i, x) :: enumerate_from (i + 1) l'
  end.

Definition mem (k : scalar) (l : list scalar) : bool :=
  existsb (scalar_eqb k) l.

(** Keys in order of first appearance. *)
Definition add_keys (acc ks : list scalar) : list scalar :=
  fold_left (fun acc k => if mem k acc then acc else acc ++ [k]) ks acc.

Definition union_keys (data : list (dict scalar scalar)) : list scalar :=
  fold_left (fun acc d => add_keys acc (keys d)) data [].

(** The values of column [j], row by row. *)
Definition column_values (rs : list (Z * list scalar)) (j : nat)
  : list scalar :=
  map (fun r => nth j (snd r) SNaN) rs.

(** The records of [pd.DataFrame(data)] for a list of dicts, before the
    dtypes are inferred: the columns are the keys in order of first
    appearance, a key a row lacks reads [nan], the rows are labelled by
    position. *)
Definition records_frame (data : list (dict scalar scalar)) : DataFrame :=
  let cols := union_keys data in
  {| columns := cols;
     rows := enumerate_from 0
               (map (fun d =>
                       map (fun c => match dict_get c d with
                                     | Some v => v
                                     | None => SNaN
                                     end) cols) data) |}.

(** A row with the values of the float64 columns stored as floats. *)
Definition cast (kinds : list bool) (r : list scalar) : list scalar :=
  map (fun bv : bool * scalar =>
         if fst bv then as_float (snd bv) else snd bv)
      (combine kinds r).

Definition astype (kinds : list bool) (df : DataFrame) : DataFrame :=
  {| columns := columns df;
     rows := map (fun r => (fst r, cast kinds (snd r))) (rows df) |}.

(** Which columns of the frame pandas would store as float64. *)
Definition float_columns (df : DataFrame) : list bool :=
  map (fun j => float_column (column_values (rows df) j))
      (seq 0 (List.length (columns df))).

(** [pd.DataFrame(data)] for a list of dicts: the records, each column
    with the dtype inferred from its values. *)
Definition pd_DataFrame (data : list (dict scalar scalar)) : DataFrame :=
  let df := records_frame data in
  astype (float_columns df) df.

Definition map_cells (f : scalar -> scalar) (df : DataFrame) : DataFrame :=
  {| columns := columns df;
     rows := map (fun r => (fst r, map f (snd r))) (rows df) |}.

(** [df.fillna(np.nan)] *)
Definition fill_nan (s : scalar) : scalar := if isna s then SNaN else s.
Definition fillna_nan (df : DataFrame) : DataFrame := map_cells fill_nan df.

(** [df.dropna(axis=0, how="all")] *)
Definition dropna_rows (df : DataFrame) : DataFrame :=
  {| columns := columns df;
     rows := filter (fun r => existsb notna (snd r)) (rows df) |}.

Fixpoint select {A : Type} (mask : list bool) (l : list A) : list A :=
  match mask, l with
  | b :: mask', x :: l' => if b then x :: select mask' l' else select mask' l'
  | _, _ => []
  end.

(** Column [j] holds a value in some row. *)
Definition column_has_value (rs : list (Z * list scalar)) (j : nat) : bool :=
  existsb (fun r => notna (nth j (snd r) SNaN)) rs.

(** [df.dropna(axis=1, how="all")] *)
Definition dropna_columns (df : DataFrame) : DataFrame :=
  let mask := map (column_has_value (rows df)) (seq 0 (List.length (columns df))) in
  {| columns := select mask (columns df);
     rows := map (fun r => (fst r, select mask (snd r))) (rows df) |}.

(** A row read as a Series has the common dtype of the columns: float64
    when no column is an object column and one is a float64 column. *)
Definition float_row (df : DataFrame) : bool :=
  negb (existsb (fun r => existsb (fun v => is_str v || is_none v) (snd r))
                (rows df))
  && existsb (fun r => existsb is_float (snd r)) (rows df).

(** [df.iloc[0]] *)
Definition iloc0 (df : DataFrame) : result (list scalar) :=
  match rows df with
  | [] => Raise IndexError
  | r :: _ => Ok (if float_row df then map as_float (snd r) else snd r)
  end.

(** [df.columns = names] *)
Definition set_columns (names : list scalar) (df : DataFrame)
  : result DataFrame :=
  if Nat.eqb (List.length names) (List.length (columns df))
  then Ok {| columns := names; rows := rows df |}
  else Raise ValueError.

(** [df.drop(label)]: by row label, not by position; a label the index
    does not hold raises. *)
Definition drop (label : Z) (df : DataFrame) : result DataFrame :=
  if existsb (Z.eqb label) (index df)
  then Ok {| columns := columns df;
             rows := filter (fun r => negb (Z.eqb label (fst r))) (rows df) |}
  else Raise KeyError.

Fixpoint insert_by_label (r : Z * list scalar) (l : list (Z * list scalar))
  : list (Z * list scalar) :=
  match l with
  | [] => [r]
  | r' :: l' =>
      if fst r <=? fst r' then r :: l else r' :: insert_by_label r l'
  end.

(** [df.sort_index()]: by label, rows with the same label in the order
    they had. *)
Definition sort_index (df : DataFrame) : DataFrame :=
  {| columns := columns df;
     rows := fold_right insert_by_label [] (rows df) |}.

(** [df.reset_index(drop=True)] *)
Definition reset_index (df : DataFrame) : DataFrame :=
  {| columns := columns df;
     rows := enumerate_from 0 (values df) |}.

(** ** Wire to tabular: [table_to_pandas] *)

(** The dict comprehension over the cells of one row. *)
Definition row_values (r : wire_row) : result (dict scalar scalar) :=
  for_each (fun kc => v <- get_value (snd kc) ;; Ok (fst kc, v)) r.

(** One turn of the loop: the comprehension, and the [except KeyError]
    handler around it. *)
Definition row_record (r : wire_row) : result (dict scalar scalar) :=
  match row_values r with
  | Raise KeyError => Ok (map (fun kc => (fst kc, SNone)) r)
  | other => other
  end.

Definition table_to_pandas (table : grid) (header : bool)
  : result DataFrame :=
  data <- for_each (fun kr => row_record (snd kr)) table ;;
  let df := pd_DataFrame data in
  let df := fillna_nan df in
  let df := dropna_rows df in
  let df := dropna_columns df in
  df <- (if header
         then names <- iloc0 df ;;
              df <- set_columns names df ;;
              drop 0 df
         else Ok df) ;;
  let df := sort_index df in
  Ok (reset_index df).

(** A wire cell [{"value": v}]. *)
Definition wire_cell (v : scalar) : cell := CDict [("value", v)].

Definition header_grid : grid :=
  [ (SStr "0", [ (SStr "A", wire_cell (SStr "x")); (SStr "B", wire_cell (SStr "y")) ]);
    (SStr "1", [ (SStr "A", wire_cell (SNum 1)); (SStr "B", wire_cell (SNum 2)) ]) ].

(** ** Tabular to wire: the loop body of [convert_pd_to_export] *)

(** [df.index = df.index + 1] *)
Definition shift_index (df : DataFrame) : DataFrame :=
  {| columns := columns df;
     rows := map (fun r => (fst r + 1, snd r)) (rows df) |}.

(** The dtypes of the columns of a frame. *)
Definition dtypes (df : DataFrame) : list dtype :=
  map (fun j => dtype_of (column_values (rows df) j))
      (seq 0 (List.length (columns df))).

(** [df.loc[label] = vals], as pandas 3 does it: when no row carries the
    label the frame is enlarged by one row at the end, whatever the
    dtypes; rows that carry the label are overwritten, which pandas
    refuses with [TypeError] when a column cannot hold its new value
    without a change of dtype. *)
Definition loc_set (label : Z) (vals : list scalar) (df : DataFrame)
  : result DataFrame :=
  if existsb (Z.eqb label) (index df)
  then
    let held := combine (dtypes df) vals in
    if forallb (fun dv : dtype * scalar => can_hold (fst dv) (snd dv)) held
    then Ok {| columns := columns df;
               rows := map (fun r => if Z.eqb label (fst r)
                                     then (fst r,
                                           map (fun dv : dtype * scalar =>
                                                  stored (fst dv) (snd dv))
                                               held)
                                     else r) (rows df) |}
    else Raise TypeError
  else Ok {| columns := columns df;
             rows := rows df ++ [(label, vals)] |}.

Definition range (n : nat) : list scalar :=
  map (fun i => SNum (Z.of_nat i)) (seq 0 n).

(** [df.replace({np.nan: None, np.inf: None, -np.inf: None})] *)
Definition sanitize (s : scalar) : scalar :=
  match s with
  | SNaN | SInf _ => SNone
  | _ => s
  end.

(** [df.to_dict(orient="index")], each value then wrapped as
    [{"value": v}]. *)
Definition to_wire_grid (df : DataFrame) : grid :=
  map (fun r => (SNum (fst r),
                 map (fun cv => (fst cv, wire_cell (snd cv)))
                     (combine (columns df) (snd r))))
      (rows df).

(** One entry of ["sheets"]. *)
Record wire_sheet : Type := mkSheet {
  name : string;
  rowCount : Z;
  columnCount : Z;
  dataTable : grid
}.

Definition export_sheet (sheet : string) (header : bool) (df : DataFrame)
  : result wire_sheet :=
  df <- (if header
         then loc_set 0 (columns df) (shift_index df)
         else Ok df) ;;
  let df := sort_index df in
  let df := reset_index df in
  let row_count := shape0 df in
  let column_count := shape1 df in
  let df := {| columns := range (List.length (columns df));
               rows := rows df |} in
  let df := map_cells sanitize df in
  Ok {| name := sheet;
        rowCount := row_count;
        columnCount := column_count;
        dataTable := to_wire_grid df |}.

Definition inf_frame : DataFrame :=
  {| columns := [SStr "a"];
     rows := [(0, [SNum 1]); (1, [SInf false])] |}.

(** ** The table attribute, printed lines, requests *)

(** A value of [self.table[sheet]]:
    - [SheetFrame]: a DataFrame;
    - [SheetWire]: the dict of a sheet as the API sends it;
    - [SheetColumns]: the dict [df.to_dict()] returns, column label to
      (row label to value);
    - [SheetOther]: [None] or a number. *)
Inductive sheet_value : Type :=
| SheetFrame (df : DataFrame)
| SheetWire (w : wire_sheet)
| SheetColumns (d : dict scalar (dict Z scalar))
| SheetOther.

Definition tables : Type := dict string sheet_value.

Definition is_frame (v : sheet_value) : bool :=
  match v with
  | SheetFrame _ => true
  | _ => false
  end.

Definition is_dict (v : sheet_value) : bool :=
  match v with
  | SheetWire _ | SheetColumns _ => true
  | _ => false
  end.

(** A wire record of an element: its string fields and, under
    ["children"], its child records. *)
Inductive wire_element : Type :=
| WireElement (fields : dict string string) (children : list wire_element).

Definition wire_fields (e : wire_element) : dict string string :=
  match e with WireElement f _ => f end.

Definition wire_children (e : wire_element) : list wire_element :=
  match e with WireElement _ c => c end.

(** [element.get(key, default)] *)
Definition get (e : wire_element) (key default : string) : string :=
  match str_get key (wire_fields e) with
  | Some v => v
  | None => default
  end.

Inductive http_method : Type := GET | POST | PUT.

(** What a call leaves behind, in order: the lines it prints and the
    requests it sends.  A printed value is kept by its parts. *)
Inductive line : Type :=
| Text (s : string)
| TextPair (a b : string)
| TextExn (s : string) (e : exn)
| TextTables (t : tables)
| TextRecord (s : string) (e : wire_element)
| Sent (m : http_method) (url : string).

(** A call: what it leaves behind, and its result or the exception that
    ended it. *)
Definition io (A : Type) : Type := (list line * result A)%type.

Definition ret {A : Type} (a : A) : io A := ([], Ok a).

Definition io_bind {A B : Type} (m : io A) (f : A -> io B) : io B :=
  match m with
  | (l, Ok a) => let (l', r) := f a in (l ++ l', r)
  | (l, Raise e) => (l, Raise e)
  end.

Definition lift {A : Type} (r : result A) : io A := ([], r).

Definition print (l : line) : io unit := ([l], Ok tt).

Notation "x <-- m ;; k" := (io_bind m (fun x => k))
  (at level 61, m at next level, right associativity).

Notation "m ;;; k" := (io_bind m (fun _ => k))
  (at level 61, right associativity).

(** [try: m except (classes): handler] *)
Definition try_except {A : Type} (m : io A) (classes : list exn)
  (handler : exn -> io A) : io A :=
  match m with
  | (l, Raise e) =>
      if existsb (exn_eqb e) classes
      then let (l', r) := handler e in (l ++ l', r)
      else (l, Raise e)
  | ok => ok
  end.

Fixpoint io_for_each {A B : Type} (f : A -> io B) (xs : list A)
  : io (list B) :=
  match xs with
  | [] => ret []
  | x :: xs' => y <-- f x ;; ys <-- io_for_each f xs' ;; ret (y :: ys)
  end.

(** [str(n)] *)
Definition str (n : Z) : string := NilZero.string_of_int (Z.to_int n).

(** The session: the attributes of [LabFolderUserInfo] the element
    classes read. *)
Record LabFolderUserInfo : Type := mkUser {
  api_address : string;
  user_id : string
}.

(** What the server answers to one request: the status and the string
    fields of the JSON body. *)
Record reply : Type := mkReply {
  reply_status : Z;
  reply_json : dict string string
}.

(** A [requests.Response]. *)
Record Response : Type := mkResponse {
  status_code : Z;
  request_method : http_method;
  json : dict string string
}.

(** [requests.post(url, ...)] and [requests.put(url, ...)]: the request
    goes out and the answer comes back as a [Response] that remembers the
    method. *)
Definition requests_send (m : http_method) (url : string) (a : reply)
  : io Response :=
  ([Sent m url],
   Ok {| status_code := reply_status a;
         request_method := m;
         json := reply_json a |}).

(** [response.json()["id"]] *)
Definition json_id (r : Response) : result string :=
  match str_get "id" (json r) with
  | Some v => Ok v
  | None => Raise KeyError
  end.

(** [response == n], a [requests.Response] compared with an [int]:
    [Response] defines no [__eq__] and neither side knows the other, so
    Python falls back to identity, and the two are never the same
    object. *)
Definition Response_eq_int (r : Response) (n : Z) : bool := false.

Definition method_eqb (a b : http_method) : bool :=
  match a, b with
  | GET, GET | POST, POST | PUT, PUT => true
  | _, _ => false
  end.

(** [_handle_response(element, response, silent, return_status)];
    [element_type] is [element.type]. *)
Definition _handle_response (element_type : string) (response : Response)
  (silent return_status : bool) : io (option bool) :=
  let '(response_text, status) :=
    if Response_eq_int response 200 && method_eqb (request_method response) PUT
    then (TextPair element_type "updated on Labfolder.", true)
    else if Response_eq_int response 201
            && method_eqb (request_method response) POST
    then (TextPair element_type "written to Labfolder.", true)
    else
      (match request_method response with
       | POST => Text (element_type
                       ++ " could not be written to Labfolder. Status code: "
                       ++ str (status_code response))%string
       | PUT => Text (element_type
                      ++ " could not be updated on Labfolder. Status code: "
                      ++ str (status_code response))%string
       | GET => Text ""
       end, false) in
  (if silent then ret tt else print response_text) ;;;
  if return_status then ret (Some status) else ret None.

(** ** The element classes *)

(** A JSON payload, as [to_dict] builds it. *)
Inductive payload : Type :=
| JNone
| JStr (s : string)
| JList (l : list payload)
| JDict (d : dict string payload).

Module DataElement.

Record t : Type := mk {
  type : string;
  element_id : string;
  description : string
}.

Definition __init__ (element_id description : string) : t :=
  {| type := "DATA"; element_id := element_id; description := description |}.

Definition write_to_labfolder (a : reply) (self : t)
  (user_info : LabFolderUserInfo) (entry_id : string) : io t :=
  if String.eqb entry_id ""
  then print (Text "No entry_id provided.") ;;; ret self
  else
    response <-- requests_send POST
                   (api_address user_info ++ "elements/data")%string a ;;
    status <-- _handle_response (type self) response false true ;;
    match status with
    | Some true =>
        id <-- lift (json_id response) ;;
        ret {| type := type self; element_id := id;
               description := description self |}
    | _ => ret self
    end.

Definition update_on_labfolder (a : reply) (self : t)
  (user_info : LabFolderUserInfo) : io t :=
  if String.eqb (description self) ""
  then print (Text "No data to write.") ;;; ret self
  else
    response <-- requests_send PUT
                   (api_address user_info ++ "elements/data/"
                    ++ element_id self)%string a ;;
    _handle_response (type self) response false false ;;;
    ret self.

End DataElement.

Module DescriptiveDataElement.

Record t : Type := mk {
  type : string;
  title : string;
  element_id : string;
  description : string
}.

Definition __init__ (title element_id description : string) : t :=
  {| type := "DESCRIPTIVE_DATA_ELEMENT"; title := title;
     element_id := element_id; description := description |}.

Definition to_dict (self : t) : payload :=
  JDict [("type", JStr (type self)); ("title", JStr (title self));
         ("description", JStr (description self))].

End DescriptiveDataElement.

Module FileElement.

Record t : Type := mk {
  type : string;
  element_id : string
}.

Definition __init__ (element_id : string) : t :=
  {| type := "FILE"; element_id := element_id |}.

End FileElement.

Module ImageElement.

Record t : Type := mk {
  type : string;
  title : string;
  element_id : string;
  original_file_content_type : string;
  creation_date : string;
  image : option string;
  owner_id : string
}.

Definition __init__ (title element_id original_file_content_type : string)
  : t :=
  {| type := "IMAGE"; title := title; element_id := element_id;
     original_file_content_type := original_file_content_type;
     creation_date := ""; image := None; owner_id := "" |}.

End ImageElement.

Module TextElement.

Record t : Type := mk {
  type : string;
  element_id : string;
  content : string;
  id : string
}.

Definition __init__ (content element_id : string) : t :=
  {| type := "TEXT"; element_id := element_id; content := content;
     id := "" |}.

Definition write_to_labfolder (a : reply) (self : t)
  (user_info : LabFolderUserInfo) (entry_id : string) : io t :=
  if String.eqb entry_id ""
  then print (Text "No entry_id provided.") ;;; ret self
  else
    response <-- requests_send POST
                   (api_address user_info ++ "elements/text")%string a ;;
    status <-- _handle_response (type self) response false true ;;
    match status with
    | Some true =>
        i <-- lift (json_id response) ;;
        ret {| type := type self; element_id := element_id self;
               content := content self; id := i |}
    | _ => ret self
    end.

Definition update_on_labfolder (a : reply) (self : t)
  (user_info : LabFolderUserInfo) : io t :=
  if String.eqb (content self) ""
  then print (Text "No text to write.") ;;; ret self
  else
    response <-- requests_send PUT
                   (api_address user_info ++ "elements/text/"
                    ++ element_id self)%string a ;;
    _handle_response (type self) response false false ;;;
    ret self.

End TextElement.

(** The record [requests.get(...).json()] returns for a table element. *)
Record table_document : Type := mkDocument {
  doc_entry_id : string;
  doc_creation_date : string;
  doc_owner_id : string;
  doc_title : string;
  doc_sheets : tables
}.

Module TableElement.

Record t : Type := mk {
  type : string;
  entry_id : string;
  element_id : string;
  table : option tables;
  creation_date : string;
  owner_id : string;
  title : string
}.

Definition set_element_id (self : t) (i : string) : t :=
  {| type := type self; entry_id := entry_id self; element_id := i;
     table := table self; creation_date := creation_date self;
     owner_id := owner_id self; title := title self |}.

Definition set_table (self : t) (tb : option tables) : t :=
  {| type := type self; entry_id := entry_id self;
     element_id := element_id self; table := tb;
     creation_date := creation_date self; owner_id := owner_id self;
     title := title self |}.

(** [self.table.values()], [self.table.keys()]: the attribute may be
    [None]. *)
Definition the_table (self : t) : result tables :=
  match table self with
  | Some tb => Ok tb
  | None => Raise AttributeError
  end.

(** [self.table[sheet]["data"]["dataTable"]] *)
Definition sheet_grid (v : sheet_value) : result grid :=
  match v with
  | SheetWire w => Ok (dataTable w)
  | SheetFrame _ | SheetColumns _ => Raise KeyError
  | SheetOther => Raise TypeError
  end.

(** [table_to_pd(header, in_place)].  The dict of frames is bound to
    the local name [table] only: no statement assigns [self.table] or
    changes the dict it refers to, so the call has a return value and
    no new state of [self]. *)
Definition table_to_pd (self : t) (header in_place : bool)
  : io (option (dict string DataFrame)) :=
  tb <-- lift (the_table self) ;;
  if existsb is_frame (map snd tb)
  then print (Text "Table already converted to pandas DataFrame.") ;;;
       print (TextTables tb) ;;;
       ret None
  else
    converted <-- lift (for_each
                          (fun kv =>
                             g <- sheet_grid (snd kv) ;;
                             df <- table_to_pandas g header ;;
                             Ok (fst kv, df)) tb) ;;
    if in_place then ret None else ret (Some converted).

(** [load_table(user_info, to_pd, header)]; [http_get url] is
    [requests.get(url, ...).json()], [user_info] is [None] for a value
    that is no [LabFolderUserInfo]. *)
Definition load_table (http_get : string -> table_document) (self : t)
  (user_info : option LabFolderUserInfo) (to_pd header : bool) : io t :=
  if String.eqb (element_id self) ""
  then print (Text "No table ID provided.") ;;; ret self
  else
    match user_info with
    | None =>
        print (Text "Not logged into Labfolder. User information required.") ;;;
        ret self
    | Some ui =>
        let url := (api_address ui ++ "elements/table/"
                    ++ element_id self)%string in
        print (Sent GET url) ;;;
        let doc := http_get url in
        let self := {| type := type self;
                       entry_id := doc_entry_id doc;
                       element_id := element_id self;
                       table := Some (doc_sheets doc);
                       creation_date := doc_creation_date doc;
                       owner_id := doc_owner_id doc;
                       title := doc_title doc |} in
        (if to_pd then table_to_pd self header true else ret None) ;;;
        ret self
    end.

Definition __init__ (http_get : string -> table_document)
  (user_info : option LabFolderUserInfo) (element_id entry_id : string)
  (table : option tables) (import_as_pd header : bool) : io t :=
  let self := {| type := "TABLE";
                 entry_id := entry_id;
                 element_id := element_id;
                 table := table;
                 creation_date := "";
                 owner_id := match user_info with
                             | Some ui => user_id ui
                             | None => ""
                             end;
                 title := "" |} in
  match user_info with
  | Some _ =>
      if negb (String.eqb element_id "")
      then self <-- load_table http_get self user_info import_as_pd header ;;
           (if import_as_pd then table_to_pd self header true
            else ret None) ;;;
           ret self
      else ret self
  | None => ret self
  end.

(** The body of the loop of [convert_pd_to_export] for one sheet: the
    frame methods exist on a DataFrame only. *)
Definition export_value (sheet : string) (header : bool) (v : sheet_value)
  : result (string * wire_sheet) :=
  match v with
  | SheetFrame df => w <- export_sheet sheet header df ;; Ok (sheet, w)
  | _ => Raise AttributeError
  end.

(** [convert_pd_to_export(header)]; the result is the dict under
    ["sheets"], or [None]. *)
Definition convert_pd_to_export (self : t) (header : bool)
  : io (option (dict string wire_sheet)) :=
  tb <-- lift (the_table self) ;;
  let export :=
    sheets <-- lift (for_each (fun kv => export_value (fst kv) header (snd kv))
                              tb) ;;
    ret (Some sheets) in
  if negb (forallb is_frame (map snd tb))
  then
    converted <-- try_except
                    (table_to_pd self true true ;;; ret true)
                    [TypeError; ValueError; KeyError; AttributeError]
                    (fun e =>
                       print (TextExn
                         "Table could not be converted to pandas DataFrame: "
                         e) ;;;
                       ret false) ;;
    if converted then export else ret None
  else export.

(** [df.to_dict()]: column label to (row label to value). *)
Definition frame_to_dict (df : DataFrame) : dict scalar (dict Z scalar) :=
  map (fun jc => (snd jc,
                  map (fun r => (fst r, nth (fst jc) (snd r) SNaN)) (rows df)))
      (combine (seq 0 (List.length (columns df))) (columns df)).

(** The loop of [to_dict] over the sheets. *)
Definition to_dict_sheet (kv : string * sheet_value)
  : io (string * sheet_value) :=
  match snd kv with
  | SheetFrame df => ret (fst kv, SheetColumns (frame_to_dict df))
  | SheetWire _ | SheetColumns _ => ret kv
  | SheetOther =>
      print (Text ("Sheet " ++ fst kv
                   ++ " is not a pandas DataFrame or dictionary.")%string) ;;;
      ret kv
  end.

(** [to_dict(in_place)]: the return value and the new state of [self].
    With [in_place] the sheets of [self.table] are replaced one by
    one; without it a deep copy is converted and returned. *)
Definition to_dict (self : t) (in_place : bool)
  : io (option tables * t) :=
  tb <-- lift (the_table self) ;;
  tb' <-- io_for_each to_dict_sheet tb ;;
  if in_place
  then ret (None, set_table self (Some tb'))
  else ret (Some tb', self).

Definition write_to_labfolder (a : reply) (self : t)
  (user_info : LabFolderUserInfo) (entry : string) (header : bool)
  : io t :=
  let continue (entry : string) : io t :=
    match table self with
    | None => print (Text "No table to write.") ;;; ret self
    | Some _ =>
        table_content <-- convert_pd_to_export self header ;;
        match table_content with
        | None =>
            print (Text "Could not convert table to export format.") ;;;
            ret self
        | Some _ =>
            response <-- requests_send POST
                           (api_address user_info ++ "elements/table")%string
                           a ;;
            status <-- _handle_response (type self) response false true ;;
            match status with
            | Some true =>
                i <-- lift (json_id response) ;;
                ret (set_element_id self i)
            | _ => ret self
            end
        end
    end in
  if String.eqb entry "" && negb (String.eqb (entry_id self) "")
  then continue (entry_id self)
  else if String.eqb entry "" && String.eqb (entry_id self) ""
  then print (Text "No entry_id provided.") ;;; ret self
  else continue entry.

Definition update_on_labfolder (a : reply) (self : t)
  (user_info : LabFolderUserInfo) (header : bool) : io t :=
  match table self with
  | None => print (Text "No table to write.") ;;; ret self
  | Some _ =>
      table_content <-- convert_pd_to_export self header ;;
      match table_content with
      | None =>
          print (Text "Could not convert table to export format.") ;;;
          ret self
      | Some _ =>
          response <-- requests_send PUT
                         (api_address user_info ++ "elements/table/"
                          ++ element_id self)%string a ;;
          _handle_response (type self) response false false ;;;
          ret self
      end
  end.

(** [add_sheet(sheet_name, table)]; the second argument may be any
    value. *)
Definition add_sheet (self : t) (sheet_name : string) (frame : sheet_value)
  : io t :=
  if negb (is_frame frame)
  then print (Text "Table is not a pandas DataFrame.") ;;; ret self
  else
    let self := match table self with
                | None => set_table self (Some [])
                | Some _ => self
                end in
    tb <-- lift (the_table self) ;;
    ret (set_table self (Some (str_set sheet_name frame tb))).

End TableElement.

(** An element object of any class.  A group owns its children, which
    are element objects again. *)
Inductive Element : Type :=
| EData (e : DataElement.t)
| EDescriptive (e : DescriptiveDataElement.t)
| EFile (e : FileElement.t)
| EImage (e : ImageElement.t)
| EText (e : TextElement.t)
| EGroup (g : group)
| ETable (e : TableElement.t)
with group : Type :=
| mkGroup (type title element_id : string) (children : list Element).

(** [child.to_dict()] on a child of a group: the return value and the
    new state of the child.  [DataElement], [FileElement], [ImageElement]
    and [TextElement] define no [to_dict]; that of [TableElement] runs
    with its default [in_place=True] and returns [None]. *)
Fixpoint child_to_dict (e : Element) : io (payload * Element) :=
  match e with
  | EData _ | EFile _ | EImage _ | EText _ => lift (Raise AttributeError)
  | EDescriptive d => ret (DescriptiveDataElement.to_dict d, e)
  | ETable tb =>
      r <-- TableElement.to_dict tb true ;;
      ret (JNone, ETable (snd r))
  | EGroup (mkGroup ty ti i cs) =>
      let fix each (cs : list Element) : io (list payload * list Element) :=
        match cs with
        | [] => ret ([], [])
        | c :: cs' =>
            r <-- child_to_dict c ;;
            rs <-- each cs' ;;
            ret (fst r :: fst rs, snd r :: snd rs)
        end in
      r <-- each cs ;;
      ret (JDict [("type", JStr ty); ("title", JStr ti);
                  ("children", JList (fst r))],
           EGroup (mkGroup ty ti i (snd r)))
  end.

Module DataElementGroup.

Definition t : Type := group.

Definition type (self : t) : string :=
  match self with mkGroup ty _ _ _ => ty end.
Definition title (self : t) : string :=
  match self with mkGroup _ ti _ _ => ti end.
Definition element_id (self : t) : string :=
  match self with mkGroup _ _ i _ => i end.
Definition children (self : t) : list Element :=
  match self with mkGroup _ _ _ cs => cs end.

(** [children] is [None] for an argument that is no list. *)
Definition __init__ (title : string) (children : option (list Element))
  : t :=
  mkGroup "DATA_ELEMENT_GROUP" title ""
          (match children with Some cs => cs | None => [] end).

Definition add_child (self : t) (child : Element) : t :=
  mkGroup (type self) (title self) (element_id self)
          (children self ++ [child]).

(** [to_dict()]: the return value and the new state of [self]. *)
Definition to_dict (self : t) : io (payload * t) :=
  r <-- child_to_dict (EGroup self) ;;
  match snd r with
  | EGroup g => ret (fst r, g)
  | _ => ret (fst r, self)
  end.

Definition write_to_labfolder (a : reply) (self : t)
  (user_info : LabFolderUserInfo) (entry_id : string) : io t :=
  if String.eqb entry_id ""
  then print (Text "No entry_id provided.") ;;; ret self
  else
    r <-- to_dict self ;;
    let self := snd r in
    response <-- requests_send POST
                   (api_address user_info ++ "elements/data")%string a ;;
    _handle_response (type self) response false false ;;;
    ret self.

Definition update_on_labfolder (a : reply) (self : t)
  (user_info : LabFolderUserInfo) : io t :=
  if String.eqb (element_id self) ""
  then print (Text "No data element group ID provided.") ;;; ret self
  else
    r <-- to_dict self ;;
    let self := snd r in
    response <-- requests_send PUT
                   (api_address user_info ++ "elements/data/"
                    ++ element_id self)%string a ;;
    _handle_response (type self) response false false ;;;
    ret self.

End DataElementGroup.

(** ** Dispatch on the type tag: [parse_data_element] *)

Section Parse.

Variable http_get : string -> table_document.
Variable user_info : option LabFolderUserInfo.

Fixpoint parse_data_element (element : wire_element)
  : io (option Element) :=
  let t := get element "element_type" "" in
  if String.eqb t "DATA_ELEMENT_GROUP"
  then
    let group := DataElementGroup.__init__ (get element "title" "") None in
    let fix each (cs : list wire_element) (group : DataElementGroup.t)
      : io DataElementGroup.t :=
      match cs with
      | [] => ret group
      | child :: cs' =>
          c <-- parse_data_element child ;;
          match c with
          | Some c => each cs' (DataElementGroup.add_child group c)
          | None => each cs' group
          end
      end in
    group <-- each (match element with WireElement _ cs => cs end) group ;;
    ret (Some (EGroup group))
  else
    let return_element : option Element := None in
    let return_element :=
      if String.eqb t "FILE"
      then Some (EFile (FileElement.__init__ (get element "id" "")))
      else return_element in
    let return_element :=
      if String.eqb t "IMAGE"
      then Some (EImage (ImageElement.__init__
                           (get element "title" "")
                           (get element "id" "")
                           (get element "original_file_content_type"
                                "image/png")))
      else return_element in
    let return_element :=
      if String.eqb t "TEXT"
      then Some (EText (TextElement.__init__ (get element "content" "")
                                             (get element "id" "")))
      else return_element in
    let return_element :=
      if String.eqb t "DESCRIPTIVE_DATA"
      then Some (EDescriptive (DescriptiveDataElement.__init__
                                 (get element "title" "")
                                 (get element "id" "")
                                 (get element "description" "")))
      else return_element in
    let return_element :=
      if String.eqb t "DATA"
      then Some (EData (DataElement.__init__ (get element "id" "")
                                             (get element "description" "")))
      else return_element in
    return_element <--
      (if String.eqb t "TABLE"
       then tb <-- TableElement.__init__ http_get user_info
                     (get element "id" "") (get element "entry_id" "")
                     (Some []) true true ;;
            ret (Some (ETable tb))
       else ret return_element) ;;
    match return_element with
    | None => print (TextRecord "Unknown element type: " element) ;;;
              ret None
    | Some _ => ret return_element
    end.

(** The comprehension of [Entry.get_entry] over the fetched records:
    [[parse_data_element(element, user_info) for element in elements]]. *)
Definition parse_elements (elements : list wire_element)
  : io (list (option Element)) :=
  io_for_each parse_data_element elements.

End Parse.

(** The loop of [parse_data_element] over the children of a group. *)
Definition parse_children (http_get : string -> table_document)
  (user_info : option LabFolderUserInfo)
  : list wire_element -> DataElementGroup.t -> io DataElementGroup.t :=
  fix each (cs : list wire_element) (group : DataElementGroup.t)
    : io DataElementGroup.t :=
    match cs with
    | [] => ret group
    | child :: cs' =>
        c <-- parse_data_element http_get user_info child ;;
        match c with
        | Some c => each cs' (DataElementGroup.add_child group c)
        | None => each cs' group
        end
    end.

(** The type tag of a wire record and the tags the dispatch knows. *)
Definition tag (e : wire_element) : string := get e "element_type" "".

Definition recognized (t : string) : bool :=
  existsb (String.eqb t)
          ["DATA_ELEMENT_GROUP"; "FILE"; "IMAGE"; "TEXT"; "DESCRIPTIVE_DATA";
           "DATA"; "TABLE"].

(** The tag an element object is built for. *)
Definition class_tag (x : Element) : string :=
  match x with
  | EData _ => "DATA"
  | EDescriptive _ => "DESCRIPTIVE_DATA"
  | EFile _ => "FILE"
  | EImage _ => "IMAGE"
  | EText _ => "TEXT"
  | EGroup _ => "DATA_ELEMENT_GROUP"
  | ETable _ => "TABLE"
  end.

(** The line printed for a record no class is built for. *)
Definition diagnostic (e : wire_element) : line :=
  TextRecord "Unknown element type: " e.

(** The loop of [child_to_dict] over the children of a group. *)
Definition children_to_dict
  : list Element -> io (list payload * list Element) :=
  fix each (cs : list Element) : io (list payload * list Element) :=
    match cs with
    | [] => ret ([], [])
    | c :: cs' =>
        r <-- child_to_dict c ;;
        rs <-- each cs' ;;
        ret (fst r :: fst rs, snd r :: snd rs)
    end.

(** Some table element inside [e] holds a DataFrame as a sheet. *)
Fixpoint holds_frame (e : Element) : bool :=
  match e with
  | ETable tb =>
      match TableElement.table tb with
      | Some sheets => existsb is_frame (map snd sheets)
      | None => false
      end
  | EGroup (mkGroup _ _ _ cs) => existsb holds_frame cs
  | _ => false
  end.

(** The lines [_handle_response] prints for a failed request. *)
Definition write_failure (element_type : string) (status : Z) : line :=
  Text (element_type ++ " could not be written to Labfolder. Status code: "
        ++ str status)%string.

Definition update_failure (element_type : string) (status : Z) : line :=
  Text (element_type ++ " could not be updated on Labfolder. Status code: "
        ++ str status)%string.

(** A call that, once it has sent a request, prints [failure], and that
    returns an object satisfying [kept]. *)
Definition reported {T : Type} (run : io T) (failure : line)
  (kept : T -> Prop) : Prop :=
  (forall m url, In (Sent m url) (fst run) -> In failure (fst run))
  /\ (forall self', snd run = Ok self' -> kept self').

(** No request is sent. *)
Definition quiet (l : list line) : Prop :=
  forall m url, ~ In (Sent m url) l.

(** What a failed request leaves of a group: its type, title and
    identifier, and its children too when no table inside it holds a
    DataFrame. *)
Definition group_kept (self self' : DataElementGroup.t) : Prop :=
  DataElementGroup.type self' = DataElementGroup.type self
  /\ DataElementGroup.title self' = DataElementGroup.title self
  /\ DataElementGroup.element_id self' = DataElementGroup.element_id self
  /\ (holds_frame (EGroup self) = false -> self' = self).

(** [nan], [inf] and [-inf]. *)
Definition nonfinite (v : scalar) : bool :=
  match v with
  | SNaN | SInf _ => true
  | _ => false
  end.

(** Every row of a frame has one value per column. *)
Definition rectangular (df : DataFrame) : Prop :=
  Forall (fun r => List.length (snd r) = List.length (columns df)) (rows df).

(** The frame [export_sheet] lays out before it replaces values: with
    [header] the column names as a row labelled 0 above the shifted
    rows, the rows in the order of their labels. *)
Definition laid_out (header : bool) (df : DataFrame) : result DataFrame :=
  df <- (if header
         then loc_set 0 (columns df) (shift_index df)
         else Ok df) ;;
  Ok (sort_index df).

(** The values read back from a grid, row by row. *)
Definition cell_values (g : grid) : list (list (result scalar)) :=
  map (fun r => map (fun kc => get_value (snd kc)) (snd r)) g.

(** Every cell of the grid is a dict, as the API sends it. *)
Definition all_dicts (table : grid) : bool :=
  forallb (fun kr => forallb (fun kc => match snd kc with
                                        | CDict _ => true
                                        | _ => false
                                        end) (snd kr)) table.

(** The value a dict cell holds, [None] when it has no ["value"]. *)
Definition cell_value (c : cell) : scalar :=
  match c with
  | CDict fields =>
      match str_get "value" fields with
      | Some v => v
      | None => SNone
      end
  | _ => SNone
  end.

(** The column keys of a grid, in order of first appearance. *)
Definition column_keys (table : grid) : list scalar :=
  fold_left (fun acc kr => add_keys acc (keys (snd kr))) table [].

(** Some row of the grid holds a value that is not null under [k]. *)
Definition holds_value (table : grid) (k : scalar) : bool :=
  existsb (fun kr => match dict_get k (snd kr) with
                     | Some c => notna (cell_value c)
                     | None => false
                     end) table.

(** The column keys that are not null in every row. *)
Definition live_keys (table : grid) : list scalar :=
  filter (holds_value table) (column_keys table).

(** The rows [table_to_pandas] collects from a grid of dict cells. *)
Definition row_dicts (table : grid) : list (dict scalar scalar) :=
  map (fun kr => map (fun kc => (fst kc, cell_value (snd kc))) (snd kr))
      table.



(** The rows are labelled 0, 1, 2, ... in order. *)
Definition default_index (df : DataFrame) : Prop :=
  rows df = enumerate_from 0 (values df).

(** ** Concrete inputs *)

Definition session : LabFolderUserInfo :=
  {| api_address := "https://lab.example/api/v2/"; user_id := "12" |}.

(** The server creates the record: status 201, body [{"id": "4711"}]. *)
Definition created : reply :=
  {| reply_status := 201; reply_json := [("id", "4711")] |}.

(** The sheet of the header example, as the API sends it. *)
Definition header_sheet : wire_sheet :=
  {| name := "Sheet1"; rowCount := 2; columnCount := 2;
     dataTable := header_grid |}.

Definition header_document : table_document :=
  {| doc_entry_id := "e1"; doc_creation_date := "2024-01-01";
     doc_owner_id := "12"; doc_title := "T";
     doc_sheets := [("Sheet1", SheetWire header_sheet)] |}.

Definition unloaded_table : TableElement.t :=
  {| TableElement.type := "TABLE"; TableElement.entry_id := "";
     TableElement.element_id := "7"; TableElement.table := Some [];
     TableElement.creation_date := ""; TableElement.owner_id := "12";
     TableElement.title := "" |}.

(** A table element whose one sheet is [df]. *)
Definition table_of_frame (df : DataFrame) : TableElement.t :=
  {| TableElement.type := "TABLE"; TableElement.entry_id := "e1";
     TableElement.element_id := ""; TableElement.table :=
       Some [("Sheet1", SheetFrame df)];
     TableElement.creation_date := ""; TableElement.owner_id := "";
     TableElement.title := "" |}.

(** A table element holding one fetched sheet with an empty grid. *)
Definition empty_sheet_table : TableElement.t :=
  {| TableElement.type := "TABLE"; TableElement.entry_id := "e1";
     TableElement.element_id := "7"; TableElement.table :=
       Some [("Sheet1", SheetWire {| name := "Sheet1"; rowCount := 0;
                                     columnCount := 0; dataTable := [] |})];
     TableElement.creation_date := ""; TableElement.owner_id := "12";
     TableElement.title := "" |}.

(** A grid whose first row is all null, above a header row and a data
    row. *)
Definition null_first_row_grid : grid :=
  [ (SStr "0", [ (SStr "A", wire_cell SNone) ]);
    (SStr "1", [ (SStr "A", wire_cell (SStr "x")) ]);
    (SStr "2", [ (SStr "A", wire_cell (SNum 1)) ]) ].

(** The server refuses: status 500, an empty body. *)
Definition refused : reply := {| reply_status := 500; reply_json := [] |}.

(** A group whose one child is a table element holding a DataFrame. *)
Definition group_of_frame : DataElementGroup.t :=
  DataElementGroup.__init__ "g" (Some [ETable (table_of_frame inf_frame)]).

(** A 3 x 3 grid whose column B is null in every row. *)
Definition three_by_three : grid :=
  [ (SStr "0", [ (SStr "A", wire_cell (SStr "h1"));
                 (SStr "B", wire_cell SNone);
                 (SStr "C", wire_cell (SStr "h2")) ]);
    (SStr "1", [ (SStr "A", wire_cell (SNum 1));
                 (SStr "B", wire_cell SNone);
                 (SStr "C", wire_cell (SNum 2)) ]);
    (SStr "2", [ (SStr "A", wire_cell (SNum 3));
                 (SStr "B", wire_cell SNone);
                 (SStr "C", wire_cell (SNum 4)) ]) ].

(** A grid whose first row holds a string where a dict is expected. *)
Definition malformed_grid : grid :=
  [ (SStr "0", [ (SStr "A", CAtom (SStr "oops")) ]);
    (SStr "1", [ (SStr "A", wire_cell (SNum 1)) ]) ].

(** A row one of whose entries is an object with a [get] that raises
    [KeyError]. *)
Definition keyerror_row : wire_row :=
  [ (SStr "A", wire_cell (SNum 5)); (SStr "B", CMapping (Raise KeyError)) ].

(** A frame with two named columns and two rows of numbers. *)
Definition plain_frame : DataFrame :=
  {| columns := [SStr "x"; SStr "y"];
     rows := [(0, [SNum 1; SNum 2]); (1, [SNum 3; SNum 4])] |}.

(** The rows of a grid of dict cells with every missing value written
    [nan]: what is left of the grid once the row keys are forgotten and
    an absent ["value"], [None] and [nan] are not told apart. *)
Definition normal_rows (table : grid) : list (dict scalar scalar) :=
  map (fun kr => map (fun kc => (fst kc, fill_nan (cell_value (snd kc))))
                     (snd kr))
      table.

(** Two grids for the same sheet: one keyed by strings with a cell
    without ["value"] and a [nan], one keyed by numbers with explicit
    nulls. *)
Definition sparse_grid : grid :=
  [ (SStr "0", [ (SStr "A", CDict []); (SStr "B", wire_cell SNaN) ]);
    (SStr "1", [ (SStr "A", wire_cell (SNum 1)); (SStr "B", wire_cell (SNum 2)) ]) ].

Definition explicit_grid : grid :=
  [ (SNum 7, [ (SStr "A", wire_cell SNone); (SStr "B", wire_cell SNone) ]);
    (SNum 3, [ (SStr "A", wire_cell (SNum 1)); (SStr "B", wire_cell (SNum 2)) ]) ].

(** The [type] attribute of an element object. *)
Definition type_of (x : Element) : string :=
  match x with
  | EData e => DataElement.type e
  | EDescriptive e => DescriptiveDataElement.type e
  | EFile e => FileElement.type e
  | EImage e => ImageElement.type e
  | EText e => TextElement.type e
  | EGroup g => DataElementGroup.type g
  | ETable e => TableElement.type e
  end.

(** No record of the tree is tagged as a table. *)
Fixpoint table_free (e : wire_element) : bool :=
  negb (String.eqb (tag e) "TABLE")
  && match e with
     | WireElement _ cs => forallb table_free cs
     end.

(** ** The default value of [table] *)

(** The parameter [table] of [TableElement.__init__] has the default
    [{}].  Python builds that dict once, when the function is defined;
    every call that leaves the parameter out binds [self.table] to this
    one dict, and [add_sheet] changes the dict [self.table] refers to
    where it is.  [SharedTable] follows this one dict: the state is its
    content, and an element either refers to it or has a table of its
    own. *)
Module SharedTable.

Record t : Type := mk {
  shares_default : bool;
  element : TableElement.t
}.

(** The element as its methods see it. *)
Definition view (default : tables) (o : t) : TableElement.t :=
  if shares_default o
  then TableElement.set_table (element o) (Some default)
  else element o.

(** [TableElement(user_info, element_id, entry_id)] with [table] left
    out.  [load_table] binds [self.table] to the fetched sheets once it
    is past its guards; otherwise the attribute keeps referring to the
    default dict. *)
Definition __init__ (http_get : string -> table_document)
  (user_info : option LabFolderUserInfo) (element_id entry_id : string)
  (import_as_pd header : bool) (default : tables) : io t :=
  self <-- TableElement.__init__ http_get user_info element_id entry_id
             (Some default) import_as_pd header ;;
  ret {| shares_default := match user_info with
                           | Some _ => String.eqb element_id ""
                           | None => true
                           end;
         element := self |}.

(** [add_sheet(sheet_name, table)]: the new content of the default dict
    and the new state of the element. *)
Definition add_sheet (default : tables) (o : t) (sheet_name : string)
  (frame : sheet_value) : io (tables * t) :=
  self <-- TableElement.add_sheet (view default o) sheet_name frame ;;
  if shares_default o
  then ret (match TableElement.table self with
            | Some tb => tb
            | None => default
            end, o)
  else ret (default, {| shares_default := false; element := self |}).

End SharedTable.

(** ** Entries *)

(** What the list [elements] of an entry holds: a record as fetched, an
    element object, [None], or a list of such values. *)
Inductive entry_element : Type :=
| Raw (e : wire_element)
| Object (x : Element)
| PyNone
| PyList (l : list entry_element).

(** What [json.dumps] accepts: dicts, lists, strings and [None], but no
    object of a class of this package, for which it raises
    [TypeError]. *)
Fixpoint json_serializable (x : entry_element) : bool :=
  match x with
  | Raw _ | PyNone => true
  | Object _ => false
  | PyList l => forallb json_serializable l
  end.

(** [requests.post(url, json=entry)] and [requests.put(url, json=entry)]
    where [entry["elements"]] is [elements]: the body is serialised
    before anything is sent. *)
Definition requests_send_json (m : http_method) (url : string)
  (elements : list entry_element) (a : reply) : io Response :=
  if forallb json_serializable elements
  then requests_send m url a
  else lift (Raise TypeError).

(** One item of the list under ["elements"] of an entry document. *)
Record listed_element : Type := mkListed {
  listed_type : string;
  listed_id : string
}.

(** The record [requests.get(...).json()] returns for an entry. *)
Record entry_document : Type := mkEntryDocument {
  entry_author_id : string;
  entry_creation_date : string;
  entry_tags : list string;
  entry_project_id : string;
  entry_title : string;
  entry_elements : list listed_element
}.

(** The value [parse_data_element] returned, as an item of
    [elements]. *)
Definition of_parsed (r : option Element) : entry_element :=
  match r with
  | Some x => Object x
  | None => PyNone
  end.

Module Entry.

Record t : Type := mk {
  entry_id : string;
  title : string;
  author_id : string;
  project_id : string;
  tags : list string;
  creation_date : string;
  elements : list entry_element
}.

Definition set_entry_id (self : t) (i : string) : t :=
  {| entry_id := i; title := title self; author_id := author_id self;
     project_id := project_id self; tags := tags self;
     creation_date := creation_date self; elements := elements self |}.

Definition set_elements (self : t) (l : list entry_element) : t :=
  {| entry_id := entry_id self; title := title self;
     author_id := author_id self; project_id := project_id self;
     tags := tags self; creation_date := creation_date self;
     elements := l |}.

Definition add_title (self : t) (title' : string) : t :=
  {| entry_id := entry_id self; title := title';
     author_id := author_id self; project_id := project_id self;
     tags := tags self; creation_date := creation_date self;
     elements := elements self |}.

Definition add_author_id (self : t) (author_id' : string) : t :=
  {| entry_id := entry_id self; title := title self;
     author_id := author_id'; project_id := project_id self;
     tags := tags self; creation_date := creation_date self;
     elements := elements self |}.

Definition add_project_id (self : t) (project_id' : string) : t :=
  {| entry_id := entry_id self; title := title self;
     author_id := author_id self; project_id := project_id';
     tags := tags self; creation_date := creation_date self;
     elements := elements self |}.

Definition add_creation_date (self : t) (creation_date' : string) : t :=
  {| entry_id := entry_id self; title := title self;
     author_id := author_id self; project_id := project_id self;
     tags := tags self; creation_date := creation_date';
     elements := elements self |}.

(** [add_elements(elements)]: the argument becomes one item. *)
Definition add_elements (self : t) (elements' : entry_element) : t :=
  set_elements self (elements self ++ [elements']).

Section Fetch.

(** [requests.get(url, ...).json()] for the URL of an entry, of an
    element and of a table element. *)
Variable entry_get : string -> entry_document.
Variable element_get : string -> wire_element.
Variable http_get : string -> table_document.

Definition requests_get_json (url : string) : io wire_element :=
  print (Sent GET url) ;;; ret (element_get url).

(** The loop of [_get_entry] over the listed elements. *)
Fixpoint fetch_listed (user_info : LabFolderUserInfo)
  (listing : list listed_element) (elements : list wire_element)
  : io (list wire_element) :=
  match listing with
  | [] => ret elements
  | element :: rest =>
      if String.eqb (listed_type element) "FILE"
      then r <-- requests_get_json
                   (api_address user_info ++ "elements/file/"
                    ++ listed_id element)%string ;;
           fetch_listed user_info rest (elements ++ [r])
      else if String.eqb (listed_type element) "IMAGE"
      then r <-- requests_get_json
                   (api_address user_info ++ "elements/image/"
                    ++ listed_id element)%string ;;
           fetch_listed user_info rest (elements ++ [r])
      else if String.eqb (listed_type element) "TEXT"
      then r <-- requests_get_json
                   (api_address user_info ++ "elements/text/"
                    ++ listed_id element)%string ;;
           fetch_listed user_info rest (elements ++ [r])
      else if String.eqb (listed_type element) "TABLE"
      then r <-- requests_get_json
                   (api_address user_info ++ "elements/table/"
                    ++ listed_id element)%string ;;
           fetch_listed user_info rest (elements ++ [r])
      else if String.eqb (listed_type element) "DATA_ELEMENT_GROUP"
      then r <-- requests_get_json
                   (api_address user_info ++ "elements/data/"
                    ++ listed_id element)%string ;;
           fetch_listed user_info rest (elements ++ [r])
      else if String.eqb (listed_type element) "DATA"
      then r <-- requests_get_json
                   (api_address user_info ++ "elements/data/"
                    ++ listed_id element)%string ;;
           fetch_listed user_info rest (elements ++ [r])
      else if String.eqb (listed_type element) "WELL_PLATE"
      then r <-- requests_get_json
                   (api_address user_info ++ "elements/well-plate/"
                    ++ listed_id element)%string ;;
           fetch_listed user_info rest (elements ++ [r])
      else
        print (Text ("Element type " ++ listed_type element
                     ++ " not supported.")%string) ;;;
        fetch_listed user_info rest elements
  end.

(** [_get_entry(entry, entry_id, user_info)]: the new state of [entry]
    and the returned list. *)
Definition _get_entry (entry : t) (entry_id' : string)
  (user_info : LabFolderUserInfo) : io (t * list wire_element) :=
  let endpoint := (api_address user_info ++ "entries/"
                   ++ entry_id')%string in
  print (Sent GET endpoint) ;;;
  let entry_dict := entry_get endpoint in
  let entry := {| entry_id := entry_id entry;
                  title := entry_title entry_dict;
                  author_id := entry_author_id entry_dict;
                  project_id := entry_project_id entry_dict;
                  tags := entry_tags entry_dict;
                  creation_date := entry_creation_date entry_dict;
                  elements := elements entry |} in
  elements <-- fetch_listed user_info (entry_elements entry_dict) [] ;;
  ret (entry, elements).

Definition get_entry (self : t) (user_info : LabFolderUserInfo)
  (raw : bool) : io t :=
  r <-- _get_entry self (entry_id self) user_info ;;
  let self := set_elements (fst r) (map Raw (snd r)) in
  if negb raw
  then parsed <-- parse_elements http_get (Some user_info) (snd r) ;;
       ret (set_elements self (map of_parsed parsed))
  else ret self.

Definition __init__ (user_info : LabFolderUserInfo) (entry_id' : string)
  (raw : bool) : io t :=
  let self := {| entry_id := entry_id'; title := ""; author_id := "";
                 project_id := ""; tags := []; creation_date := "";
                 elements := [] |} in
  if negb (String.eqb entry_id' "")
  then get_entry self user_info raw
  else ret self.

End Fetch.

Definition make_entry (a : reply) (self : t)
  (user_info : LabFolderUserInfo) : io t :=
  let endpoint := (api_address user_info ++ "entries")%string in
  response <-- requests_send_json POST endpoint (elements self) a ;;
  if status_code response =? 201
  then i <-- lift (json_id response) ;;
       ret (set_entry_id self i)
  else print (Text ("Error creating entry: "
                    ++ str (status_code response))%string) ;;;
       ret self.

Definition update_entry (a : reply) (self : t)
  (user_info : LabFolderUserInfo) : io t :=
  if String.eqb (entry_id self) ""
  then print (Text "Entry ID not set.") ;;; ret self
  else
    let endpoint := (api_address user_info ++ "entries/"
                     ++ entry_id self)%string in
    response <-- requests_send_json PUT endpoint (elements self) a ;;
    (if negb (status_code response =? 200)
     then print (Text ("Error updating entry: "
                       ++ str (status_code response))%string)
     else print (Text "Entry updated successfully.")) ;;;
    ret self.

End Entry.

(** The element types [_get_entry] fetches, and where from. *)
Definition supported (ty : string) : bool :=
  existsb (String.eqb ty)
          ["FILE"; "IMAGE"; "TEXT"; "TABLE"; "DATA_ELEMENT_GROUP"; "DATA";
           "WELL_PLATE"].

Definition element_path (ty : string) : string :=
  if String.eqb ty "FILE" then "elements/file/"
  else if String.eqb ty "IMAGE" then "elements/image/"
  else if String.eqb ty "TEXT" then "elements/text/"
  else if String.eqb ty "TABLE" then "elements/table/"
  else if String.eqb ty "WELL_PLATE" then "elements/well-plate/"
  else "elements/data/".

Definition element_url (user_info : LabFolderUserInfo)
  (l : listed_element) : string :=
  (api_address user_info ++ element_path (listed_type l)
   ++ listed_id l)%string.

(** What [_get_entry] leaves behind for one listed element. *)
Definition listed_line (user_info : LabFolderUserInfo)
  (l : listed_element) : line :=
  if supported (listed_type l)
  then Sent GET (element_url user_info l)
  else Text ("Element type " ++ listed_type l ++ " not supported.")%string.

(** What [get_entry] stores for a fetched record when it parses. *)
Definition slot_of (rec : wire_element) (slot : entry_element) : Prop :=
  if recognized (tag rec)
  then exists x, slot = Object x /\ class_tag x = tag rec
  else slot = PyNone.

(** An entry document that lists a text element, a well plate and an
    element of a type [_get_entry] does not know, and the server that
    holds the two records. *)
Definition entry_listing : entry_document :=
  {| entry_author_id := "12"; entry_creation_date := "2024-01-01";
     entry_tags := ["a"]; entry_project_id := "p"; entry_title := "E";
     entry_elements := [ {| listed_type := "TEXT"; listed_id := "3" |};
                         {| listed_type := "WELL_PLATE"; listed_id := "5" |};
                         {| listed_type := "PDF"; listed_id := "6" |} ] |}.

Definition text_record : wire_element :=
  WireElement [("element_type", "TEXT"); ("id", "3"); ("content", "hello")]
              [].

Definition well_plate_record : wire_element :=
  WireElement [("element_type", "WELL_PLATE"); ("id", "5")] [].

Definition element_server (url : string) : wire_element :=
  if String.eqb url "https://lab.example/api/v2/elements/text/3"
  then text_record
  else well_plate_record.

(** An entry that names its identifier and has not been fetched. *)
Definition unfetched_entry : Entry.t :=
  {| Entry.entry_id := "e1"; Entry.title := ""; Entry.author_id := "";
     Entry.project_id := ""; Entry.tags := []; Entry.creation_date := "";
     Entry.elements := [] |}.

(** The entry once [get_entry()] has fetched and parsed it. *)
Definition fetched_entry : Entry.t :=
  {| Entry.entry_id := "e1"; Entry.title := "E"; Entry.author_id := "12";
     Entry.project_id := "p"; Entry.tags := ["a"];
     Entry.creation_date := "2024-01-01";
     Entry.elements := [Object (EText (TextElement.__init__ "hello" "3"));
                        PyNone] |}.

(** A new entry with a title. *)
Definition new_entry : Entry.t :=
  {| Entry.entry_id := ""; Entry.title := "E"; Entry.author_id := "";
     Entry.project_id := "p"; Entry.tags := []; Entry.creation_date := "";
     Entry.elements := [] |}.

(** Some element inside [e] is of a class that defines no [to_dict]:
    a data, file, image or text element. *)
Fixpoint lacks_to_dict (e : Element) : bool :=
  match e with
  | EData _ | EFile _ | EImage _ | EText _ => true
  | EDescriptive _ | ETable _ => false
  | EGroup (mkGroup _ _ _ cs) => existsb lacks_to_dict cs
  end.

(** A group of one data element. *)
Definition group_of_data : DataElementGroup.t :=
  DataElementGroup.__init__ "g" (Some [EData (DataElement.__init__ "" "d")]).

(** An entry that lists one table, the record of the table, and the
    document of a table whose only sheet is empty. *)
Definition table_listing : entry_document :=
  {| entry_author_id := "12"; entry_creation_date := "2024-01-01";
     entry_tags := []; entry_project_id := "p"; entry_title := "E";
     entry_elements := [ {| listed_type := "TABLE"; listed_id := "7" |} ] |}.

Definition table_record : wire_element :=
  WireElement [("element_type", "TABLE"); ("id", "7"); ("entry_id", "e1")]
              [].

Definition empty_sheet : wire_sheet :=
  {| name := "Sheet1"; rowCount := 0; columnCount := 0; dataTable := [] |}.

Definition empty_sheet_document : table_document :=
  {| doc_entry_id := "e1"; doc_creation_date := "2024-01-01";
     doc_owner_id := "12"; doc_title := "T";
     doc_sheets := [("Sheet1", SheetWire empty_sheet)] |}.


(** The number is a double: stored as a float it is the same number. *)
Definition exact (v : scalar) : bool :=
  match v with
  | SNum z => float_of_int z =? z
  | _ => true
  end.









(** ** The object of a record *)

(** The objects among the results of a batch, in their order. *)
Definition objects (rs : list (option Element)) : list Element :=
  flat_map (fun r => match r with Some x => [x] | None => [] end) rs.

(** The object a record without a table stands for: the object of the
    class of its tag, with the fields of the record; for a group, with
    the objects of its child records as children, in the order of the
    records; nothing for any other tag. *)
Fixpoint parsed (e : wire_element) : option Element :=
  match e with
  | WireElement _ cs =>
      let t := tag e in
      if String.eqb t "DATA_ELEMENT_GROUP"
      then Some (EGroup (mkGroup "DATA_ELEMENT_GROUP" (get e "title" "") ""
                                 (objects (map parsed cs))))
      else if String.eqb t "FILE"
      then Some (EFile {| FileElement.type := "FILE";
                          FileElement.element_id := get e "id" "" |})
      else if String.eqb t "IMAGE"
      then Some (EImage
                   {| ImageElement.type := "IMAGE";
                      ImageElement.title := get e "title" "";
                      ImageElement.element_id := get e "id" "";
                      ImageElement.original_file_content_type :=
                        get e "original_file_content_type" "image/png";
                      ImageElement.creation_date := "";
                      ImageElement.image := None;
                      ImageElement.owner_id := "" |})
      else if String.eqb t "TEXT"
      then Some (EText {| TextElement.type := "TEXT";
                          TextElement.element_id := get e "id" "";
                          TextElement.content := get e "content" "";
                          TextElement.id := "" |})
      else if String.eqb t "DESCRIPTIVE_DATA"
      then Some (EDescriptive
                   {| DescriptiveDataElement.type :=
                        "DESCRIPTIVE_DATA_ELEMENT";
                      DescriptiveDataElement.title := get e "title" "";
                      DescriptiveDataElement.element_id := get e "id" "";
                      DescriptiveDataElement.description :=
                        get e "description" "" |})
      else if String.eqb t "DATA"
      then Some (EData {| DataElement.type := "DATA";
                          DataElement.element_id := get e "id" "";
                          DataElement.description :=
                            get e "description" "" |})
      else None
  end.

(** The lines printed for a record without a table: one for the record
    when its tag is not known, and those of its child records, in their
    order, when it is a group. *)
Fixpoint diagnostics (e : wire_element) : list line :=
  match e with
  | WireElement _ cs =>
      if String.eqb (tag e) "DATA_ELEMENT_GROUP"
      then flat_map diagnostics cs
      else if recognized (tag e) then [] else [diagnostic e]
  end.

(** * Properties *)

(** ** Results and calls *)

Lemma Ok_inj {A : Type} (a b : A) : Ok a = Ok b -> a = b.
Proof. intros H. inversion H. reflexivity. Qed.

Lemma Raise_inj {A : Type} (e e' : exn) :
  @Raise A e = @Raise A e' -> e = e'.
Proof. intros H. inversion H. reflexivity. Qed.

Lemma io_bind_ret {A B : Type} (a : A) (f : A -> io B) :
  io_bind (ret a) f = f a.
Proof.
  unfold io_bind, ret. destruct (f a) as [l r]. reflexivity.
Qed.

(** ** [_handle_response] never reports success *)

Lemma _handle_response_status (ty : string) (r : Response) (silent : bool) :
  snd (_handle_response ty r silent true) = Ok (Some false).
Proof.
  unfold _handle_response, Response_eq_int. simpl.
  destruct (request_method r), silent; reflexivity.
Qed.

Lemma _handle_response_no_status (ty : string) (r : Response) (silent : bool) :
  snd (_handle_response ty r silent false) = Ok None.
Proof.
  unfold _handle_response, Response_eq_int. simpl.
  destruct (request_method r), silent; reflexivity.
Qed.

Lemma DataElement_write_keeps_object (a : reply) (self : DataElement.t)
  (ui : LabFolderUserInfo) (entry : string) :
  snd (DataElement.write_to_labfolder a self ui entry) = Ok self.
Proof.
  unfold DataElement.write_to_labfolder.
  destruct (String.eqb entry ""); reflexivity.
Qed.

(** C1, at a creation the server answers with 201 and an id: every
    class with a create operation ends with the identifier it started
    with, the id of the body is not stored. *)
Theorem write_to_labfolder_created_id_not_captured :
  snd (DataElement.write_to_labfolder created
         (DataElement.__init__ "" "d") session "e1")
  = Ok (DataElement.__init__ "" "d")
  /\ snd (TextElement.write_to_labfolder created
            (TextElement.__init__ "c" "") session "e1")
     = Ok (TextElement.__init__ "c" "")
  /\ snd (DataElementGroup.write_to_labfolder created
            (DataElementGroup.__init__ "g" None) session "e1")
     = Ok (DataElementGroup.__init__ "g" None)
  /\ snd (TableElement.write_to_labfolder created
            (table_of_frame inf_frame) session "e1" true)
     = Ok (table_of_frame inf_frame).
Proof.
  repeat split; vm_compute; reflexivity.
Qed.

(** ** [table_to_pd] stores nothing *)

Lemma load_table_table (http_get : string -> table_document)
  (self self' : TableElement.t) (ui : LabFolderUserInfo)
  (to_pd header : bool) :
  String.eqb (TableElement.element_id self) "" = false ->
  snd (TableElement.load_table http_get self (Some ui) to_pd header)
  = Ok self' ->
  TableElement.table self'
  = Some (doc_sheets
            (http_get (api_address ui ++ "elements/table/"
                       ++ TableElement.element_id self)%string)).
Proof.
  intros Hid. unfold TableElement.load_table. rewrite Hid.
  cbn [io_bind print].
  match goal with
  | |- context [if to_pd then ?m else _] =>
      destruct (if to_pd then m else ret None) as [l [r | e]]
  end; cbn; intros H; inversion H; reflexivity.
Qed.

(** C2, at a table element that fetches the sheet of the header
    example with [to_pd=True]: the table attribute is the fetched wire
    sheet afterwards, while the frame the conversion computes (returned
    with [in_place=False]) has the columns x, y and the row 1, 2. *)
Theorem load_table_keeps_wire_document :
  snd (TableElement.load_table (fun _ => header_document) unloaded_table
         (Some session) true true)
  = Ok (TableElement.mk "TABLE" "e1" "7"
             (Some [("Sheet1", SheetWire header_sheet)])
             "2024-01-01" "12" "T")
  /\ snd (TableElement.table_to_pd
            (TableElement.set_table unloaded_table
               (Some [("Sheet1", SheetWire header_sheet)])) true false)
     = Ok (Some [("Sheet1",
                  {| columns := [SStr "x"; SStr "y"];
                     rows := [(0, [SNum 1; SNum 2])] |})]).
Proof.
  split; vm_compute; reflexivity.
Qed.

(** ** Failures of the conversion *)

(** C5, at a table element whose one sheet is a fetched sheet with an
    empty grid: [convert_pd_to_export] ends with [IndexError], for
    either value of [header], and returns nothing. *)
Theorem convert_pd_to_export_empty_sheet_raises :
  TableElement.convert_pd_to_export empty_sheet_table true
  = ([], Raise IndexError)
  /\ TableElement.convert_pd_to_export empty_sheet_table false
     = ([], Raise IndexError).
Proof.
  split; vm_compute; reflexivity.
Qed.

(** C6, at a grid whose first row is all null: without [header] the
    pruned frame starts with the row x, so a row at position 0 exists;
    with [header] the conversion ends with [KeyError], because the row
    labelled 0 is the pruned one. *)
Theorem table_to_pandas_header_after_null_row_raises :
  table_to_pandas null_first_row_grid false
  = Ok {| columns := [SStr "A"]; rows := [(0, [SStr "x"]); (1, [SNum 1])] |}
  /\ table_to_pandas null_first_row_grid true = Raise KeyError.
Proof.
  split; vm_compute; reflexivity.
Qed.

(** The header example of the specification. *)
Example table_to_pandas_header_example :
  table_to_pandas header_grid true
  = Ok {| columns := [SStr "x"; SStr "y"]; rows := [(0, [SNum 1; SNum 2])] |}.
Proof. vm_compute. reflexivity. Qed.

(** ** Laws of calls *)

Lemma io_bind_assoc {A B C : Type} (m : io A) (f : A -> io B)
  (g : B -> io C) :
  io_bind (io_bind m f) g = io_bind m (fun a => io_bind (f a) g).
Proof.
  destruct m as [l [a | e]]; simpl; [| reflexivity].
  destruct (f a) as [l' [b | e]]; simpl; [| reflexivity].
  destruct (g b) as [l'' r]. rewrite app_assoc. reflexivity.
Qed.

Lemma io_bind_ret_r {A : Type} (m : io A) : io_bind m ret = m.
Proof.
  destruct m as [l [a | e]]; simpl; [rewrite app_nil_r |]; reflexivity.
Qed.

Lemma io_bind_ext {A B : Type} (m : io A) (f g : A -> io B) :
  (forall a, f a = g a) -> io_bind m f = io_bind m g.
Proof.
  intros H. destruct m as [l [a | e]]; simpl; [rewrite H |]; reflexivity.
Qed.

Lemma snd_io_bind {A B : Type} (m : io A) (f : A -> io B) :
  snd (io_bind m f)
  = match snd m with
    | Ok a => snd (f a)
    | Raise e => Raise e
    end.
Proof.
  destruct m as [l [a | e]]; simpl; [| reflexivity].
  destruct (f a); reflexivity.
Qed.

Lemma fst_io_bind_ok {A B : Type} (m : io A) (f : A -> io B) (a : A) :
  snd m = Ok a -> fst (io_bind m f) = fst m ++ fst (f a).
Proof.
  destruct m as [l [a' | e]]; simpl; intros H; inversion H; subst.
  destruct (f a); reflexivity.
Qed.

Lemma io_for_each_app {A B : Type} (f : A -> io B) (xs ys : list A) :
  io_for_each f (xs ++ ys)
  = (a <-- io_for_each f xs ;; b <-- io_for_each f ys ;; ret (a ++ b)).
Proof.
  induction xs as [| x xs IH]; cbn [app io_for_each].
  - rewrite io_bind_ret. symmetry.
    rewrite <- (io_bind_ret_r (io_for_each f ys)) at 2.
    apply io_bind_ext. intros b. reflexivity.
  - rewrite IH. rewrite !io_bind_assoc. apply io_bind_ext. intros y.
    rewrite !io_bind_assoc. apply io_bind_ext. intros a.
    rewrite io_bind_ret, io_bind_assoc. apply io_bind_ext. intros b.
    rewrite io_bind_ret. reflexivity.
Qed.

(** ** Dispatch on the type tag *)

(** Induction over a record and over its child records. *)
Lemma wire_element_nested_ind (P : wire_element -> Prop) :
  (forall f cs, Forall P cs -> P (WireElement f cs)) ->
  forall e, P e.
Proof.
  intros Hstep. fix IH 1. intros [f cs]. apply Hstep.
  induction cs as [| c cs IHcs]; constructor.
  - apply IH.
  - exact IHcs.
Qed.

Section ParseProperties.

Variable http_get : string -> table_document.
Variable user_info : option LabFolderUserInfo.

Lemma parse_group (e : wire_element) :
  tag e = "DATA_ELEMENT_GROUP" ->
  parse_data_element http_get user_info e
  = (g <-- parse_children http_get user_info (wire_children e)
             (DataElementGroup.__init__ (get e "title" "") None) ;;
     ret (Some (EGroup g))).
Proof.
  intros H. destruct e as [f cs]. unfold tag in H.
  cbn [parse_data_element]. rewrite H. reflexivity.
Qed.

Lemma parse_unknown (e : wire_element) :
  recognized (tag e) = false ->
  parse_data_element http_get user_info e = ([diagnostic e], Ok None).
Proof.
  intros H. unfold recognized in H. cbn [existsb] in H.
  repeat (apply orb_false_elim in H; destruct H as [? H]).
  destruct e as [f cs]. unfold tag in *.
  cbn [parse_data_element].
  repeat match goal with
         | E : String.eqb _ _ = false |- _ => rewrite E; clear E
         end.
  reflexivity.
Qed.

Lemma parse_children_app (xs ys : list wire_element)
  (g : DataElementGroup.t) :
  parse_children http_get user_info (xs ++ ys) g
  = (g' <-- parse_children http_get user_info xs g ;;
     parse_children http_get user_info ys g').
Proof.
  revert g. induction xs as [| x xs IH]; intros g.
  - cbn [app parse_children]. rewrite io_bind_ret. reflexivity.
  - cbn [app parse_children]. rewrite io_bind_assoc.
    apply io_bind_ext. intros [c |]; apply IH.
Qed.

Lemma parse_children_unknown (u : wire_element) (post : list wire_element)
  (g : DataElementGroup.t) :
  recognized (tag u) = false ->
  parse_children http_get user_info (u :: post) g
  = (print (diagnostic u) ;;; parse_children http_get user_info post g).
Proof.
  intros H. cbn [parse_children]. rewrite (parse_unknown u H).
  reflexivity.
Qed.

(** A record with a tag the dispatch knows gives an object of the
    class of that tag, whenever the call returns. *)
Lemma parse_recognized (e : wire_element) (r : option Element) :
  recognized (tag e) = true ->
  snd (parse_data_element http_get user_info e) = Ok r ->
  exists x, r = Some x /\ class_tag x = tag e.
Proof.
  intros H Hr. unfold recognized in H. cbn [existsb] in H.
  repeat (apply orb_true_iff in H; destruct H as [H | H]);
    try discriminate H; apply String.eqb_eq in H.
  - rewrite (parse_group e H), snd_io_bind in Hr.
    destruct (snd (parse_children _ _ _ _)) as [g | ex]; cbn in Hr;
      inversion Hr. exists (EGroup g). rewrite H. split; reflexivity.
  - destruct e as [f cs]. unfold tag in *.
    cbn [parse_data_element] in Hr. rewrite H in *. cbn in Hr.
    inversion Hr. eexists. split; reflexivity.
  - destruct e as [f cs]. unfold tag in *.
    cbn [parse_data_element] in Hr. rewrite H in *. cbn in Hr.
    inversion Hr. eexists. split; reflexivity.
  - destruct e as [f cs]. unfold tag in *.
    cbn [parse_data_element] in Hr. rewrite H in *. cbn in Hr.
    inversion Hr. eexists. split; reflexivity.
  - destruct e as [f cs]. unfold tag in *.
    cbn [parse_data_element] in Hr. rewrite H in *. cbn in Hr.
    inversion Hr. eexists. split; reflexivity.
  - destruct e as [f cs]. unfold tag in *.
    cbn [parse_data_element] in Hr. rewrite H in *. cbn in Hr.
    inversion Hr. eexists. split; reflexivity.
  - destruct e as [f cs]. unfold tag in *.
    cbn [parse_data_element] in Hr. rewrite H in Hr.
    cbn [String.eqb Ascii.eqb Bool.eqb] in Hr.
    rewrite !snd_io_bind in Hr.
    destruct (snd (TableElement.__init__ _ _ _ _ _ _ _)) as [tb | ex];
      cbn in Hr; inversion Hr.
    exists (ETable tb). rewrite H. split; reflexivity.
Qed.

(** A record that is neither a group nor a table gives the object and
    the lines of its tag. *)
Lemma parse_leaf_parsed (e : wire_element) :
  String.eqb (tag e) "DATA_ELEMENT_GROUP" = false ->
  String.eqb (tag e) "TABLE" = false ->
  parse_data_element http_get user_info e = (diagnostics e, Ok (parsed e)).
Proof.
  intros Hg Ht. destruct e as [f cs]. unfold tag in *.
  cbn [parse_data_element parsed diagnostics].
  unfold recognized, tag. cbn [existsb].
  remember (get (WireElement f cs) "element_type" "") as t eqn:Et.
  clear Et. rewrite Hg, Ht.
  destruct (String.eqb t "FILE") eqn:E1;
    [apply String.eqb_eq in E1; subst t; reflexivity |].
  destruct (String.eqb t "IMAGE") eqn:E2;
    [apply String.eqb_eq in E2; subst t; reflexivity |].
  destruct (String.eqb t "TEXT") eqn:E3;
    [apply String.eqb_eq in E3; subst t; reflexivity |].
  destruct (String.eqb t "DESCRIPTIVE_DATA") eqn:E4;
    [apply String.eqb_eq in E4; subst t; reflexivity |].
  destruct (String.eqb t "DATA") eqn:E5;
    [apply String.eqb_eq in E5; subst t; reflexivity |].
  reflexivity.
Qed.

(** The loop over child records that give their objects appends these
    objects to the children of the group, in the order of the records. *)
Lemma parse_children_parsed (cs : list wire_element) :
  Forall (fun c => parse_data_element http_get user_info c
                   = (diagnostics c, Ok (parsed c))) cs ->
  forall g,
    parse_children http_get user_info cs g
    = (flat_map diagnostics cs,
       Ok (mkGroup (DataElementGroup.type g) (DataElementGroup.title g)
                   (DataElementGroup.element_id g)
                   (DataElementGroup.children g
                      ++ objects (map parsed cs)))).
Proof.
  induction 1 as [| c cs Hc _ IH]; intros g.
  - destruct g as [ty ti i ch]. cbn. rewrite app_nil_r. reflexivity.
  - cbn [parse_children]. rewrite Hc. cbn [io_bind].
    cbn [flat_map map objects].
    fold (objects (map parsed cs)).
    destruct (parsed c) as [x |].
    + rewrite IH. destruct g as [ty ti i ch]. cbn. rewrite <- app_assoc.
      reflexivity.
    + rewrite IH. reflexivity.
Qed.

(** A record tree without a table gives its object and its lines,
    whatever the session and the server are. *)
Lemma parse_table_free (e : wire_element) :
  table_free e = true ->
  parse_data_element http_get user_info e = (diagnostics e, Ok (parsed e)).
Proof.
  induction e as [f cs IH] using wire_element_nested_ind.
  intros Hfree. cbn [table_free] in Hfree.
  apply andb_true_iff in Hfree. destruct Hfree as [Ht Hcs].
  apply negb_true_iff in Ht.
  destruct (String.eqb (tag (WireElement f cs)) "DATA_ELEMENT_GROUP")
    eqn:Hg.
  - assert (Hall : Forall (fun c =>
               parse_data_element http_get user_info c
               = (diagnostics c, Ok (parsed c))) cs).
    { rewrite forallb_forall in Hcs. rewrite Forall_forall in IH.
      apply Forall_forall. intros c Hin. apply (IH c Hin), Hcs, Hin. }
    rewrite (parse_group _ (proj1 (String.eqb_eq _ _) Hg)).
    cbn [wire_children].
    rewrite (parse_children_parsed cs Hall).
    cbn [parsed diagnostics]. rewrite Hg.
    cbn. rewrite app_nil_r. reflexivity.
  - apply parse_leaf_parsed; assumption.
Qed.

Lemma parse_elements_table_free (es : list wire_element) :
  Forall (fun e => table_free e = true) es ->
  parse_elements http_get user_info es
  = (flat_map diagnostics es, Ok (map parsed es)).
Proof.
  unfold parse_elements.
  induction 1 as [| e es He _ IH]; [reflexivity |].
  cbn [io_for_each flat_map map]. rewrite (parse_table_free e He), IH.
  cbn. rewrite app_nil_r. reflexivity.
Qed.

(** The object of a record without a table that has a known tag is of
    the class of the tag. *)
Lemma parsed_recognized (e : wire_element) :
  recognized (tag e) = true -> String.eqb (tag e) "TABLE" = false ->
  exists x, parsed e = Some x /\ class_tag x = tag e.
Proof.
  intros H Ht. unfold recognized in H. cbn [existsb] in H.
  rewrite Ht in H. destruct e as [f cs]. unfold tag in *.
  cbn [parsed]. unfold tag.
  remember (get (WireElement f cs) "element_type" "") as t eqn:Et.
  clear Et.
  repeat (apply orb_true_iff in H; destruct H as [H | H]);
    try discriminate H; apply String.eqb_eq in H; subst t;
    cbn; eexists; split; reflexivity.
Qed.

End ParseProperties.

(** A sibling record with a known tag need not parse: a record tagged
    TABLE is fetched from the server and converted, and the conversion
    of a sheet without cells raises [IndexError], which ends the parse
    of the whole batch and of the whole group. *)
Lemma recognized_table_sibling_raises :
  recognized (tag well_plate_record) = false
  /\ recognized (tag table_record) = true
  /\ snd (parse_data_element (fun _ => empty_sheet_document) (Some session)
            table_record)
     = Raise IndexError
  /\ snd (parse_elements (fun _ => empty_sheet_document) (Some session)
            [well_plate_record; table_record])
     = Raise IndexError
  /\ snd (parse_data_element (fun _ => empty_sheet_document) (Some session)
            (WireElement [("element_type", "DATA_ELEMENT_GROUP")]
                         [well_plate_record; table_record]))
     = Raise IndexError.
Proof. repeat split; vm_compute; reflexivity. Qed.

(** C10: a record whose tag the dispatch does not know gives no object and
    one printed line.  The records around it in the same batch, and the
    children around it inside a group, are parsed as they are without
    it.  When no record around it holds a table, the batch returns: it
    prints the lines of the records in their order and gives, in the
    place of each record, the object of the record, nothing in the
    place of the unknown one; a record with a known tag gives an object
    of the class of its tag; and a group gives the group object whose
    children are the objects of the records around the unknown one, in
    their order. *)
Theorem unknown_tag_skipped_siblings_parsed
  (http_get : string -> table_document)
  (user_info : option LabFolderUserInfo)
  (u : wire_element) (pre post : list wire_element)
  (fields : dict string string) :
  recognized (tag u) = false ->
  parse_data_element http_get user_info u = ([diagnostic u], Ok None)
  /\ parse_elements http_get user_info (pre ++ u :: post)
     = (xs <-- parse_elements http_get user_info pre ;;
        print (diagnostic u) ;;;
        ys <-- parse_elements http_get user_info post ;;
        ret (xs ++ None :: ys))
  /\ (tag (WireElement fields (pre ++ post)) = "DATA_ELEMENT_GROUP" ->
      snd (parse_data_element http_get user_info
             (WireElement fields (pre ++ u :: post)))
      = snd (parse_data_element http_get user_info
               (WireElement fields (pre ++ post))))
  /\ (Forall (fun e => table_free e = true) (pre ++ post) ->
      parse_elements http_get user_info (pre ++ u :: post)
      = (flat_map diagnostics pre ++ diagnostic u :: flat_map diagnostics post,
         Ok (map parsed pre ++ None :: map parsed post))
      /\ (forall e,
             In e (pre ++ post) ->
             recognized (tag e) = true ->
             exists x,
               parse_data_element http_get user_info e
               = (diagnostics e, Ok (Some x))
               /\ parsed e = Some x
               /\ class_tag x = tag e)
      /\ (tag (WireElement fields (pre ++ post)) = "DATA_ELEMENT_GROUP" ->
          parse_data_element http_get user_info
            (WireElement fields (pre ++ u :: post))
          = (flat_map diagnostics pre
               ++ diagnostic u :: flat_map diagnostics post,
             Ok (Some (EGroup
                         (mkGroup "DATA_ELEMENT_GROUP"
                            (get (WireElement fields []) "title" "") ""
                            (objects (map parsed (pre ++ post))))))))).
Proof.
  intros Hu. split; [apply parse_unknown; exact Hu |].
  split; [| split].
  - unfold parse_elements. rewrite io_for_each_app.
    apply io_bind_ext. intros xs. cbn [io_for_each].
    rewrite (parse_unknown _ _ u Hu).
    destruct (io_for_each (parse_data_element http_get user_info) post)
      as [l [ys | e]]; cbn; rewrite ?app_nil_r; reflexivity.
  - intros Hg.
    assert (Hg' : tag (WireElement fields (pre ++ u :: post))
                  = "DATA_ELEMENT_GROUP") by exact Hg.
    rewrite (parse_group _ _ _ Hg), (parse_group _ _ _ Hg').
    cbn [wire_children].
    change (get (WireElement fields (pre ++ u :: post)) "title" "")
      with (get (WireElement fields (pre ++ post)) "title" "").
    set (g0 := DataElementGroup.__init__ _ None).
    rewrite !parse_children_app.
    destruct (parse_children http_get user_info pre g0) as [l1 [g1 | e1]];
      [| reflexivity].
    rewrite !io_bind_assoc. cbn [io_bind].
    rewrite (parse_children_unknown _ _ u post g1 Hu).
    destruct (parse_children http_get user_info post g1) as [l2 [g2 | e2]];
      reflexivity.
  - intros Hfree.
    assert (Hpre : Forall (fun e => table_free e = true) pre)
      by (apply Forall_app in Hfree; apply Hfree).
    assert (Hpost : Forall (fun e => table_free e = true) post)
      by (apply Forall_app in Hfree; apply Hfree).
    split; [| split].
    + unfold parse_elements. rewrite io_for_each_app.
      fold (parse_elements http_get user_info pre).
      rewrite (parse_elements_table_free _ _ pre Hpre).
      cbn [io_for_each]. rewrite (parse_unknown _ _ u Hu).
      fold (parse_elements http_get user_info post).
      rewrite (parse_elements_table_free _ _ post Hpost).
      cbn. rewrite !app_nil_r. reflexivity.
    + intros e Hin He. rewrite Forall_forall in Hfree.
      pose proof (Hfree e Hin) as Hf.
      assert (Ht : String.eqb (tag e) "TABLE" = false).
      { destruct e as [f cs]. cbn [table_free] in Hf.
        apply andb_true_iff in Hf. destruct Hf as [Hf _].
        apply negb_true_iff in Hf. exact Hf. }
      destruct (parsed_recognized e He Ht) as (x & Hx & Hc).
      exists x. rewrite (parse_table_free _ _ e Hf), Hx.
      split; [reflexivity | split; [reflexivity | exact Hc]].
    + intros Hg.
      assert (Hg' : tag (WireElement fields (pre ++ u :: post))
                    = "DATA_ELEMENT_GROUP") by exact Hg.
      rewrite (parse_group _ _ _ Hg'). cbn [wire_children].
      change (get (WireElement fields (pre ++ u :: post)) "title" "")
        with (get (WireElement fields []) "title" "").
      set (g0 := DataElementGroup.__init__ _ None).
      rewrite parse_children_app.
      assert (Hall : forall es,
                 Forall (fun e => table_free e = true) es ->
                 Forall (fun c => parse_data_element http_get user_info c
                                  = (diagnostics c, Ok (parsed c))) es).
      { intros es H. eapply Forall_impl; [| exact H].
        intros c Hc. apply parse_table_free. exact Hc. }
      rewrite (parse_children_parsed _ _ pre (Hall pre Hpre) g0).
      cbn [io_bind].
      rewrite (parse_children_unknown _ _ u post _ Hu).
      rewrite (parse_children_parsed _ _ post (Hall post Hpost)).
      cbn. rewrite !app_nil_r, map_app. unfold objects.
      rewrite flat_map_app. reflexivity.
Qed.

Lemma unknown_tag_skipped_siblings_parsed_witness :
  recognized (tag well_plate_record) = false
  /\ parse_data_element (fun _ => empty_sheet_document) None
       (WireElement [("element_type", "DATA_ELEMENT_GROUP"); ("title", "g")]
          ([WireElement [("element_type", "FILE"); ("id", "3")] []]
             ++ well_plate_record
             :: [WireElement [("element_type", "TEXT"); ("id", "6");
                              ("content", "c")] []]))
     = ([diagnostic well_plate_record],
        Ok (Some (EGroup
                    (mkGroup "DATA_ELEMENT_GROUP" "g" ""
                       [EFile {| FileElement.type := "FILE";
                                 FileElement.element_id := "3" |};
                        EText {| TextElement.type := "TEXT";
                                 TextElement.element_id := "6";
                                 TextElement.content := "c";
                                 TextElement.id := "" |}])))).
Proof.
  split; [reflexivity |].
  destruct (unknown_tag_skipped_siblings_parsed
              (fun _ => empty_sheet_document) None
              well_plate_record
              [WireElement [("element_type", "FILE"); ("id", "3")] []]
              [WireElement [("element_type", "TEXT"); ("id", "6");
                            ("content", "c")] []]
              [("element_type", "DATA_ELEMENT_GROUP"); ("title", "g")]
              eq_refl) as (_ & _ & _ & H).
  destruct H as (_ & _ & Hg).
  - repeat constructor.
  - exact (Hg eq_refl).
Defined.

(** ** Requests that fail *)

Lemma quiet_nil : quiet [].
Proof. intros m url H. destruct H. Qed.

Lemma quiet_app (l1 l2 : list line) : quiet l1 -> quiet l2 -> quiet (l1 ++ l2).
Proof.
  intros H1 H2 m url H. apply in_app_or in H.
  destruct H as [H | H]; [exact (H1 m url H) | exact (H2 m url H)].
Qed.

Lemma quiet_bind {A B : Type} (m : io A) (f : A -> io B) :
  quiet (fst m) -> (forall a, quiet (fst (f a))) -> quiet (fst (io_bind m f)).
Proof.
  intros Hm Hf. destruct m as [l [a | e]]; simpl in *; [| exact Hm].
  specialize (Hf a). destruct (f a) as [l' r]. simpl in *.
  apply quiet_app; assumption.
Qed.

Lemma quiet_text (s : string) : quiet [Text s].
Proof. intros m url [H | []]. discriminate H. Qed.

Lemma quiet_lift {A : Type} (r : result A) : quiet (fst (lift r)).
Proof. exact quiet_nil. Qed.

Lemma quiet_ret {A : Type} (a : A) : quiet (fst (ret a)).
Proof. exact quiet_nil. Qed.

Lemma quiet_io_for_each {A B : Type} (f : A -> io B) (xs : list A) :
  (forall x, quiet (fst (f x))) -> quiet (fst (io_for_each f xs)).
Proof.
  intros Hf. induction xs as [| x xs IH]; cbn [io_for_each].
  - exact quiet_nil.
  - apply quiet_bind; [apply Hf |]. intros y.
    apply quiet_bind; [exact IH |]. intros ys. exact quiet_nil.
Qed.

Lemma table_to_pd_quiet (self : TableElement.t) (header in_place : bool) :
  quiet (fst (TableElement.table_to_pd self header in_place)).
Proof.
  unfold TableElement.table_to_pd.
  apply quiet_bind; [apply quiet_lift |]. intros tb.
  destruct (existsb is_frame (map snd tb)).
  - intros m url [H | [H | []]]; discriminate H.
  - apply quiet_bind; [apply quiet_lift |]. intros c.
    destruct in_place; exact quiet_nil.
Qed.

Lemma try_except_quiet {A : Type} (m : io A) (classes : list exn)
  (handler : exn -> io A) :
  quiet (fst m) -> (forall e, quiet (fst (handler e))) ->
  quiet (fst (try_except m classes handler)).
Proof.
  intros Hm Hh. destruct m as [l [a | e]]; simpl in *; [exact Hm |].
  destruct (existsb (exn_eqb e) classes); [| exact Hm].
  specialize (Hh e). destruct (handler e) as [l' r]. simpl in *.
  apply quiet_app; assumption.
Qed.

Lemma convert_pd_to_export_quiet (self : TableElement.t) (header : bool) :
  quiet (fst (TableElement.convert_pd_to_export self header)).
Proof.
  unfold TableElement.convert_pd_to_export.
  apply quiet_bind; [apply quiet_lift |]. intros tb.
  assert (Hexport :
            quiet (fst (sheets <-- lift (for_each
                          (fun kv => TableElement.export_value
                                       (fst kv) header (snd kv)) tb) ;;
                        ret (Some sheets)))).
  { apply quiet_bind; [apply quiet_lift |]. intros ?. exact quiet_nil. }
  destruct (negb (forallb is_frame (map snd tb))); [| exact Hexport].
  apply quiet_bind.
  - apply try_except_quiet.
    + apply quiet_bind; [apply table_to_pd_quiet |]. intros ?.
      exact quiet_nil.
    + intros e m url [H | []]. discriminate H.
  - intros [|]; [exact Hexport | exact quiet_nil].
Qed.

(** A request followed by [_handle_response]: the request, the failure
    line with the status, and whatever the rest of the call does with
    the status [False] (or [None]). *)
Lemma post_then_handle {T : Type} (ty url : string) (a : reply)
  (return_status : bool) (k : option bool -> Response -> io T) :
  (response <-- requests_send POST url a ;;
   status <-- _handle_response ty response false return_status ;;
   k status response)
  = (Sent POST url :: write_failure ty (reply_status a)
       :: fst (k (if return_status then Some false else None)
                 (mkResponse (reply_status a) POST (reply_json a))),
     snd (k (if return_status then Some false else None)
            (mkResponse (reply_status a) POST (reply_json a)))).
Proof.
  cbn [io_bind requests_send _handle_response Response_eq_int andb
       request_method status_code print ret fst snd app].
  destruct return_status; cbn [io_bind ret app];
    match goal with |- context [k ?st ?r] => destruct (k st r) end;
    reflexivity.
Qed.

Lemma put_then_handle {T : Type} (ty url : string) (a : reply)
  (return_status : bool) (k : option bool -> Response -> io T) :
  (response <-- requests_send PUT url a ;;
   status <-- _handle_response ty response false return_status ;;
   k status response)
  = (Sent PUT url :: update_failure ty (reply_status a)
       :: fst (k (if return_status then Some false else None)
                 (mkResponse (reply_status a) PUT (reply_json a))),
     snd (k (if return_status then Some false else None)
            (mkResponse (reply_status a) PUT (reply_json a)))).
Proof.
  cbn [io_bind requests_send _handle_response Response_eq_int andb
       request_method status_code print ret fst snd app].
  destruct return_status; cbn [io_bind ret app];
    match goal with |- context [k ?st ?r] => destruct (k st r) end;
    reflexivity.
Qed.

Lemma reported_quiet {T : Type} (run : io T) (failure : line)
  (kept : T -> Prop) :
  quiet (fst run) -> (forall self', snd run = Ok self' -> kept self') ->
  reported run failure kept.
Proof.
  intros Hq Hk. split; [| exact Hk].
  intros m url H. destruct (Hq m url H).
Qed.

Lemma reported_sent {T : Type} (l : list line) (r : result T)
  (m : http_method) (url : string) (failure : line) (kept : T -> Prop) :
  (forall self', r = Ok self' -> kept self') ->
  reported (Sent m url :: failure :: l, r) failure kept.
Proof.
  intros Hk. split; [| exact Hk].
  intros m' url' _. right. left. reflexivity.
Qed.

Lemma DataElement_write_reported (a : reply) (self : DataElement.t)
  (ui : LabFolderUserInfo) (entry : string) :
  reported (DataElement.write_to_labfolder a self ui entry)
           (write_failure (DataElement.type self) (reply_status a))
           (fun self' => self' = self).
Proof.
  unfold DataElement.write_to_labfolder. destruct (String.eqb entry "").
  - apply reported_quiet; [apply quiet_text |].
    intros self' H. inversion H. reflexivity.
  - rewrite (post_then_handle (DataElement.type self) _ a true
               (fun status response =>
                  match status with
                  | Some true =>
                      id <-- lift (json_id response) ;;
                      ret (DataElement.mk (DataElement.type self) id
                                          (DataElement.description self))
                  | _ => ret self
                  end)).
    apply reported_sent. intros self' H. inversion H. reflexivity.
Qed.

Lemma DataElement_update_reported (a : reply) (self : DataElement.t)
  (ui : LabFolderUserInfo) :
  reported (DataElement.update_on_labfolder a self ui)
           (update_failure (DataElement.type self) (reply_status a))
           (fun self' => self' = self).
Proof.
  unfold DataElement.update_on_labfolder.
  destruct (String.eqb (DataElement.description self) "").
  - apply reported_quiet; [apply quiet_text |].
    intros self' H. inversion H. reflexivity.
  - rewrite (put_then_handle (DataElement.type self) _ a false
               (fun _ _ => ret self)).
    apply reported_sent. intros self' H. inversion H. reflexivity.
Qed.

Lemma TextElement_write_reported (a : reply) (self : TextElement.t)
  (ui : LabFolderUserInfo) (entry : string) :
  reported (TextElement.write_to_labfolder a self ui entry)
           (write_failure (TextElement.type self) (reply_status a))
           (fun self' => self' = self).
Proof.
  unfold TextElement.write_to_labfolder. destruct (String.eqb entry "").
  - apply reported_quiet; [apply quiet_text |].
    intros self' H. inversion H. reflexivity.
  - rewrite (post_then_handle (TextElement.type self) _ a true
               (fun status response =>
                  match status with
                  | Some true =>
                      i <-- lift (json_id response) ;;
                      ret (TextElement.mk (TextElement.type self)
                             (TextElement.element_id self)
                             (TextElement.content self) i)
                  | _ => ret self
                  end)).
    apply reported_sent. intros self' H. inversion H. reflexivity.
Qed.

Lemma TextElement_update_reported (a : reply) (self : TextElement.t)
  (ui : LabFolderUserInfo) :
  reported (TextElement.update_on_labfolder a self ui)
           (update_failure (TextElement.type self) (reply_status a))
           (fun self' => self' = self).
Proof.
  unfold TextElement.update_on_labfolder.
  destruct (String.eqb (TextElement.content self) "").
  - apply reported_quiet; [apply quiet_text |].
    intros self' H. inversion H. reflexivity.
  - rewrite (put_then_handle (TextElement.type self) _ a false
               (fun _ _ => ret self)).
    apply reported_sent. intros self' H. inversion H. reflexivity.
Qed.

Lemma TableElement_after_convert {T : Type} (self : TableElement.t)
  (header : bool) (failure : line) (kept : T -> Prop)
  (k : option (dict string wire_sheet) -> io T) :
  (forall c, reported (k c) failure kept) ->
  reported (table_content <-- TableElement.convert_pd_to_export self header ;;
            k table_content) failure kept.
Proof.
  intros Hk.
  pose proof (convert_pd_to_export_quiet self header) as Hq.
  destruct (TableElement.convert_pd_to_export self header) as [l [c | e]];
    cbn [io_bind fst] in *.
  - destruct (Hk c) as [Hsent Hkept]. destruct (k c) as [l' r].
    cbn [fst snd] in *. split; [| exact Hkept].
    intros m url H. apply in_or_app. right.
    apply in_app_or in H. destruct H as [H | H]; [destruct (Hq m url H) |].
    exact (Hsent m url H).
  - apply reported_quiet; [exact Hq |]. intros self' H. discriminate H.
Qed.

Lemma TableElement_write_reported (a : reply) (self : TableElement.t)
  (ui : LabFolderUserInfo) (entry : string) (header : bool) :
  reported (TableElement.write_to_labfolder a self ui entry header)
           (write_failure (TableElement.type self) (reply_status a))
           (fun self' => self' = self).
Proof.
  assert (Hcontinue :
    reported
      (match TableElement.table self with
       | None => print (Text "No table to write.") ;;; ret self
       | Some _ =>
           table_content <-- TableElement.convert_pd_to_export self header ;;
           match table_content with
           | None =>
               print (Text "Could not convert table to export format.") ;;;
               ret self
           | Some _ =>
               response <-- requests_send POST
                              (api_address ui ++ "elements/table")%string a ;;
               status <-- _handle_response (TableElement.type self)
                            response false true ;;
               match status with
               | Some true =>
                   i <-- lift (json_id response) ;;
                   ret (TableElement.set_element_id self i)
               | _ => ret self
               end
           end
       end)
      (write_failure (TableElement.type self) (reply_status a))
      (fun self' => self' = self)).
  { destruct (TableElement.table self).
    - apply TableElement_after_convert. intros [c |].
      + rewrite (post_then_handle (TableElement.type self) _ a true
                   (fun status response =>
                      match status with
                      | Some true =>
                          i <-- lift (json_id response) ;;
                          ret (TableElement.set_element_id self i)
                      | _ => ret self
                      end)).
        apply reported_sent. intros self' H. inversion H. reflexivity.
      + apply reported_quiet; [apply quiet_text |].
        intros self' H. inversion H. reflexivity.
    - apply reported_quiet; [apply quiet_text |].
      intros self' H. inversion H. reflexivity. }
  unfold TableElement.write_to_labfolder.
  destruct (String.eqb entry "" && negb (String.eqb (TableElement.entry_id self) ""));
    [exact Hcontinue |].
  destruct (String.eqb entry "" && String.eqb (TableElement.entry_id self) "");
    [| exact Hcontinue].
  apply reported_quiet; [apply quiet_text |].
  intros self' H. inversion H. reflexivity.
Qed.

Lemma TableElement_update_reported (a : reply) (self : TableElement.t)
  (ui : LabFolderUserInfo) (header : bool) :
  reported (TableElement.update_on_labfolder a self ui header)
           (update_failure (TableElement.type self) (reply_status a))
           (fun self' => self' = self).
Proof.
  unfold TableElement.update_on_labfolder.
  destruct (TableElement.table self).
  - apply TableElement_after_convert. intros [c |].
    + rewrite (put_then_handle (TableElement.type self) _ a false
                 (fun _ _ => ret self)).
      apply reported_sent. intros self' H. inversion H. reflexivity.
    + apply reported_quiet; [apply quiet_text |].
      intros self' H. inversion H. reflexivity.
  - apply reported_quiet; [apply quiet_text |].
    intros self' H. inversion H. reflexivity.
Qed.

(** ** Building the payload of a group *)

(** Induction over an element and, for a group, over its children. *)
Lemma Element_nested_ind (P : Element -> Prop) :
  (forall x, P (EData x)) ->
  (forall x, P (EDescriptive x)) ->
  (forall x, P (EFile x)) ->
  (forall x, P (EImage x)) ->
  (forall x, P (EText x)) ->
  (forall x, P (ETable x)) ->
  (forall ty ti i cs, Forall P cs -> P (EGroup (mkGroup ty ti i cs))) ->
  forall e, P e.
Proof.
  intros HData HDescriptive HFile HImage HText HTable HGroup.
  fix IH 1.
  intros [x | x | x | x | x | [ty ti i cs] | x];
    [apply HData | apply HDescriptive | apply HFile | apply HImage
     | apply HText | | apply HTable].
  apply HGroup. induction cs as [| c cs IHcs]; constructor.
  - apply IH.
  - exact IHcs.
Qed.

Lemma child_to_dict_group (ty ti i : string) (cs : list Element) :
  child_to_dict (EGroup (mkGroup ty ti i cs))
  = (r <-- children_to_dict cs ;;
     ret (JDict [("type", JStr ty); ("title", JStr ti);
                 ("children", JList (fst r))],
          EGroup (mkGroup ty ti i (snd r)))).
Proof. reflexivity. Qed.

Lemma to_dict_sheet_quiet (kv : string * sheet_value) :
  quiet (fst (TableElement.to_dict_sheet kv)).
Proof.
  unfold TableElement.to_dict_sheet.
  destruct (snd kv); try exact quiet_nil. apply quiet_text.
Qed.

Lemma TableElement_to_dict_quiet (self : TableElement.t) (in_place : bool) :
  quiet (fst (TableElement.to_dict self in_place)).
Proof.
  unfold TableElement.to_dict.
  apply quiet_bind; [apply quiet_lift |]. intros tb.
  apply quiet_bind; [apply quiet_io_for_each, to_dict_sheet_quiet |].
  intros tb'. destruct in_place; exact quiet_nil.
Qed.

Lemma children_to_dict_quiet (cs : list Element) :
  Forall (fun c => quiet (fst (child_to_dict c))) cs ->
  quiet (fst (children_to_dict cs)).
Proof.
  induction 1 as [| c cs Hc _ IH]; cbn [children_to_dict].
  - exact quiet_nil.
  - apply quiet_bind; [exact Hc |]. intros r.
    apply quiet_bind; [exact IH |]. intros rs. exact quiet_nil.
Qed.

Lemma child_to_dict_quiet (e : Element) : quiet (fst (child_to_dict e)).
Proof.
  induction e using Element_nested_ind;
    try exact quiet_nil.
  - cbn [child_to_dict].
    apply quiet_bind; [apply TableElement_to_dict_quiet |].
    intros r. exact quiet_nil.
  - rewrite child_to_dict_group.
    apply quiet_bind; [apply children_to_dict_quiet; assumption |].
    intros r. exact quiet_nil.
Qed.

Lemma to_dict_sheets_frameless (tb : tables) :
  existsb is_frame (map snd tb) = false ->
  snd (io_for_each TableElement.to_dict_sheet tb) = Ok tb.
Proof.
  induction tb as [| kv tb IH]; cbn [map existsb io_for_each]; intros H.
  - reflexivity.
  - apply orb_false_elim in H. destruct H as [Hkv Htb].
    rewrite snd_io_bind.
    assert (Hone : snd (TableElement.to_dict_sheet kv) = Ok kv).
    { unfold TableElement.to_dict_sheet.
      destruct (snd kv); try reflexivity. discriminate Hkv. }
    rewrite Hone, snd_io_bind, (IH Htb). reflexivity.
Qed.

Lemma TableElement_to_dict_frameless (self : TableElement.t)
  (r : option tables * TableElement.t) :
  holds_frame (ETable self) = false ->
  snd (TableElement.to_dict self true) = Ok r -> snd r = self.
Proof.
  cbn [holds_frame]. unfold TableElement.to_dict, TableElement.the_table.
  destruct self as [ty en el [tb |] cd ow ti]; cbn [TableElement.table];
    intros H Hr; [| discriminate Hr].
  cbn [lift io_bind app] in Hr.
  pose proof (to_dict_sheets_frameless tb H) as Htb.
  destruct (io_for_each TableElement.to_dict_sheet tb) as [l [tb' | e]];
    cbn in Htb, Hr; [| discriminate Hr].
  inversion Htb. subst tb'. inversion Hr. reflexivity.
Qed.

Lemma children_to_dict_frameless (cs : list Element) :
  Forall (fun c => holds_frame c = false ->
                   forall r, snd (child_to_dict c) = Ok r -> snd r = c) cs ->
  existsb holds_frame cs = false ->
  forall r, snd (children_to_dict cs) = Ok r -> snd r = cs.
Proof.
  induction 1 as [| c cs Hc _ IH]; cbn [existsb children_to_dict];
    intros Hf r Hr.
  - inversion Hr. reflexivity.
  - apply orb_false_elim in Hf. destruct Hf as [Hfc Hfcs].
    rewrite snd_io_bind in Hr.
    destruct (snd (child_to_dict c)) as [rc | e] eqn:Ec; [| discriminate Hr].
    rewrite snd_io_bind in Hr.
    destruct (snd (children_to_dict cs)) as [rcs | e] eqn:Ecs;
      [| discriminate Hr].
    inversion Hr. cbn [snd].
    rewrite (Hc Hfc rc eq_refl), (IH Hfcs rcs eq_refl). reflexivity.
Qed.

(** Building the payload leaves an element as it is when no table
    inside it holds a DataFrame. *)
Lemma child_to_dict_frameless (e : Element) :
  holds_frame e = false ->
  forall r, snd (child_to_dict e) = Ok r -> snd r = e.
Proof.
  induction e using Element_nested_ind; intros Hf r Hr;
    try discriminate Hr.
  - inversion Hr. reflexivity.
  - cbn [child_to_dict] in Hr. rewrite snd_io_bind in Hr.
    destruct (snd (TableElement.to_dict x true)) as [rt | ex] eqn:Et;
      [| discriminate Hr].
    inversion Hr. cbn [snd].
    rewrite (TableElement_to_dict_frameless x rt Hf Et). reflexivity.
  - rewrite child_to_dict_group, snd_io_bind in Hr.
    destruct (snd (children_to_dict cs)) as [rcs | ex] eqn:Ecs;
      [| discriminate Hr].
    inversion Hr. cbn [snd].
    rewrite (children_to_dict_frameless cs H Hf rcs Ecs). reflexivity.
Qed.

Lemma DataElementGroup_to_dict_eq (ty ti i : string) (cs : list Element) :
  DataElementGroup.to_dict (mkGroup ty ti i cs)
  = (r <-- children_to_dict cs ;;
     ret (JDict [("type", JStr ty); ("title", JStr ti);
                 ("children", JList (fst r))],
          mkGroup ty ti i (snd r))).
Proof.
  unfold DataElementGroup.to_dict. rewrite child_to_dict_group.
  rewrite io_bind_assoc. apply io_bind_ext. intros r.
  rewrite io_bind_ret. reflexivity.
Qed.

Lemma DataElementGroup_to_dict_quiet (self : DataElementGroup.t) :
  quiet (fst (DataElementGroup.to_dict self)).
Proof.
  unfold DataElementGroup.to_dict.
  apply quiet_bind; [apply child_to_dict_quiet |].
  intros r. destruct (snd r); exact quiet_nil.
Qed.

(** What a group is after its payload has been built: the same type,
    title and identifier, and the same children when no table inside
    holds a DataFrame. *)
Lemma DataElementGroup_to_dict_state (self : DataElementGroup.t)
  (r : payload * DataElementGroup.t) :
  snd (DataElementGroup.to_dict self) = Ok r ->
  DataElementGroup.type (snd r) = DataElementGroup.type self
  /\ DataElementGroup.title (snd r) = DataElementGroup.title self
  /\ DataElementGroup.element_id (snd r) = DataElementGroup.element_id self
  /\ (holds_frame (EGroup self) = false -> snd r = self).
Proof.
  destruct self as [ty ti i cs]. rewrite DataElementGroup_to_dict_eq.
  rewrite snd_io_bind.
  destruct (snd (children_to_dict cs)) as [rcs | ex] eqn:Ecs;
    intros Hr; [| discriminate Hr].
  inversion Hr. cbn. repeat split.
  intros Hf. f_equal.
  pose proof (child_to_dict_frameless (EGroup (mkGroup ty ti i cs)) Hf) as H.
  rewrite child_to_dict_group, snd_io_bind, Ecs in H.
  specialize (H _ eq_refl). cbn in H. inversion H as [H']. rewrite H'.
  reflexivity.
Qed.

Lemma DataElementGroup_after_to_dict (self : DataElementGroup.t)
  (failure : DataElementGroup.t -> line)
  (k : payload * DataElementGroup.t -> io DataElementGroup.t) :
  (forall r, DataElementGroup.type (snd r) = DataElementGroup.type self ->
             reported (k r) (failure (snd r)) (fun self' => self' = snd r)) ->
  (forall g, DataElementGroup.type g = DataElementGroup.type self ->
             failure g = failure self) ->
  reported (r <-- DataElementGroup.to_dict self ;; k r) (failure self)
           (group_kept self).
Proof.
  intros Hk Hfail.
  pose proof (DataElementGroup_to_dict_quiet self) as Hq.
  pose proof (DataElementGroup_to_dict_state self) as Hstate.
  destruct (DataElementGroup.to_dict self) as [l [r | e]];
    cbn [io_bind fst snd] in *.
  - destruct (Hstate r eq_refl) as (Hty & Hti & Hid & Hsame).
    specialize (Hk r Hty). rewrite (Hfail _ Hty) in Hk.
    destruct Hk as [Hsent Hkept]. destruct (k r) as [l' res].
    cbn [fst snd] in *. split.
    + intros m url H. apply in_or_app. right.
      apply in_app_or in H. destruct H as [H | H]; [destruct (Hq m url H) |].
      exact (Hsent m url H).
    + intros self' H. rewrite (Hkept self' H).
      repeat split; assumption.
  - apply reported_quiet; [exact Hq |]. intros self' H. discriminate H.
Qed.

Lemma DataElementGroup_write_reported (a : reply) (self : DataElementGroup.t)
  (ui : LabFolderUserInfo) (entry : string) :
  reported (DataElementGroup.write_to_labfolder a self ui entry)
           (write_failure (DataElementGroup.type self) (reply_status a))
           (group_kept self).
Proof.
  unfold DataElementGroup.write_to_labfolder. destruct (String.eqb entry "").
  - apply reported_quiet; [apply quiet_text |].
    intros self' H. inversion H. repeat split.
  - apply (DataElementGroup_after_to_dict self
             (fun g => write_failure (DataElementGroup.type g)
                                     (reply_status a))).
    + intros r _.
      rewrite (post_then_handle (DataElementGroup.type (snd r)) _ a false
                 (fun _ _ => ret (snd r))).
      apply reported_sent. intros self' H. inversion H. reflexivity.
    + intros g Hg. rewrite Hg. reflexivity.
Qed.

Lemma DataElementGroup_update_reported (a : reply)
  (self : DataElementGroup.t) (ui : LabFolderUserInfo) :
  reported (DataElementGroup.update_on_labfolder a self ui)
           (update_failure (DataElementGroup.type self) (reply_status a))
           (group_kept self).
Proof.
  unfold DataElementGroup.update_on_labfolder.
  destruct (String.eqb (DataElementGroup.element_id self) "").
  - apply reported_quiet; [apply quiet_text |].
    intros self' H. inversion H. repeat split.
  - apply (DataElementGroup_after_to_dict self
             (fun g => update_failure (DataElementGroup.type g)
                                      (reply_status a))).
    + intros r _.
      rewrite (put_then_handle (DataElementGroup.type (snd r)) _ a false
                 (fun _ _ => ret (snd r))).
      apply reported_sent. intros self' H. inversion H. reflexivity.
    + intros g Hg. rewrite Hg. reflexivity.
Qed.

(** C8, as stated, fails for a group: the request for a group whose child
    is a table holding a DataFrame is refused with status 500, the
    failure line is printed, and the child's sheet has been turned into
    a dict while the payload was built. *)
Lemma group_write_refused_changes_child :
  ~ (200 <= reply_status refused < 300)
  /\ In (Sent POST "https://lab.example/api/v2/elements/data")
        (fst (DataElementGroup.write_to_labfolder refused group_of_frame
                session "e1"))
  /\ snd (DataElementGroup.write_to_labfolder refused group_of_frame
            session "e1")
     = Ok (mkGroup "DATA_ELEMENT_GROUP" "g" ""
             [ETable (TableElement.set_table (table_of_frame inf_frame)
                        (Some [("Sheet1",
                                SheetColumns
                                  [(SStr "a",
                                    [(0, SNum 1); (1, SInf false)])])]))])
  /\ snd (DataElementGroup.write_to_labfolder refused group_of_frame
            session "e1")
     <> Ok group_of_frame.
Proof.
  split; [cbn; lia |]. split; [left; reflexivity |].
  split; [vm_compute; reflexivity |].
  vm_compute. intros H. discriminate H.
Qed.

(** C8, amended: when the status is not 2xx, every write and update of
    an element that sends its request prints the failure line with the
    status code and returns the object as it was; a group keeps its
    type, title and identifier, and its children as they were when no
    table inside it holds a DataFrame. *)
Theorem failed_request_reported_object_kept
  (a : reply) (ui : LabFolderUserInfo) (entry : string) (header : bool)
  (d : DataElement.t) (t : TextElement.t) (tb : TableElement.t)
  (g : DataElementGroup.t) :
  ~ (200 <= reply_status a < 300) ->
  reported (DataElement.write_to_labfolder a d ui entry)
           (write_failure (DataElement.type d) (reply_status a))
           (fun d' => d' = d)
  /\ reported (DataElement.update_on_labfolder a d ui)
              (update_failure (DataElement.type d) (reply_status a))
              (fun d' => d' = d)
  /\ reported (TextElement.write_to_labfolder a t ui entry)
              (write_failure (TextElement.type t) (reply_status a))
              (fun t' => t' = t)
  /\ reported (TextElement.update_on_labfolder a t ui)
              (update_failure (TextElement.type t) (reply_status a))
              (fun t' => t' = t)
  /\ reported (TableElement.write_to_labfolder a tb ui entry header)
              (write_failure (TableElement.type tb) (reply_status a))
              (fun tb' => tb' = tb)
  /\ reported (TableElement.update_on_labfolder a tb ui header)
              (update_failure (TableElement.type tb) (reply_status a))
              (fun tb' => tb' = tb)
  /\ reported (DataElementGroup.write_to_labfolder a g ui entry)
              (write_failure (DataElementGroup.type g) (reply_status a))
              (group_kept g)
  /\ reported (DataElementGroup.update_on_labfolder a g ui)
              (update_failure (DataElementGroup.type g) (reply_status a))
              (group_kept g).
Proof.
  intros _.
  split; [apply DataElement_write_reported |].
  split; [apply DataElement_update_reported |].
  split; [apply TextElement_write_reported |].
  split; [apply TextElement_update_reported |].
  split; [apply TableElement_write_reported |].
  split; [apply TableElement_update_reported |].
  split; [apply DataElementGroup_write_reported
         | apply DataElementGroup_update_reported].
Qed.

Lemma failed_request_reported_object_kept_witness :
  ~ (200 <= reply_status refused < 300)
  /\ reported (DataElement.write_to_labfolder refused
                 (DataElement.__init__ "" "d") session "e1")
              (write_failure "DATA" 500)
              (fun d' => d' = DataElement.__init__ "" "d").
Proof.
  assert (H : ~ (200 <= reply_status refused < 300)) by (cbn; lia).
  split; [exact H |].
  exact (proj1 (failed_request_reported_object_kept
                  refused session "e1" true
                  (DataElement.__init__ "" "d")
                  (TextElement.__init__ "c" "")
                  (table_of_frame inf_frame)
                  group_of_frame H)).
Defined.

(** ** Frames *)

Lemma values_enumerate_from {A : Type} (i : Z) (l : list A) :
  map snd (enumerate_from i l) = l.
Proof.
  revert i. induction l as [| x l IH]; intros i; cbn; [| rewrite IH];
    reflexivity.
Qed.

Lemma length_enumerate_from {A : Type} (i : Z) (l : list A) :
  List.length (enumerate_from i l) = List.length l.
Proof.
  revert i. induction l as [| x l IH]; intros i; cbn; [| rewrite IH];
    reflexivity.
Qed.

Lemma Forall_insert_by_label (P : Z * list scalar -> Prop)
  (r : Z * list scalar) (l : list (Z * list scalar)) :
  P r -> Forall P l -> Forall P (insert_by_label r l).
Proof.
  intros Hr Hl. induction Hl as [| r' l Hr' Hl IH]; cbn.
  - constructor; [exact Hr | constructor].
  - destruct (fst r <=? fst r'); repeat constructor; assumption.
Qed.

Lemma Forall_sorted (P : Z * list scalar -> Prop)
  (l : list (Z * list scalar)) :
  Forall P l -> Forall P (fold_right insert_by_label [] l).
Proof.
  induction 1 as [| r l Hr Hl IH]; cbn; [constructor |].
  apply Forall_insert_by_label; assumption.
Qed.

Lemma length_range (n : nat) : List.length (range n) = n.
Proof. unfold range. rewrite length_map, length_seq. reflexivity. Qed.

Lemma map_snd_combine_eq {A B : Type} (a : list A) (b : list B) :
  List.length b = List.length a -> map snd (combine a b) = b.
Proof.
  revert b. induction a as [| x a IH]; intros [| y b] H; cbn in *;
    try reflexivity; try discriminate H.
  rewrite IH; [reflexivity | congruence].
Qed.

Lemma length_dtypes (df : DataFrame) :
  List.length (dtypes df) = List.length (columns df).
Proof. unfold dtypes. rewrite length_map, length_seq. reflexivity. Qed.

Lemma rectangular_loc_set_columns (df df' : DataFrame) :
  rectangular df ->
  loc_set 0 (columns df) (shift_index df) = Ok df' ->
  columns df' = columns df /\ rectangular df'.
Proof.
  unfold loc_set, rectangular. intros Hr H.
  assert (Hshift : Forall (fun r : Z * list scalar =>
                             List.length (snd r) = List.length (columns df))
                          (rows (shift_index df))).
  { cbn [rows shift_index]. apply Forall_map. exact Hr. }
  assert (Hheld : List.length
                    (map (fun dv : dtype * scalar => stored (fst dv) (snd dv))
                         (combine (dtypes (shift_index df)) (columns df)))
                  = List.length (columns df)).
  { rewrite length_map, length_combine, length_dtypes.
    cbn [columns shift_index]. apply Nat.min_id. }
  destruct (existsb _ _).
  - destruct (forallb _ _); [| discriminate H].
    apply Ok_inj in H. subst df'. cbn [columns rows shift_index].
    split; [reflexivity |].
    apply Forall_map. eapply Forall_impl; [| exact Hshift].
    intros r Hlen. cbn beta.
    destruct (0 =? fst r); [exact Hheld | exact Hlen].
  - apply Ok_inj in H. subst df'. cbn [columns rows shift_index].
    split; [reflexivity |].
    apply Forall_app. split; [exact Hshift |].
    constructor; [reflexivity | constructor].
Qed.

Lemma sanitize_spec (v : scalar) :
  sanitize v = if nonfinite v then SNone else v.
Proof. destruct v; reflexivity. Qed.

Lemma nonfinite_sanitize (v : scalar) : nonfinite (sanitize v) = false.
Proof. destruct v; reflexivity. Qed.

Lemma cell_values_to_wire_grid (df : DataFrame) :
  rectangular df ->
  cell_values (to_wire_grid df) = map (map Ok) (values df).
Proof.
  unfold rectangular, cell_values, to_wire_grid, values.
  rewrite !map_map. intros H. apply map_ext_Forall.
  eapply Forall_impl; [| exact H]. intros r Hr. cbn [snd].
  rewrite map_map. cbn [snd get_value wire_cell str_get String.eqb].
  rewrite <- (map_snd_combine_eq (columns df) (snd r) Hr) at 2.
  rewrite map_map. apply map_ext. intros cv.
  reflexivity.
Qed.

Lemma rectangular_laid_out (header : bool) (df laid : DataFrame) :
  rectangular df -> laid_out header df = Ok laid ->
  columns laid = columns df /\ rectangular laid.
Proof.
  unfold laid_out. intros Hr H.
  assert (Hstep : forall df1, columns df1 = columns df -> rectangular df1 ->
                              Ok (sort_index df1) = Ok laid ->
                              columns laid = columns df /\ rectangular laid).
  { intros df1 Hc Hr1 E. inversion E. cbn. split; [exact Hc |].
    unfold rectangular. cbn [rows columns sort_index].
    apply Forall_sorted. exact Hr1. }
  destruct header.
  - destruct (loc_set 0 (columns df) (shift_index df)) as [df1 | e] eqn:E;
      cbn [bind] in H; [| discriminate H].
    destruct (rectangular_loc_set_columns df df1 Hr E) as [Hc Hr1].
    exact (Hstep df1 Hc Hr1 H).
  - cbn [bind] in H. exact (Hstep df eq_refl Hr H).
Qed.

(** C9: in the grid [export_sheet] emits for a rectangular frame, the
    cells read back the values of the frame as laid out (the header row,
    if any, then the rows by label), with [nan], [inf] and [-inf]
    replaced by [None] and every other value as it is; no emitted cell
    holds [nan], [inf] or [-inf]. *)
Theorem export_replaces_nan_and_infinities
  (sheet : string) (header : bool) (df : DataFrame) (w : wire_sheet) :
  rectangular df ->
  export_sheet sheet header df = Ok w ->
  (exists laid,
      laid_out header df = Ok laid
      /\ cell_values (dataTable w)
         = map (map (fun v => Ok (if nonfinite v then SNone else v)))
               (values laid))
  /\ Forall (fun r => Forall (fun kc => exists v, snd kc = wire_cell v
                                                  /\ nonfinite v = false)
                             (snd r))
            (dataTable w).
Proof.
  intros Hr H.
  destruct (laid_out header df) as [laid | e] eqn:El.
  - destruct (rectangular_laid_out header df laid Hr El) as [Hc Hrl].
    assert (Hw : dataTable w
                 = to_wire_grid
                     (map_cells sanitize
                        {| columns := range (List.length (columns laid));
                           rows := enumerate_from 0 (values laid) |})).
    { unfold export_sheet in H. unfold laid_out in El.
      destruct (if header then loc_set 0 (columns df) (shift_index df)
                else Ok df) as [df1 | e]; cbn [bind] in *;
        [| discriminate El].
      inversion El. subst laid. inversion H. reflexivity. }
    assert (Hrect : rectangular
                      (map_cells sanitize
                         {| columns := range (List.length (columns laid));
                            rows := enumerate_from 0 (values laid) |})).
    { unfold rectangular, map_cells. cbn [columns rows].
      rewrite length_range. apply Forall_map.
      apply Forall_forall. intros r Hin. cbn [snd].
      rewrite length_map.
      assert (Hin' : In (snd r) (values laid)).
      { rewrite <- (values_enumerate_from 0 (values laid)).
        apply in_map. exact Hin. }
      unfold values in Hin'. apply in_map_iff in Hin'.
      destruct Hin' as (r0 & E0 & Hin0). rewrite <- E0.
      unfold rectangular in Hrl. rewrite Forall_forall in Hrl.
      exact (Hrl r0 Hin0). }
    split.
    + exists laid. split; [reflexivity |].
      rewrite Hw, (cell_values_to_wire_grid _ Hrect).
      unfold values at 1, map_cells. cbn [rows].
      rewrite !map_map. cbn [snd].
      rewrite <- (values_enumerate_from 0 (values laid)) at 2.
      rewrite !map_map. apply map_ext. intros r.
      rewrite map_map. apply map_ext. intros v.
      rewrite sanitize_spec. reflexivity.
    + rewrite Hw. unfold to_wire_grid, map_cells. cbn [columns rows].
      rewrite map_map. apply Forall_map. apply Forall_forall.
      intros r _. cbn [snd fst]. apply Forall_map. apply Forall_forall.
      intros cv Hin. cbn [snd]. exists (snd cv). split; [reflexivity |].
      destruct cv as [c v]. apply in_combine_r in Hin.
      apply in_map_iff in Hin. destruct Hin as (v0 & E & _).
      cbn [snd]. rewrite <- E. apply nonfinite_sanitize.
  - exfalso. unfold export_sheet in H. unfold laid_out in El.
    destruct (if header then loc_set 0 (columns df) (shift_index df)
              else Ok df) as [df1 | e']; cbn [bind] in *;
      discriminate.
Qed.

(** ** Columns that are null in every row *)

Lemma row_values_dicts (r : wire_row) :
  forallb (fun kc => match snd kc with CDict _ => true | _ => false end) r
  = true ->
  row_values r = Ok (map (fun kc => (fst kc, cell_value (snd kc))) r).
Proof.
  unfold row_values.
  induction r as [| [k c] r IH]; cbn [forallb for_each map]; intros H.
  - reflexivity.
  - apply andb_prop in H. destruct H as [Hc Hr]. cbn [snd fst] in *.
    rewrite (IH Hr). destruct c as [f | v | g]; try discriminate Hc.
    cbn [get_value cell_value]. destruct (str_get "value" f); reflexivity.
Qed.

Lemma row_records_dicts (table : grid) :
  all_dicts table = true ->
  for_each (fun kr => row_record (snd kr)) table = Ok (row_dicts table).
Proof.
  unfold all_dicts, row_dicts.
  induction table as [| [k r] table IH]; cbn [forallb for_each map];
    intros H.
  - reflexivity.
  - apply andb_prop in H. destruct H as [Hr Ht]. cbn [snd] in *.
    unfold row_record at 1. rewrite (row_values_dicts r Hr).
    cbn [bind]. rewrite (IH Ht). reflexivity.
Qed.

Lemma union_keys_row_dicts (table : grid) :
  union_keys (row_dicts table) = column_keys table.
Proof.
  unfold union_keys, column_keys, row_dicts.
  generalize (@nil scalar) as acc.
  induction table as [| [k r] table IH]; intros acc; cbn [map fold_left].
  - reflexivity.
  - rewrite IH. unfold keys. cbn [snd]. rewrite map_map. reflexivity.
Qed.

Lemma dict_get_map {A B : Type} (f : A -> B) (k : scalar)
  (d : dict scalar A) :
  dict_get k (map (fun kc => (fst kc, f (snd kc))) d)
  = option_map f (dict_get k d).
Proof.
  induction d as [| [k' v] d IH]; cbn; [reflexivity |].
  destruct (scalar_eqb k k'); [reflexivity | exact IH].
Qed.

Lemma notna_fill_nan (v : scalar) : notna (fill_nan v) = notna v.
Proof. destruct v; reflexivity. Qed.

Lemma existsb_filter_implied {A : Type} (f g : A -> bool) (l : list A) :
  (forall x, f x = true -> g x = true) ->
  existsb f (filter g l) = existsb f l.
Proof.
  intros H. induction l as [| x l IH]; cbn; [reflexivity |].
  destruct (g x) eqn:Eg; cbn; rewrite IH; [reflexivity |].
  destruct (f x) eqn:Ef; [| reflexivity].
  rewrite (H x Ef) in Eg. discriminate Eg.
Qed.

Lemma select_by_position {A : Type} (P : A -> bool) (d : A)
  (pre l : list A) :
  select (map (fun j => P (nth j (pre ++ l) d))
              (seq (List.length pre) (List.length l))) l
  = filter P l.
Proof.
  revert pre. induction l as [| x l IH]; intros pre; cbn [List.length seq map select filter].
  - reflexivity.
  - rewrite app_nth2, Nat.sub_diag by apply Nat.le_refl. cbn [nth].
    specialize (IH (pre ++ [x])).
    rewrite <- app_assoc, length_app, Nat.add_1_r in IH. cbn [app] in IH.
    rewrite IH. reflexivity.
Qed.

Lemma existsb_enumerate_from {A : Type} (f : A -> bool) (i : Z)
  (l : list A) :
  existsb (fun r => f (snd r)) (enumerate_from i l) = existsb f l.
Proof.
  revert i. induction l as [| x l IH]; intros i; cbn; [| rewrite IH];
    reflexivity.
Qed.

Lemma existsb_false_iff {A : Type} (f : A -> bool) (l : list A) :
  existsb f l = false <-> Forall (fun x => f x = false) l.
Proof.
  induction l as [| x l IH]; cbn.
  - split; [constructor | reflexivity].
  - rewrite orb_false_iff, IH. split.
    + intros [Hx Hl]. constructor; assumption.
    + intros H. apply Forall_cons_iff in H. exact H.
Qed.

Lemma nth_map_in_range {A B : Type} (f : A -> B) (l : list A) (j : nat)
  (d : A) (d' : B) :
  (j < List.length l)%nat -> nth j (map f l) d' = f (nth j l d).
Proof.
  intros H. rewrite (nth_indep _ d' (f d)) by (rewrite length_map; exact H).
  apply map_nth.
Qed.

Lemma nth_mask (f : nat -> bool) (n j : nat) :
  (j < n)%nat -> nth j (map f (seq 0 n)) false = f j.
Proof.
  intros H. rewrite (nth_map_in_range f (seq 0 n) j 0%nat false)
    by (rewrite length_seq; exact H).
  rewrite seq_nth by exact H. reflexivity.
Qed.

Lemma existsb_map_compose {A B : Type} (f : B -> bool) (g : A -> B)
  (l : list A) :
  existsb f (map g l) = existsb (fun x => f (g x)) l.
Proof.
  induction l as [| x l IH]; cbn; [| rewrite IH]; reflexivity.
Qed.

Lemma existsb_pointwise {A : Type} (f g : A -> bool) (l : list A) :
  (forall x, f x = g x) -> existsb f l = existsb g l.
Proof.
  intros H. induction l as [| x l IH]; cbn; [| rewrite H, IH]; reflexivity.
Qed.

Lemma notna_nth_existsb (j : nat) (r : list scalar) :
  notna (nth j r SNaN) = true -> existsb notna r = true.
Proof.
  intros H. destruct (Nat.lt_ge_cases j (List.length r)) as [Hlt | Hge].
  - apply existsb_exists. exists (nth j r SNaN). split; [| exact H].
    apply nth_In. exact Hlt.
  - rewrite nth_overflow in H by exact Hge. discriminate H.
Qed.

(** ** The dtypes of a new frame *)

Lemma Forall_enumerate_from {A : Type} (P : A -> Prop) (i : Z)
  (l : list A) :
  Forall P l -> Forall (fun r => P (snd r)) (enumerate_from i l).
Proof.
  intros H. revert i. induction H as [| x l Hx _ IH]; intros i; cbn;
    constructor; [exact Hx | apply IH].
Qed.

Lemma select_length {A B : Type} (mask : list bool) (l1 : list A)
  (l2 : list B) :
  List.length l1 = List.length l2 ->
  List.length (select mask l1) = List.length (select mask l2).
Proof.
  revert l1 l2. induction mask as [| b mask IH]; intros [| x l1] [| y l2] H;
    cbn in *; try reflexivity; try discriminate H.
  destruct b; cbn; rewrite (IH l1 l2) by congruence; reflexivity.
Qed.

Lemma rectangular_fillna_nan (df : DataFrame) :
  rectangular df -> rectangular (fillna_nan df).
Proof.
  unfold rectangular, fillna_nan, map_cells. cbn [columns rows].
  intros H. apply Forall_map. eapply Forall_impl; [| exact H].
  intros r Hr. cbn [snd]. rewrite length_map. exact Hr.
Qed.

Lemma Forall_filter {A : Type} (P : A -> Prop) (p : A -> bool)
  (l : list A) :
  Forall P l -> Forall P (filter p l).
Proof.
  intros H. apply Forall_forall. intros x Hin. apply filter_In in Hin.
  rewrite Forall_forall in H. apply H. exact (proj1 Hin).
Qed.

Lemma rectangular_dropna_rows (df : DataFrame) :
  rectangular df -> rectangular (dropna_rows df).
Proof.
  unfold rectangular, dropna_rows. cbn [columns rows].
  apply Forall_filter.
Qed.

Lemma existsb_in_pointwise {A : Type} (f g : A -> bool) (l : list A) :
  Forall (fun x => f x = g x) l -> existsb f l = existsb g l.
Proof.
  induction 1 as [| x l Hx _ IH]; cbn; [| rewrite Hx, IH]; reflexivity.
Qed.

Lemma rectangular_records_frame (data : list (dict scalar scalar)) :
  rectangular (records_frame data).
Proof.
  unfold rectangular, records_frame. cbn [columns rows].
  apply (Forall_enumerate_from
           (fun r => List.length r = List.length (union_keys data))).
  apply Forall_map. apply Forall_forall. intros d _.
  apply length_map.
Qed.

Lemma notna_as_float (v : scalar) : notna (as_float v) = notna v.
Proof. destruct v; reflexivity. Qed.

Lemma fill_nan_as_float (v : scalar) :
  fill_nan (as_float v) = as_float (fill_nan v).
Proof. destruct v; reflexivity. Qed.

Lemma cast_cons (b : bool) (kinds : list bool) (v : scalar)
  (r : list scalar) :
  cast (b :: kinds) (v :: r)
  = (if b then as_float v else v) :: cast kinds r.
Proof. reflexivity. Qed.

Lemma cast_nil_r (kinds : list bool) : cast kinds [] = [].
Proof. destruct kinds; reflexivity. Qed.

Lemma length_cast (kinds : list bool) (r : list scalar) :
  List.length kinds = List.length r ->
  List.length (cast kinds r) = List.length r.
Proof.
  intros H. unfold cast. rewrite length_map, length_combine, H.
  apply Nat.min_id.
Qed.

Lemma cast_fill (kinds : list bool) (r : list scalar) :
  map fill_nan (cast kinds r) = cast kinds (map fill_nan r).
Proof.
  revert r. induction kinds as [| b kinds IH]; intros [| v r];
    try reflexivity.
  cbn [map]. rewrite !cast_cons. cbn [map]. rewrite IH. f_equal.
  destruct b; [apply fill_nan_as_float | reflexivity].
Qed.

Lemma existsb_notna_cast (kinds : list bool) (r : list scalar) :
  List.length kinds = List.length r ->
  existsb notna (cast kinds r) = existsb notna r.
Proof.
  revert r. induction kinds as [| b kinds IH]; intros [| v r] H;
    try reflexivity; try discriminate H.
  rewrite cast_cons. cbn [existsb]. rewrite IH by (cbn in H; congruence).
  f_equal. destruct b; [apply notna_as_float | reflexivity].
Qed.

Lemma notna_nth_cast (kinds : list bool) (r : list scalar) (j : nat) :
  List.length kinds = List.length r ->
  notna (nth j (cast kinds r) SNaN) = notna (nth j r SNaN).
Proof.
  revert r j. induction kinds as [| b kinds IH]; intros [| v r] j H;
    try reflexivity; try discriminate H.
  rewrite cast_cons. destruct j as [| j]; cbn [nth].
  - destruct b; [apply notna_as_float | reflexivity].
  - apply IH. cbn in H. congruence.
Qed.

Lemma select_nil_r {A : Type} (mask : list bool) :
  select mask (@nil A) = [].
Proof. destruct mask; reflexivity. Qed.

Lemma select_cast (mask kinds : list bool) (r : list scalar) :
  select mask (cast kinds r) = cast (select mask kinds) (select mask r).
Proof.
  revert kinds r. induction mask as [| m mask IH]; intros kinds r.
  - reflexivity.
  - destruct kinds as [| b kinds].
    + cbn [cast combine map select]. reflexivity.
    + destruct r as [| v r].
      * rewrite cast_nil_r. cbn [select]. rewrite cast_nil_r. reflexivity.
      * rewrite cast_cons. cbn [select]. destruct m.
        -- rewrite cast_cons, IH. reflexivity.
        -- apply IH.
Qed.

Lemma rectangular_astype (kinds : list bool) (df : DataFrame) :
  rectangular df -> List.length kinds = List.length (columns df) ->
  rectangular (astype kinds df).
Proof.
  unfold rectangular, astype. cbn [columns rows]. intros H Hk.
  apply Forall_map. eapply Forall_impl; [| exact H].
  intros r Hr. cbn [snd]. rewrite length_cast; congruence.
Qed.

Lemma fillna_nan_astype (kinds : list bool) (df : DataFrame) :
  fillna_nan (astype kinds df) = astype kinds (fillna_nan df).
Proof.
  unfold fillna_nan, map_cells, astype. cbn [columns rows].
  f_equal. rewrite !map_map. apply map_ext. intros r. cbn [fst snd].
  rewrite cast_fill. reflexivity.
Qed.

Lemma filter_mapped {A B : Type} (p : B -> bool) (g : A -> B)
  (l : list A) :
  filter p (map g l) = map g (filter (fun x => p (g x)) l).
Proof.
  induction l as [| x l IH]; cbn [map filter]; [reflexivity |].
  destruct (p (g x)); cbn [map]; rewrite IH; reflexivity.
Qed.

Lemma filter_pointwise {A : Type} (p q : A -> bool) (l : list A) :
  Forall (fun x => p x = q x) l -> filter p l = filter q l.
Proof.
  induction 1 as [| x l Hx _ IH]; cbn [filter]; [reflexivity |].
  rewrite Hx, IH. reflexivity.
Qed.

Lemma dropna_rows_astype (kinds : list bool) (df : DataFrame) :
  rectangular df -> List.length kinds = List.length (columns df) ->
  dropna_rows (astype kinds df) = astype kinds (dropna_rows df).
Proof.
  unfold rectangular, dropna_rows, astype. cbn [columns rows].
  intros H Hk. f_equal. rewrite filter_mapped. f_equal.
  apply filter_pointwise. eapply Forall_impl; [| exact H].
  intros r Hr. cbn [snd]. apply existsb_notna_cast. congruence.
Qed.

Lemma column_has_value_astype (kinds : list bool) (df : DataFrame)
  (j : nat) :
  rectangular df -> List.length kinds = List.length (columns df) ->
  column_has_value (rows (astype kinds df)) j
  = column_has_value (rows df) j.
Proof.
  unfold rectangular, column_has_value, astype. cbn [columns rows].
  intros H Hk. rewrite existsb_map_compose. cbn [snd].
  apply existsb_in_pointwise. eapply Forall_impl; [| exact H].
  intros r Hr. cbn beta. apply notna_nth_cast. congruence.
Qed.

Lemma dropna_columns_astype (kinds : list bool) (df : DataFrame) :
  rectangular df -> List.length kinds = List.length (columns df) ->
  dropna_columns (astype kinds df)
  = astype (select (map (column_has_value (rows df))
                        (seq 0 (List.length (columns df)))) kinds)
           (dropna_columns df).
Proof.
  intros H Hk. unfold dropna_columns.
  assert (Hmask : map (column_has_value (rows (astype kinds df)))
                      (seq 0 (List.length (columns (astype kinds df))))
                  = map (column_has_value (rows df))
                        (seq 0 (List.length (columns df)))).
  { cbn [columns astype]. apply map_ext. intros j.
    apply column_has_value_astype; assumption. }
  rewrite Hmask. unfold astype. cbn [columns rows]. f_equal.
  rewrite !map_map. apply map_ext. intros r. cbn [fst snd].
  rewrite select_cast. reflexivity.
Qed.

Lemma pruned_astype (kinds : list bool) (df : DataFrame) :
  rectangular df -> List.length kinds = List.length (columns df) ->
  dropna_columns (dropna_rows (fillna_nan (astype kinds df)))
  = astype (select (map (column_has_value
                           (rows (dropna_rows (fillna_nan df))))
                        (seq 0 (List.length (columns df)))) kinds)
           (dropna_columns (dropna_rows (fillna_nan df))).
Proof.
  intros H Hk.
  rewrite fillna_nan_astype.
  rewrite dropna_rows_astype
    by (try apply rectangular_fillna_nan; assumption).
  rewrite dropna_columns_astype
    by (try apply rectangular_dropna_rows;
        try apply rectangular_fillna_nan; assumption).
  reflexivity.
Qed.

Lemma length_float_columns (df : DataFrame) :
  List.length (float_columns df) = List.length (columns df).
Proof. unfold float_columns. rewrite length_map, length_seq. reflexivity. Qed.

(** Pruning the new frame is pruning its records, with the values of
    the float64 columns stored as floats. *)
Lemma pruned_pd_DataFrame (data : list (dict scalar scalar)) :
  exists kinds,
    dropna_columns (dropna_rows (fillna_nan (pd_DataFrame data)))
    = astype kinds
        (dropna_columns (dropna_rows (fillna_nan (records_frame data)))).
Proof.
  unfold pd_DataFrame. eexists.
  apply pruned_astype;
    [apply rectangular_records_frame | apply length_float_columns].
Qed.

Lemma rectangular_pd_DataFrame (data : list (dict scalar scalar)) :
  rectangular (pd_DataFrame data).
Proof.
  unfold pd_DataFrame. apply rectangular_astype;
    [apply rectangular_records_frame | apply length_float_columns].
Qed.

(** The columns left by the two [dropna] calls. *)
Lemma columns_pruned_records (table : grid) :
  columns (dropna_columns
             (dropna_rows (fillna_nan (records_frame (row_dicts table)))))
  = live_keys table.
Proof.
  unfold dropna_columns, dropna_rows, fillna_nan, map_cells, records_frame.
  cbn [columns rows]. rewrite union_keys_row_dicts.
  unfold live_keys. set (cols := column_keys table).
  rewrite <- (select_by_position (holds_value table) SNone [] cols).
  cbn [List.length app]. f_equal. apply map_ext_in. intros j Hj.
  apply in_seq in Hj. cbn in Hj. destruct Hj as [_ Hj].
  unfold column_has_value.
  rewrite existsb_filter_implied
    by (intros r; apply notna_nth_existsb).
  rewrite existsb_map_compose. cbn [snd].
  rewrite (existsb_enumerate_from
             (fun r => notna (nth j (map fill_nan r) SNaN))).
  rewrite existsb_map_compose. unfold row_dicts.
  rewrite existsb_map_compose. unfold holds_value.
  apply existsb_pointwise. intros [k r]. cbn [snd].
  rewrite (nth_map_in_range fill_nan _ j SNone SNaN)
    by (rewrite length_map; exact Hj).
  rewrite (nth_map_in_range _ cols j SNone SNone) by exact Hj.
  rewrite notna_fill_nan, dict_get_map.
  destruct (dict_get (nth j cols SNone) r); reflexivity.
Qed.

Lemma columns_pruned (table : grid) :
  columns (dropna_columns
             (dropna_rows (fillna_nan (pd_DataFrame (row_dicts table)))))
  = live_keys table.
Proof.
  destruct (pruned_pd_DataFrame (row_dicts table)) as [kinds E].
  rewrite E. cbn [columns astype]. apply columns_pruned_records.
Qed.

Lemma table_to_pandas_columns (table : grid) (header : bool)
  (df : DataFrame) :
  all_dicts table = true ->
  table_to_pandas table header = Ok df ->
  List.length (columns df) = List.length (live_keys table)
  /\ (header = false -> columns df = live_keys table).
Proof.
  intros Hd. unfold table_to_pandas.
  rewrite (row_records_dicts table Hd). cbn [bind].
  pose proof (columns_pruned table) as Hc.
  set (pruned := dropna_columns _) in *.
  destruct header.
  - unfold iloc0, set_columns, drop.
    destruct (rows pruned) as [| r rs]; cbn [bind]; [discriminate |].
    destruct (Nat.eqb (List.length _) (List.length (columns pruned)))
      eqn:El; cbn [bind]; [| discriminate].
    apply Nat.eqb_eq in El. cbn [index rows columns].
    destruct (existsb _ _); cbn [bind]; [| discriminate].
    intros H. inversion H. cbn [columns reset_index sort_index].
    split; [rewrite El, Hc; reflexivity | discriminate].
  - cbn [bind]. intros H. inversion H. cbn [columns reset_index sort_index].
    rewrite Hc. split; reflexivity.
Qed.

Lemma loc_set_columns (label : Z) (vals : list scalar) (df df' : DataFrame) :
  loc_set label vals df = Ok df' -> columns df' = columns df.
Proof.
  unfold loc_set. destruct (existsb _ _).
  - destruct (forallb _ _); intros H; [| discriminate H].
    apply Ok_inj in H. subst df'. reflexivity.
  - intros H. apply Ok_inj in H. subst df'. reflexivity.
Qed.

Lemma export_sheet_columnCount (sheet : string) (header : bool)
  (df : DataFrame) (w : wire_sheet) :
  export_sheet sheet header df = Ok w ->
  columnCount w = Z.of_nat (List.length (columns df)).
Proof.
  unfold export_sheet. destruct header.
  - destruct (loc_set 0 (columns df) (shift_index df)) as [df1 | e] eqn:E;
      cbn [bind]; intros H; inversion H. cbn.
    unfold shape1. cbn. rewrite (loc_set_columns _ _ _ _ E). reflexivity.
  - cbn [bind]. intros H. inversion H. reflexivity.
Qed.

Lemma filter_shorter {A : Type} (P : A -> bool) (l : list A) (x : A) :
  In x l -> P x = false ->
  (List.length (filter P l) < List.length l)%nat.
Proof.
  induction l as [| y l IH]; intros Hin Hx; [destruct Hin |].
  cbn [filter List.length]. pose proof (filter_length_le P l) as Hle.
  destruct Hin as [E | Hin].
  - subst y. rewrite Hx. lia.
  - specialize (IH Hin Hx). destruct (P y); cbn [List.length]; lia.
Qed.

(** C7: a grid of dict cells is converted and exported again; the
    declared [columnCount] is the number of column keys that hold a
    value in some row, so a key that is null in every row is not
    counted and the count is below the number of keys; without a
    header the columns of the frame are exactly those keys. *)
Theorem all_null_column_dropped
  (table : grid) (header header' : bool) (sheet : string)
  (df : DataFrame) (w : wire_sheet) :
  all_dicts table = true ->
  table_to_pandas table header = Ok df ->
  export_sheet sheet header' df = Ok w ->
  columnCount w = Z.of_nat (List.length (live_keys table))
  /\ (forall k, In k (column_keys table) -> holds_value table k = false ->
                ~ In k (live_keys table)
                /\ columnCount w < Z.of_nat (List.length (column_keys table)))
  /\ (header = false -> columns df = live_keys table).
Proof.
  intros Hd Ht He.
  destruct (table_to_pandas_columns table header df Hd Ht) as [Hlen Hcols].
  assert (Hcount : columnCount w = Z.of_nat (List.length (live_keys table))).
  { rewrite (export_sheet_columnCount _ _ _ _ He), Hlen. reflexivity. }
  split; [exact Hcount |]. split; [| exact Hcols].
  intros k Hin Hk. split.
  - unfold live_keys. intros H. apply filter_In in H.
    destruct H as [_ H]. rewrite Hk in H. discriminate H.
  - rewrite Hcount. apply Nat2Z.inj_lt.
    exact (filter_shorter _ _ k Hin Hk).
Qed.

(** Without a header a grid of dict cells always converts, and a frame
    always exports. *)
Lemma conversion_without_header_returns (table : grid) (sheet : string) :
  all_dicts table = true ->
  exists df w, table_to_pandas table false = Ok df
               /\ export_sheet sheet false df = Ok w.
Proof.
  intros Hd. unfold table_to_pandas.
  rewrite (row_records_dicts table Hd). cbn [bind].
  eexists. eexists. split; reflexivity.
Qed.

Lemma all_null_column_dropped_witness :
  all_dicts three_by_three = true
  /\ columnCount
       {| name := "Sheet1"; rowCount := 3; columnCount := 2;
          dataTable :=
            [ (SNum 0, [ (SNum 0, wire_cell (SStr "h1"));
                         (SNum 1, wire_cell (SStr "h2")) ]);
              (SNum 1, [ (SNum 0, wire_cell (SNum 1));
                         (SNum 1, wire_cell (SNum 2)) ]);
              (SNum 2, [ (SNum 0, wire_cell (SNum 3));
                         (SNum 1, wire_cell (SNum 4)) ]) ] |}
     = Z.of_nat (List.length (live_keys three_by_three)).
Proof.
  split; [reflexivity |].
  apply (all_null_column_dropped three_by_three true true "Sheet1"
           {| columns := [SStr "h1"; SStr "h2"];
              rows := [(0, [SNum 1; SNum 2]); (1, [SNum 3; SNum 4])] |});
    reflexivity.
Defined.

(** The 3 x 3 example of the specification, with and without header. *)
Example three_by_three_columnCount :
  (df <- table_to_pandas three_by_three true ;;
   w <- export_sheet "Sheet1" true df ;; Ok (columnCount w)) = Ok 2
  /\ (df <- table_to_pandas three_by_three false ;;
      w <- export_sheet "Sheet1" false df ;; Ok (columnCount w)) = Ok 2.
Proof. split; vm_compute; reflexivity. Qed.

Lemma export_replaces_nan_and_infinities_witness :
  rectangular inf_frame
  /\ Forall (fun r => Forall (fun kc => exists v, snd kc = wire_cell v
                                                  /\ nonfinite v = false)
                             (snd r))
            [ (SNum 0, [ (SNum 0, wire_cell (SStr "a")) ]);
              (SNum 1, [ (SNum 0, wire_cell (SNum 1)) ]);
              (SNum 2, [ (SNum 0, wire_cell SNone) ]) ].
Proof.
  assert (H : rectangular inf_frame) by (repeat constructor).
  split; [exact H |].
  exact (proj2 (export_replaces_nan_and_infinities "Sheet1" true inf_frame
                  {| name := "Sheet1"; rowCount := 3; columnCount := 1;
                     dataTable :=
                       [ (SNum 0, [ (SNum 0, wire_cell (SStr "a")) ]);
                         (SNum 1, [ (SNum 0, wire_cell (SNum 1)) ]);
                         (SNum 2, [ (SNum 0, wire_cell SNone) ]) ] |}
                  H eq_refl)).
Defined.

(** Positive infinity is exported as [{"value": None}]. *)
Example export_infinity_example :
  export_sheet "Sheet1" false
    {| columns := [SStr "a"]; rows := [(0, [SInf false])] |}
  = Ok {| name := "Sheet1"; rowCount := 1; columnCount := 1;
          dataTable := [ (SNum 0, [ (SNum 0, wire_cell SNone) ]) ] |}.
Proof. vm_compute. reflexivity. Qed.

(** ** Rows whose lookup raises *)

Lemma for_each_app {A B : Type} (f : A -> result B) (xs ys : list A) :
  for_each f (xs ++ ys)
  = (a <- for_each f xs ;; b <- for_each f ys ;; Ok (a ++ b)).
Proof.
  induction xs as [| x xs IH]; cbn [app for_each].
  - cbn [bind app]. destruct (for_each f ys); reflexivity.
  - rewrite IH. destruct (f x) as [y | e]; cbn [bind]; [| reflexivity].
    destruct (for_each f xs) as [a | e]; cbn [bind]; [| reflexivity].
    destruct (for_each f ys) as [b | e]; reflexivity.
Qed.

(** C4, at a grid whose first row holds a string where a dict is
    expected: the [get] of the string raises [AttributeError], the
    handler of the row takes [KeyError] only, no all-null row is built
    and the conversion ends with the exception, with or without header,
    instead of going on with the second row. *)
Theorem malformed_entry_aborts_conversion :
  row_values [ (SStr "A", CAtom (SStr "oops")) ] = Raise AttributeError
  /\ row_record [ (SStr "A", CAtom (SStr "oops")) ]
     <> Ok [ (SStr "A", SNone) ]
  /\ table_to_pandas malformed_grid false = Raise AttributeError
  /\ table_to_pandas malformed_grid true = Raise AttributeError.
Proof.
  split; [reflexivity |]. split; [intros H; discriminate H |].
  split; reflexivity.
Qed.

(** What the handler does: a row whose lookup raises [KeyError] is
    built with [None] under each of its own keys and the rows before
    and after it are collected as without it; a lookup that raises
    another exception ends the conversion with that exception. *)
Lemma keyerror_row_handled
  (pre post : grid) (k : scalar) (r : wire_row) (e : exn) :
  row_values r = Raise e ->
  (e = KeyError ->
   row_record r = Ok (map (fun kc => (fst kc, SNone)) r)
   /\ for_each (fun kr => row_record (snd kr)) (pre ++ (k, r) :: post)
      = (a <- for_each (fun kr => row_record (snd kr)) pre ;;
         b <- for_each (fun kr => row_record (snd kr)) post ;;
         Ok (a ++ map (fun kc => (fst kc, SNone)) r :: b)))
  /\ (e <> KeyError ->
      row_record r = Raise e
      /\ forall a header,
          for_each (fun kr => row_record (snd kr)) pre = Ok a ->
          table_to_pandas (pre ++ (k, r) :: post) header = Raise e).
Proof.
  intros Hr. split.
  - intros He. subst e.
    assert (Hrec : row_record r = Ok (map (fun kc => (fst kc, SNone)) r)).
    { unfold row_record. rewrite Hr. reflexivity. }
    split; [exact Hrec |].
    rewrite for_each_app. cbn [for_each snd]. rewrite Hrec. cbn [bind].
    destruct (for_each _ pre) as [a | e]; cbn [bind]; [| reflexivity].
    destruct (for_each _ post) as [b | e]; reflexivity.
  - intros He.
    assert (Hrec : row_record r = Raise e).
    { unfold row_record. rewrite Hr. destruct e; try reflexivity.
      contradiction He. reflexivity. }
    split; [exact Hrec |].
    intros a header Ha. unfold table_to_pandas.
    rewrite for_each_app, Ha. cbn [bind for_each snd]. rewrite Hrec.
    reflexivity.
Qed.

Lemma keyerror_row_handled_example :
  row_values keyerror_row = Raise KeyError
  /\ row_record keyerror_row = Ok [ (SStr "A", SNone); (SStr "B", SNone) ].
Proof.
  assert (H : row_values keyerror_row = Raise KeyError) by reflexivity.
  split; [exact H |].
  exact (proj1 (proj1 (keyerror_row_handled
                         [] header_grid (SStr "9") keyerror_row KeyError H)
                      eq_refl)).
Defined.

(** ** The round trip through the wire grid *)






Lemma map_fst_combine_eq {A B : Type} (a : list A) (b : list B) :
  List.length b = List.length a -> map fst (combine a b) = a.
Proof.
  revert b. induction a as [| x a IH]; intros [| y b] H; cbn in *;
    try reflexivity; try discriminate H.
  rewrite IH; [reflexivity | congruence].
Qed.



Lemma enumerate_from_map {A B : Type} (f : A -> B) (i : Z) (l : list A) :
  map (fun r => (fst r, f (snd r))) (enumerate_from i l)
  = enumerate_from i (map f l).
Proof.
  revert i. induction l as [| x l IH]; intros i; cbn; [| rewrite IH];
    reflexivity.
Qed.












Lemma cell_value_wire_cell (v : scalar) : cell_value (wire_cell v) = v.
Proof. reflexivity. Qed.











Lemma existsb_insert_by_label (f : Z * list scalar -> bool)
  (r : Z * list scalar) (l : list (Z * list scalar)) :
  existsb f (insert_by_label r l) = f r || existsb f l.
Proof.
  induction l as [| r' l IH]; cbn; [reflexivity |].
  destruct (fst r <=? fst r'); cbn; [reflexivity |].
  rewrite IH. destruct (f r), (f r'); reflexivity.
Qed.

Lemma existsb_sorted (f : Z * list scalar -> bool)
  (l : list (Z * list scalar)) :
  existsb f (fold_right insert_by_label [] l) = existsb f l.
Proof.
  induction l as [| r l IH]; cbn; [reflexivity |].
  rewrite existsb_insert_by_label, IH. reflexivity.
Qed.


















(** * Further properties of the code *)

(** ** Requests whatever the status *)

(** X1: whatever the server answers, also 200 or 201, a create or an
    update of a data element that sends its request prints the failure
    line with that status and returns the object unchanged. *)
Theorem data_element_request_always_reported_failed
  (a : reply) (ui : LabFolderUserInfo) (entry : string)
  (self : DataElement.t) :
  entry <> "" ->
  DataElement.description self <> "" ->
  DataElement.write_to_labfolder a self ui entry
  = ([Sent POST (api_address ui ++ "elements/data")%string;
      write_failure (DataElement.type self) (reply_status a)],
     Ok self)
  /\ DataElement.update_on_labfolder a self ui
     = ([Sent PUT (api_address ui ++ "elements/data/"
                   ++ DataElement.element_id self)%string;
         update_failure (DataElement.type self) (reply_status a)],
        Ok self).
Proof.
  intros He Hd. apply String.eqb_neq in He, Hd. split.
  - unfold DataElement.write_to_labfolder. rewrite He.
    rewrite (post_then_handle (DataElement.type self) _ a true
               (fun status response =>
                  match status with
                  | Some true =>
                      id <-- lift (json_id response) ;;
                      ret (DataElement.mk (DataElement.type self) id
                                          (DataElement.description self))
                  | _ => ret self
                  end)).
    reflexivity.
  - unfold DataElement.update_on_labfolder. rewrite Hd.
    rewrite (put_then_handle (DataElement.type self) _ a false
               (fun _ _ => ret self)).
    reflexivity.
Qed.

Lemma data_element_request_always_reported_failed_witness :
  DataElement.update_on_labfolder {| reply_status := 200; reply_json := [] |}
    (DataElement.__init__ "9" "d") session
  = ([Sent PUT "https://lab.example/api/v2/elements/data/9";
      Text "DATA could not be updated on Labfolder. Status code: 200"],
     Ok (DataElement.__init__ "9" "d")).
Proof.
  apply (data_element_request_always_reported_failed
           {| reply_status := 200; reply_json := [] |} session "e1"
           (DataElement.__init__ "9" "d")).
  - intros H. discriminate H.
  - intros H. discriminate H.
Defined.

(** ** Tables that hold a sheet that is no DataFrame *)

Lemma export_values_need_frames (header : bool) (tb : tables)
  (sheets : dict string wire_sheet) :
  forallb is_frame (map snd tb) = false ->
  for_each (fun kv => TableElement.export_value (fst kv) header (snd kv)) tb
  <> Ok sheets.
Proof.
  revert sheets. induction tb as [| [k v] tb IH]; intros sheets H;
    cbn [map forallb snd] in H; [discriminate H |].
  cbn [for_each fst snd].
  destruct v as [df | w | d |]; cbn [is_frame andb] in H;
    try (cbn; intros E; discriminate E).
  cbn [TableElement.export_value].
  destruct (export_sheet k header df) as [w | e]; cbn [bind];
    [| intros E; discriminate E].
  destruct (for_each _ tb) as [rest | e] eqn:Er; cbn [bind];
    [| intros E; discriminate E].
  exfalso. exact (IH rest H eq_refl).
Qed.

Lemma convert_needs_frames (self : TableElement.t) (header : bool)
  (tb : tables) (sheets : dict string wire_sheet) :
  TableElement.table self = Some tb ->
  forallb is_frame (map snd tb) = false ->
  snd (TableElement.convert_pd_to_export self header) <> Ok (Some sheets).
Proof.
  intros Ht Hf. unfold TableElement.convert_pd_to_export,
    TableElement.the_table. rewrite Ht. cbn [lift io_bind app].
  rewrite Hf. cbn [negb].
  pose proof (export_values_need_frames header tb) as Hexp.
  destruct (for_each _ tb) as [s | e] eqn:Es.
  - exfalso. exact (Hexp s Hf eq_refl).
  - match goal with
    | |- context [try_except ?m ?c ?h] =>
        destruct (try_except m c h) as [l [[|] | e']]
    end; cbn; intros E; discriminate E.
Qed.

Lemma after_convert_quiet {T : Type} (self : TableElement.t) (header : bool)
  (tb : tables) (k : option (dict string wire_sheet) -> io T) :
  TableElement.table self = Some tb ->
  forallb is_frame (map snd tb) = false ->
  quiet (fst (k None)) ->
  quiet (fst (table_content <-- TableElement.convert_pd_to_export self header ;;
              k table_content)).
Proof.
  intros Ht Hf Hk.
  pose proof (convert_pd_to_export_quiet self header) as Hq.
  pose proof (convert_needs_frames self header tb) as Hn.
  destruct (TableElement.convert_pd_to_export self header)
    as [l [[s |] | e]]; cbn [io_bind fst snd] in *.
  - exfalso. exact (Hn s Ht Hf eq_refl).
  - destruct (k None) as [l' r]. cbn [fst] in *.
    apply quiet_app; assumption.
  - exact Hq.
Qed.

(** X2: a table element one of whose sheets is not a DataFrame (a
    fetched wire sheet, a dict, [None]) is never exported:
    [convert_pd_to_export] returns [None] or raises, and neither
    [write_to_labfolder] nor [update_on_labfolder] sends a request. *)
Theorem table_with_foreign_sheet_never_sent
  (a : reply) (ui : LabFolderUserInfo) (entry : string) (header : bool)
  (self : TableElement.t) (tb : tables) :
  TableElement.table self = Some tb ->
  forallb is_frame (map snd tb) = false ->
  (forall sheets,
      snd (TableElement.convert_pd_to_export self header)
      <> Ok (Some sheets))
  /\ quiet (fst (TableElement.write_to_labfolder a self ui entry header))
  /\ quiet (fst (TableElement.update_on_labfolder a self ui header)).
Proof.
  intros Ht Hf. split; [| split].
  - intros sheets. exact (convert_needs_frames self header tb sheets Ht Hf).
  - unfold TableElement.write_to_labfolder. rewrite Ht.
    destruct (String.eqb entry ""
              && negb (String.eqb (TableElement.entry_id self) "")).
    + apply (after_convert_quiet self header tb _ Ht Hf). apply quiet_text.
    + destruct (String.eqb entry ""
                && String.eqb (TableElement.entry_id self) "").
      * apply quiet_text.
      * apply (after_convert_quiet self header tb _ Ht Hf).
        apply quiet_text.
  - unfold TableElement.update_on_labfolder. rewrite Ht.
    apply (after_convert_quiet self header tb _ Ht Hf). apply quiet_text.
Qed.

Lemma table_with_foreign_sheet_never_sent_witness :
  quiet (fst (TableElement.write_to_labfolder created
                (TableElement.set_table unloaded_table
                   (Some [("Sheet1", SheetWire header_sheet)]))
                session "e1" true)).
Proof.
  apply (table_with_foreign_sheet_never_sent created session "e1" true
           (TableElement.set_table unloaded_table
              (Some [("Sheet1", SheetWire header_sheet)]))
           [("Sheet1", SheetWire header_sheet)]);
    reflexivity.
Defined.

(** ** The shape of an exported sheet *)

Lemma export_sheet_laid_out (sheet : string) (header : bool)
  (df : DataFrame) (w : wire_sheet) :
  export_sheet sheet header df = Ok w ->
  exists laid,
    laid_out header df = Ok laid
    /\ w = {| name := sheet;
              rowCount := Z.of_nat (List.length (rows laid));
              columnCount := Z.of_nat (List.length (columns laid));
              dataTable :=
                to_wire_grid
                  (map_cells sanitize
                     {| columns := range (List.length (columns laid));
                        rows := enumerate_from 0 (values laid) |}) |}.
Proof.
  unfold export_sheet, laid_out.
  destruct (if header then loc_set 0 (columns df) (shift_index df)
            else Ok df) as [df1 | e]; cbn [bind]; intros H;
    [| discriminate H].
  exists (sort_index df1). split; [reflexivity |].
  inversion H. unfold shape0, shape1, reset_index, values.
  cbn [rows columns]. rewrite length_enumerate_from, length_map.
  reflexivity.
Qed.

Lemma labels_enumerate_from {A : Type} (a : nat) (l : list A) :
  map (fun r => SNum (fst r)) (enumerate_from (Z.of_nat a) l)
  = map (fun i => SNum (Z.of_nat i)) (seq a (List.length l)).
Proof.
  revert a. induction l as [| x l IH]; intros a; cbn [enumerate_from map List.length seq fst];
    [reflexivity |].
  f_equal. rewrite <- IH. f_equal. f_equal. lia.
Qed.

(** X3: in the sheet [export_sheet] emits for a rectangular frame, the
    name is the sheet name, the rows of the grid are keyed 0, 1, ...,
    [rowCount - 1] in this order, and every row has its cells keyed
    0, 1, ..., [columnCount - 1]: the declared counts are the numbers
    of rows and of cells per row of the grid. *)
Theorem export_sheet_counts_match_grid
  (sheet : string) (header : bool) (df : DataFrame) (w : wire_sheet) :
  rectangular df ->
  export_sheet sheet header df = Ok w ->
  name w = sheet
  /\ 0 <= rowCount w
  /\ 0 <= columnCount w
  /\ keys (dataTable w) = range (Z.to_nat (rowCount w))
  /\ Forall (fun r => keys (snd r) = range (Z.to_nat (columnCount w)))
            (dataTable w).
Proof.
  intros Hr H.
  destruct (export_sheet_laid_out sheet header df w H) as (laid & Hl & Hw).
  destruct (rectangular_laid_out header df laid Hr Hl) as [_ Hrl].
  subst w. cbn [name rowCount columnCount dataTable].
  rewrite !Nat2Z.id. split; [reflexivity |].
  split; [lia |]. split; [lia |].
  unfold to_wire_grid, map_cells, keys. cbn [columns rows]. split.
  - rewrite !map_map. cbn [fst].
    etransitivity; [exact (labels_enumerate_from 0 (values laid)) |].
    unfold range, values. rewrite length_map. reflexivity.
  - apply Forall_map. apply Forall_map. cbn [snd fst].
    apply (Forall_enumerate_from
             (fun r => map fst
                         (map (fun cv => (fst cv, wire_cell (snd cv)))
                              (combine (range (List.length (columns laid)))
                                       (map sanitize r)))
                       = range (List.length (columns laid)))).
    unfold values. apply Forall_map.
    eapply Forall_impl; [| exact Hrl]. intros r Hlen.
    rewrite map_map. cbn [fst]. apply map_fst_combine_eq.
    rewrite length_map, length_range. exact Hlen.
Qed.

Lemma export_sheet_counts_match_grid_witness :
  rectangular inf_frame
  /\ keys (dataTable
             {| name := "Sheet1"; rowCount := 3; columnCount := 1;
                dataTable :=
                  [ (SNum 0, [ (SNum 0, wire_cell (SStr "a")) ]);
                    (SNum 1, [ (SNum 0, wire_cell (SNum 1)) ]);
                    (SNum 2, [ (SNum 0, wire_cell SNone) ]) ] |})
     = range 3.
Proof.
  assert (H : rectangular inf_frame) by (repeat constructor).
  split; [exact H |].
  exact (proj1 (proj2 (proj2 (proj2
           (export_sheet_counts_match_grid "Sheet1" true inf_frame
              {| name := "Sheet1"; rowCount := 3; columnCount := 1;
                 dataTable :=
                   [ (SNum 0, [ (SNum 0, wire_cell (SStr "a")) ]);
                     (SNum 1, [ (SNum 0, wire_cell (SNum 1)) ]);
                     (SNum 2, [ (SNum 0, wire_cell SNone) ]) ] |}
              H eq_refl))))).
Defined.





(** ** What the conversion to a frame looks at *)

Lemma union_keys_mapped (f : cell -> scalar) (table : grid) :
  union_keys (map (fun kr => map (fun kc => (fst kc, f (snd kc))) (snd kr))
                  table)
  = column_keys table.
Proof.
  unfold union_keys, column_keys.
  generalize (@nil scalar) as acc.
  induction table as [| [k r] table IH]; intros acc; cbn [map fold_left].
  - reflexivity.
  - rewrite IH. unfold keys. cbn [snd]. rewrite map_map. reflexivity.
Qed.

Lemma fillna_records_frame (table : grid) :
  fillna_nan (records_frame (row_dicts table))
  = records_frame (normal_rows table).
Proof.
  unfold fillna_nan, map_cells, records_frame, row_dicts, normal_rows.
  cbn [columns rows].
  rewrite (union_keys_mapped cell_value),
    (union_keys_mapped (fun c => fill_nan (cell_value c))).
  f_equal.
  rewrite (enumerate_from_map (map fill_nan)). f_equal.
  rewrite !map_map. apply map_ext. intros [k r]. cbn [snd].
  rewrite map_map. apply map_ext. intros c.
  rewrite (dict_get_map cell_value),
    (dict_get_map (fun c => fill_nan (cell_value c))).
  destruct (dict_get c r); reflexivity.
Qed.

Lemma nth_cast (kinds : list bool) (r : list scalar) (j : nat) :
  List.length kinds = List.length r -> (j < List.length r)%nat ->
  nth j (cast kinds r) SNaN
  = if nth j kinds false then as_float (nth j r SNaN) else nth j r SNaN.
Proof.
  revert r j. induction kinds as [| b kinds IH]; intros [| v r] j H Hj;
    try discriminate H; cbn in Hj; try lia.
  rewrite cast_cons. destruct j as [| j]; cbn [nth]; [reflexivity |].
  apply IH; [cbn in H; congruence | lia].
Qed.

(** Writing [None] as [nan] does not change what the values of a
    column are once the column has its dtype. *)
Lemma float_column_filled (col : list scalar) (u : scalar) :
  In u col ->
  (if float_column col then as_float (fill_nan u) else fill_nan u)
  = (if float_column (map fill_nan col) then as_float (fill_nan u)
     else fill_nan u).
Proof.
  intros Hin. unfold float_column.
  assert (Hs : existsb is_str (map fill_nan col) = existsb is_str col).
  { rewrite existsb_map_compose. apply existsb_pointwise.
    intros v. destruct v; reflexivity. }
  assert (Hi : existsb is_int (map fill_nan col) = existsb is_int col).
  { rewrite existsb_map_compose. apply existsb_pointwise.
    intros v. destruct v; reflexivity. }
  assert (Hn : existsb is_none (map fill_nan col) = false).
  { rewrite existsb_map_compose. apply existsb_false_iff.
    apply Forall_forall. intros v _. destruct v; reflexivity. }
  assert (Hf : existsb is_float (map fill_nan col)
               = existsb is_float col || existsb is_none col).
  { rewrite existsb_map_compose. clear Hin Hs Hi Hn.
    induction col as [| v col IH]; cbn [existsb]; [reflexivity |].
    rewrite IH. destruct v; cbn;
      destruct (existsb is_float col), (existsb is_none col); reflexivity. }
  rewrite Hs, Hi, Hn, Hf. cbn [andb orb].
  destruct (existsb is_str col) eqn:Es; cbn [negb andb]; [reflexivity |].
  destruct (existsb is_float col) eqn:Ef; cbn [orb]; [reflexivity |].
  destruct (existsb is_none col) eqn:En; cbn [andb orb]; [| reflexivity].
  destruct (existsb is_int col) eqn:Ei; [reflexivity |].
  rewrite existsb_false_iff, Forall_forall in Es, Ef, Ei.
  specialize (Es u Hin). specialize (Ef u Hin). specialize (Ei u Hin).
  destruct u; try discriminate; reflexivity.
Qed.

Lemma float_columns_fillna (df : DataFrame) :
  rectangular df ->
  astype (float_columns df) (fillna_nan df)
  = astype (float_columns (fillna_nan df)) (fillna_nan df).
Proof.
  intros Hrect. unfold astype. f_equal.
  unfold fillna_nan, map_cells. cbn [rows]. rewrite !map_map.
  apply map_ext_in. intros r Hin. cbn [fst snd]. f_equal.
  unfold rectangular in Hrect. rewrite Forall_forall in Hrect.
  pose proof (Hrect r Hin) as Hr.
  assert (Hl1 : List.length (float_columns df)
                = List.length (map fill_nan (snd r))).
  { rewrite length_float_columns, length_map. congruence. }
  assert (Hl2 : List.length
                  (float_columns
                     {| columns := columns df;
                        rows := map (fun r => (fst r, map fill_nan (snd r)))
                                    (rows df) |})
                = List.length (map fill_nan (snd r))).
  { rewrite length_float_columns, length_map. cbn [columns]. congruence. }
  apply (nth_ext _ _ SNaN SNaN).
  - rewrite !length_cast; [reflexivity | exact Hl2 | exact Hl1].
  - intros j Hj. rewrite length_cast in Hj by exact Hl1.
    rewrite !nth_cast by assumption.
    rewrite length_map in Hj.
    assert (Hjc : (j < List.length (columns df))%nat) by congruence.
    unfold float_columns. cbn [columns rows].
    rewrite !nth_mask by exact Hjc.
    change SNaN with (fill_nan SNaN) at 1 2 3 4.
    rewrite map_nth.
    assert (Hcol : column_values
                     (map (fun r => (fst r, map fill_nan (snd r))) (rows df))
                     j
                   = map fill_nan (column_values (rows df) j)).
    { unfold column_values. rewrite !map_map. apply map_ext.
      intros r0. cbn [snd].
      change SNaN with (fill_nan SNaN) at 1. rewrite map_nth.
      reflexivity. }
    rewrite Hcol. apply float_column_filled.
    unfold column_values. apply in_map_iff. exists r.
    split; [reflexivity | exact Hin].
Qed.

Lemma fillna_pd_DataFrame (table : grid) :
  fillna_nan (pd_DataFrame (row_dicts table))
  = pd_DataFrame (normal_rows table).
Proof.
  unfold pd_DataFrame.
  rewrite fillna_nan_astype,
    (float_columns_fillna _ (rectangular_records_frame _)),
    fillna_records_frame.
  reflexivity.
Qed.

(** X6: the frame built from a grid of dict cells depends on the column
    keys and the values of its rows only: two grids whose rows agree
    once an absent ["value"], [None] and [nan] are identified convert
    alike, whatever their row keys. *)
Theorem table_to_pandas_ignores_null_kind_and_row_keys
  (t1 t2 : grid) (header : bool) :
  all_dicts t1 = true ->
  all_dicts t2 = true ->
  normal_rows t1 = normal_rows t2 ->
  table_to_pandas t1 header = table_to_pandas t2 header.
Proof.
  intros H1 H2 H. unfold table_to_pandas.
  rewrite (row_records_dicts t1 H1), (row_records_dicts t2 H2).
  cbn [bind]. cbv zeta.
  rewrite (fillna_pd_DataFrame t1), (fillna_pd_DataFrame t2), H.
  reflexivity.
Qed.

Lemma table_to_pandas_ignores_null_kind_and_row_keys_witness :
  table_to_pandas sparse_grid false = table_to_pandas explicit_grid false.
Proof.
  apply (table_to_pandas_ignores_null_kind_and_row_keys
           sparse_grid explicit_grid false); reflexivity.
Defined.

(** ** Grids without a value *)

Lemma filter_none {A : Type} (p : A -> bool) (l : list A) :
  Forall (fun x => p x = false) l -> filter p l = [].
Proof.
  induction 1 as [| x l Hx _ IH]; cbn; [| rewrite Hx]; auto.
Qed.

Lemma select_none {A : Type} (mask : list bool) (l : list A) :
  Forall (fun b => b = false) mask -> select mask l = [].
Proof.
  intros H. revert l. induction H as [| b mask Hb _ IH]; intros [| x l];
    cbn; try reflexivity.
  rewrite Hb. apply IH.
Qed.

Lemma pruned_records_without_value (table : grid) :
  Forall (fun k => holds_value table k = false) (column_keys table) ->
  dropna_columns
    (dropna_rows (fillna_nan (records_frame (row_dicts table))))
  = {| columns := []; rows := [] |}.
Proof.
  intros H. rewrite fillna_records_frame.
  assert (Hrows : rows (dropna_rows (records_frame (normal_rows table)))
                  = []).
  { unfold dropna_rows, records_frame, normal_rows. cbn [rows].
    rewrite (union_keys_mapped (fun c => fill_nan (cell_value c))).
    apply filter_none.
    apply (Forall_enumerate_from (fun r => existsb notna r = false)).
    apply Forall_map. apply Forall_map. apply Forall_forall.
    intros [k r] Hin. cbn [snd]. rewrite existsb_map_compose.
    apply existsb_false_iff. eapply Forall_impl; [| exact H].
    intros c Hc. unfold holds_value in Hc.
    apply existsb_false_iff in Hc. rewrite Forall_forall in Hc.
    specialize (Hc (k, r) Hin). cbn [snd] in Hc.
    rewrite (dict_get_map (fun c => fill_nan (cell_value c))).
    destruct (dict_get c r); cbn [option_map]; [| reflexivity].
    rewrite notna_fill_nan. exact Hc. }
  unfold dropna_columns. rewrite Hrows. cbn [map]. f_equal.
  apply select_none. apply Forall_map. apply Forall_forall.
  intros j _. reflexivity.
Qed.

Lemma pruned_without_value (table : grid) :
  Forall (fun k => holds_value table k = false) (column_keys table) ->
  dropna_columns (dropna_rows (fillna_nan (pd_DataFrame (row_dicts table))))
  = {| columns := []; rows := [] |}.
Proof.
  intros H. destruct (pruned_pd_DataFrame (row_dicts table)) as [kinds Hk].
  rewrite Hk, (pruned_records_without_value table H). reflexivity.
Qed.

(** X8: a grid of dict cells that holds no value that is not null (an
    empty grid, or nothing but nulls) converts to the frame without
    rows and columns when [header] is off, and raises [IndexError] when
    [header] is on. *)
Theorem grid_without_value_converts_empty_or_raises (table : grid) :
  all_dicts table = true ->
  Forall (fun k => holds_value table k = false) (column_keys table) ->
  table_to_pandas table false = Ok {| columns := []; rows := [] |}
  /\ table_to_pandas table true = Raise IndexError.
Proof.
  intros Hd H. unfold table_to_pandas.
  rewrite (row_records_dicts table Hd). cbn [bind]. cbv zeta.
  rewrite (pruned_without_value table H). split; reflexivity.
Qed.

Lemma grid_without_value_converts_empty_or_raises_witness :
  table_to_pandas
    [ (SStr "0", [ (SStr "A", wire_cell SNone); (SStr "B", CDict []) ]) ]
    true
  = Raise IndexError.
Proof.
  apply (grid_without_value_converts_empty_or_raises
           [ (SStr "0", [ (SStr "A", wire_cell SNone);
                          (SStr "B", CDict []) ]) ]).
  - reflexivity.
  - repeat constructor.
Defined.

(** ** The shape of a converted frame *)

Lemma select_In {A : Type} (mask : list bool) (l : list A) (j : nat)
  (d : A) :
  (j < List.length l)%nat -> nth j mask false = true ->
  In (nth j l d) (select mask l).
Proof.
  revert l j. induction mask as [| b mask IH]; intros [| x l] j Hj Hm;
    cbn in *; try lia.
  - destruct j; discriminate Hm.
  - destruct j as [| j].
    + rewrite Hm. left. reflexivity.
    + assert (Hin : In (nth j l d) (select mask l))
        by (apply IH; [lia | exact Hm]).
      destruct b; [right |]; exact Hin.
Qed.

Lemma select_position (mask : list bool) (j' : nat) :
  (j' < List.length (filter (fun b => b) mask))%nat ->
  exists j,
    (j < List.length mask)%nat
    /\ nth j mask false = true
    /\ forall (A : Type) (l : list A) (d : A),
        List.length l = List.length mask ->
        nth j' (select mask l) d = nth j l d.
Proof.
  revert j'. induction mask as [| b mask IH]; intros j' H; cbn in H;
    [lia |].
  destruct b.
  - destruct j' as [| k].
    + exists 0%nat. split; [cbn; lia |]. split; [reflexivity |].
      intros A [| x l] d Hl; [discriminate Hl | reflexivity].
    + cbn in H. destruct (IH k) as (j & Hj & Hm & Hnth); [lia |].
      exists (S j). split; [cbn; lia |]. split; [exact Hm |].
      intros A [| x l] d Hl; [discriminate Hl |].
      cbn. apply Hnth. cbn in Hl. congruence.
  - destruct (IH j' H) as (j & Hj & Hm & Hnth).
    exists (S j). split; [cbn; lia |]. split; [exact Hm |].
    intros A [| x l] d Hl; [discriminate Hl |].
    cbn. apply Hnth. cbn in Hl. congruence.
Qed.

Lemma select_length_mask {A : Type} (mask : list bool) (l : list A) :
  List.length l = List.length mask ->
  List.length (select mask l) = List.length (filter (fun b => b) mask).
Proof.
  revert l. induction mask as [| b mask IH]; intros [| x l] H; cbn in *;
    try reflexivity; try discriminate H.
  destruct b; cbn; rewrite IH by congruence; reflexivity.
Qed.

Lemma rectangular_dropna_columns (df : DataFrame) :
  rectangular df -> rectangular (dropna_columns df).
Proof.
  unfold rectangular, dropna_columns. cbn [columns rows].
  intros H. apply Forall_map. eapply Forall_impl; [| exact H].
  intros r Hr. cbn [snd]. apply select_length. exact Hr.
Qed.

Lemma dropna_columns_rows_have_value (df : DataFrame) :
  rectangular df ->
  Forall (fun r => existsb notna (snd r) = true) (rows df) ->
  Forall (fun r => existsb notna (snd r) = true) (rows (dropna_columns df)).
Proof.
  unfold rectangular, dropna_columns. cbn [columns rows].
  intros Hrect Hrows. apply Forall_map. apply Forall_forall.
  intros r Hin. cbn [snd].
  rewrite Forall_forall in Hrect, Hrows.
  specialize (Hrect r Hin). specialize (Hrows r Hin).
  apply existsb_exists in Hrows. destruct Hrows as (v & Hv & Hnotna).
  destruct (In_nth _ _ SNaN Hv) as (j & Hj & Ej).
  apply existsb_exists. exists v. split; [| exact Hnotna].
  rewrite <- Ej. apply select_In; [exact Hj |].
  rewrite nth_mask by (rewrite <- Hrect; exact Hj).
  unfold column_has_value. apply existsb_exists.
  exists r. split; [exact Hin |]. rewrite Ej. exact Hnotna.
Qed.

Lemma dropna_columns_columns_have_value (df : DataFrame) (j' : nat) :
  rectangular df ->
  (j' < List.length (columns (dropna_columns df)))%nat ->
  column_has_value (rows (dropna_columns df)) j' = true.
Proof.
  unfold rectangular, dropna_columns. cbn [columns rows].
  set (mask := map (column_has_value (rows df))
                   (seq 0 (List.length (columns df)))).
  assert (Hmask : List.length mask = List.length (columns df)).
  { unfold mask. rewrite length_map, length_seq. reflexivity. }
  intros Hrect Hj.
  rewrite select_length_mask in Hj by (symmetry; exact Hmask).
  destruct (select_position mask j' Hj) as (j & Hlt & Hm & Hnth).
  unfold column_has_value at 1. rewrite existsb_map_compose. cbn [snd].
  rewrite (existsb_in_pointwise _ (fun r => notna (nth j (snd r) SNaN))).
  - unfold mask in Hm. rewrite nth_mask in Hm by (rewrite <- Hmask; exact Hlt).
    exact Hm.
  - eapply Forall_impl; [| exact Hrect]. intros r Hr. cbn beta.
    rewrite (Hnth _ (snd r) SNaN) by congruence. reflexivity.
Qed.

(** Sorting by label and numbering anew keep the row lengths and
    whether rows and columns hold a value. *)
Lemma reset_sorted_invariants (df : DataFrame) :
  rectangular df ->
  Forall (fun r => existsb notna (snd r) = true) (rows df) ->
  rectangular (reset_index (sort_index df))
  /\ default_index (reset_index (sort_index df))
  /\ Forall (fun r => existsb notna (snd r) = true)
            (rows (reset_index (sort_index df)))
  /\ forall j, column_has_value (rows (reset_index (sort_index df))) j
               = column_has_value (rows df) j.
Proof.
  intros Hrect Hrows.
  unfold rectangular, default_index, reset_index, sort_index, values in *.
  cbn [columns rows]. rewrite values_enumerate_from.
  split; [| split; [reflexivity | split]].
  - apply (Forall_enumerate_from
             (fun r => List.length r = List.length (columns df))).
    apply Forall_map. apply Forall_sorted. exact Hrect.
  - apply (Forall_enumerate_from (fun r => existsb notna r = true)).
    apply Forall_map. apply Forall_sorted. exact Hrows.
  - intros j. unfold column_has_value.
    rewrite (existsb_enumerate_from (fun r => notna (nth j r SNaN))).
    rewrite existsb_map_compose. apply existsb_sorted.
Qed.

(** Taking the names from the first row and dropping the row labelled
    0 keeps the row lengths and the rows that hold a value. *)
Lemma header_step_invariants (p df' : DataFrame) :
  rectangular p ->
  Forall (fun r => existsb notna (snd r) = true) (rows p) ->
  (names <- iloc0 p ;; d <- set_columns names p ;; drop 0 d) = Ok df' ->
  rectangular df'
  /\ Forall (fun r => existsb notna (snd r) = true) (rows df').
Proof.
  intros Hrect Hrows. unfold iloc0, set_columns, drop, index.
  destruct (rows p) as [| r rs] eqn:Er; cbn [bind]; [discriminate |].
  set (names := if float_row p then map as_float (snd r) else snd r).
  destruct (Nat.eqb (List.length names) (List.length (columns p)))
    eqn:El; cbn [bind]; [| discriminate].
  apply Nat.eqb_eq in El. cbn [rows columns].
  destruct (existsb _ _); cbn [bind]; [| discriminate].
  intros H. apply Ok_inj in H. subst df'.
  unfold rectangular. cbn [columns rows]. rewrite El, <- Er. split.
  - apply Forall_filter. exact Hrect.
  - apply Forall_filter. rewrite Er. exact Hrows.
Qed.

(** X7: whenever [table_to_pandas] returns a frame, for any grid and
    either value of [header], the frame is rectangular, its rows are
    labelled 0, 1, 2, ... in order and every row holds a value that is
    not null; without [header] every column holds such a value too. *)
Theorem table_to_pandas_frame_invariants
  (table : grid) (header : bool) (df : DataFrame) :
  table_to_pandas table header = Ok df ->
  rectangular df
  /\ default_index df
  /\ Forall (fun r => existsb notna (snd r) = true) (rows df)
  /\ (header = false ->
      forall j, (j < List.length (columns df))%nat ->
                column_has_value (rows df) j = true).
Proof.
  unfold table_to_pandas.
  destruct (for_each (fun kr => row_record (snd kr)) table) as [data | e];
    cbn [bind]; [| discriminate]. cbv zeta.
  set (kept := dropna_rows (fillna_nan (pd_DataFrame data))).
  assert (Hrect2 : rectangular kept).
  { apply rectangular_dropna_rows, rectangular_fillna_nan,
      rectangular_pd_DataFrame. }
  assert (Hrows2 : Forall (fun r => existsb notna (snd r) = true)
                          (rows kept)).
  { unfold kept, dropna_rows. cbn [rows]. apply Forall_forall.
    intros r Hin. apply filter_In in Hin. exact (proj2 Hin). }
  pose proof (rectangular_dropna_columns kept Hrect2) as Hrect.
  pose proof (dropna_columns_rows_have_value kept Hrect2 Hrows2) as Hrows.
  pose proof (fun j => dropna_columns_columns_have_value kept j Hrect2)
    as Hcols.
  set (pruned := dropna_columns kept) in *.
  destruct header.
  - destruct (names <- iloc0 pruned ;; d <- set_columns names pruned ;;
              drop 0 d) as [df' | e] eqn:Eh; cbn [bind]; [| discriminate].
    destruct (header_step_invariants pruned df' Hrect Hrows Eh)
      as [Hrect' Hrows'].
    intros H. apply Ok_inj in H. subst df.
    destruct (reset_sorted_invariants df' Hrect' Hrows')
      as (H1 & H2 & H3 & _).
    split; [exact H1 |]. split; [exact H2 |]. split; [exact H3 |].
    discriminate.
  - cbn [bind]. intros H. apply Ok_inj in H. subst df.
    destruct (reset_sorted_invariants pruned Hrect Hrows)
      as (H1 & H2 & H3 & H4).
    split; [exact H1 |]. split; [exact H2 |]. split; [exact H3 |].
    intros _ j Hj. rewrite H4. apply Hcols. exact Hj.
Qed.

Lemma table_to_pandas_frame_invariants_witness :
  rectangular {| columns := [SStr "h1"; SStr "h2"];
                 rows := [(0, [SNum 1; SNum 2]); (1, [SNum 3; SNum 4])] |}.
Proof.
  apply (table_to_pandas_frame_invariants three_by_three true
           {| columns := [SStr "h1"; SStr "h2"];
              rows := [(0, [SNum 1; SNum 2]); (1, [SNum 3; SNum 4])] |}).
  reflexivity.
Defined.

(** ** What parsing keeps of a record *)

Lemma parse_children_keeps_group
  (http_get : string -> table_document)
  (user_info : option LabFolderUserInfo)
  (cs : list wire_element) (g g' : DataElementGroup.t) :
  snd (parse_children http_get user_info cs g) = Ok g' ->
  DataElementGroup.type g' = DataElementGroup.type g
  /\ DataElementGroup.title g' = DataElementGroup.title g
  /\ DataElementGroup.element_id g' = DataElementGroup.element_id g.
Proof.
  revert g. induction cs as [| c cs IH]; intros g H.
  - cbn in H. apply Ok_inj in H. subst g'. repeat split.
  - cbn [parse_children] in H. rewrite snd_io_bind in H.
    destruct (snd (parse_data_element http_get user_info c)) as [[x |] | e];
      [| | discriminate H].
    + destruct (IH _ H) as (H1 & H2 & H3). destruct g. cbn in *.
      repeat split; assumption.
    + exact (IH _ H).
Qed.

Lemma load_table_type (http_get : string -> table_document)
  (self self' : TableElement.t) (user_info : option LabFolderUserInfo)
  (to_pd header : bool) :
  snd (TableElement.load_table http_get self user_info to_pd header)
  = Ok self' ->
  TableElement.type self' = TableElement.type self.
Proof.
  unfold TableElement.load_table.
  destruct (String.eqb (TableElement.element_id self) "");
    [intros H; apply Ok_inj in H; subst self'; reflexivity |].
  destruct user_info as [ui |];
    [| intros H; apply Ok_inj in H; subst self'; reflexivity].
  cbn [io_bind print].
  match goal with
  | |- context [if to_pd then ?m else _] =>
      destruct (if to_pd then m else ret None) as [l [r | e]]
  end; cbn; intros H; inversion H; reflexivity.
Qed.

Lemma TableElement_init_type
  (http_get : string -> table_document)
  (user_info : option LabFolderUserInfo) (element_id entry_id : string)
  (table : option tables) (import_as_pd header : bool)
  (tb : TableElement.t) :
  snd (TableElement.__init__ http_get user_info element_id entry_id table
         import_as_pd header) = Ok tb ->
  TableElement.type tb = "TABLE".
Proof.
  unfold TableElement.__init__.
  destruct user_info as [ui |];
    [| intros H; apply Ok_inj in H; subst tb; reflexivity].
  destruct (String.eqb element_id ""); cbn [negb];
    [intros H; apply Ok_inj in H; subst tb; reflexivity |].
  rewrite snd_io_bind.
  match goal with
  | |- context [TableElement.load_table ?h ?s ?u ?p ?hd] =>
      pose proof (load_table_type h s) as Hload;
      destruct (snd (TableElement.load_table h s u p hd)) as [s' | e] eqn:El
  end; cbn beta iota; [| discriminate].
  specialize (Hload s' _ _ _ El). cbn [TableElement.type] in Hload.
  rewrite snd_io_bind.
  destruct import_as_pd.
  - destruct (TableElement.table_to_pd s' header true) as [l [r | e]];
      cbn [snd]; [| discriminate].
    cbn [ret snd]. intros H. apply Ok_inj in H. subst tb. exact Hload.
  - cbn [ret snd]. intros H. apply Ok_inj in H. subst tb. exact Hload.
Qed.

(** X9: a record with a tag the dispatch knows gives, whenever the call
    returns, an object whose [type] attribute is that tag, except for
    the tag DESCRIPTIVE_DATA: the object built for it carries the type
    DESCRIPTIVE_DATA_ELEMENT, which the dispatch does not know. *)
Theorem parsed_object_type_attribute
  (http_get : string -> table_document)
  (user_info : option LabFolderUserInfo)
  (e : wire_element) (r : option Element) :
  recognized (tag e) = true ->
  snd (parse_data_element http_get user_info e) = Ok r ->
  exists x, r = Some x
            /\ type_of x = (if String.eqb (tag e) "DESCRIPTIVE_DATA"
                            then "DESCRIPTIVE_DATA_ELEMENT"
                            else tag e)
            /\ recognized (type_of x)
               = negb (String.eqb (tag e) "DESCRIPTIVE_DATA").
Proof.
  intros H Hr. unfold recognized in H. cbn [existsb] in H.
  repeat (apply orb_true_iff in H; destruct H as [H | H]);
    try discriminate H; apply String.eqb_eq in H.
  - rewrite (parse_group http_get user_info e H), snd_io_bind in Hr.
    destruct (snd (parse_children _ _ _ _)) as [g | ex] eqn:Eg;
      cbn in Hr; [| discriminate Hr].
    apply Ok_inj in Hr. subst r.
    destruct (parse_children_keeps_group _ _ _ _ _ Eg) as (Hty & _ & _).
    exists (EGroup g). rewrite H. cbn [type_of]. rewrite Hty.
    repeat split; reflexivity.
  - destruct e as [f cs]. unfold tag in *.
    cbn [parse_data_element] in Hr. rewrite H in *. cbn in Hr.
    apply Ok_inj in Hr. subst r. eexists. repeat split; reflexivity.
  - destruct e as [f cs]. unfold tag in *.
    cbn [parse_data_element] in Hr. rewrite H in *. cbn in Hr.
    apply Ok_inj in Hr. subst r. eexists. repeat split; reflexivity.
  - destruct e as [f cs]. unfold tag in *.
    cbn [parse_data_element] in Hr. rewrite H in *. cbn in Hr.
    apply Ok_inj in Hr. subst r. eexists. repeat split; reflexivity.
  - destruct e as [f cs]. unfold tag in *.
    cbn [parse_data_element] in Hr. rewrite H in *. cbn in Hr.
    apply Ok_inj in Hr. subst r. eexists. repeat split; reflexivity.
  - destruct e as [f cs]. unfold tag in *.
    cbn [parse_data_element] in Hr. rewrite H in *. cbn in Hr.
    apply Ok_inj in Hr. subst r. eexists. repeat split; reflexivity.
  - destruct e as [f cs]. unfold tag in *.
    cbn [parse_data_element] in Hr. rewrite H in Hr.
    cbn [String.eqb Ascii.eqb Bool.eqb] in Hr.
    rewrite snd_io_bind in Hr. rewrite snd_io_bind in Hr.
    match type of Hr with
    | context [TableElement.__init__ ?h ?u ?i ?en ?t ?p ?hd] =>
        pose proof (TableElement_init_type h u i en t p hd) as Hty;
        destruct (snd (TableElement.__init__ h u i en t p hd))
          as [tb | ex]
    end; cbn in Hr; [| discriminate Hr].
    apply Ok_inj in Hr. subst r. exists (ETable tb).
    rewrite H. cbn [type_of]. rewrite (Hty tb eq_refl).
    repeat split; reflexivity.
Qed.

Lemma parsed_object_type_attribute_witness :
  exists x,
    Some (EDescriptive (DescriptiveDataElement.__init__ "t" "9" "d"))
    = Some x
    /\ type_of x = "DESCRIPTIVE_DATA_ELEMENT"
    /\ recognized (type_of x) = false.
Proof.
  apply (parsed_object_type_attribute
           (fun _ => header_document) None
           (WireElement [("element_type", "DESCRIPTIVE_DATA");
                         ("title", "t"); ("id", "9");
                         ("description", "d")] [])
           (Some (EDescriptive
                    (DescriptiveDataElement.__init__ "t" "9" "d"))));
    reflexivity.
Defined.

(** X10: the dispatch never reads the identifier of a group record: the
    group it builds has the record's title and an empty [element_id],
    whatever the record holds under [id].  So [update_on_labfolder] on a
    group that was parsed from a record prints that no identifier was
    provided, sends nothing and leaves the group as it is. *)
Theorem parsed_group_update_refused
  (http_get : string -> table_document)
  (user_info : option LabFolderUserInfo)
  (e : wire_element) (r : option Element)
  (a : reply) (ui : LabFolderUserInfo) :
  tag e = "DATA_ELEMENT_GROUP" ->
  snd (parse_data_element http_get user_info e) = Ok r ->
  exists g, r = Some (EGroup g)
            /\ DataElementGroup.title g = get e "title" ""
            /\ DataElementGroup.element_id g = ""
            /\ DataElementGroup.update_on_labfolder a g ui
               = ([Text "No data element group ID provided."], Ok g).
Proof.
  intros H Hr.
  rewrite (parse_group http_get user_info e H), snd_io_bind in Hr.
  destruct (snd (parse_children _ _ _ _)) as [g | ex] eqn:Eg;
    cbn in Hr; [| discriminate Hr].
  apply Ok_inj in Hr. subst r.
  destruct (parse_children_keeps_group _ _ _ _ _ Eg) as (_ & Hti & Hid).
  cbn in Hti, Hid.
  exists g. split; [reflexivity |]. split; [exact Hti |].
  split; [exact Hid |].
  unfold DataElementGroup.update_on_labfolder. rewrite Hid. reflexivity.
Qed.

Lemma parsed_group_update_refused_witness :
  exists g,
    Some (EGroup (mkGroup "DATA_ELEMENT_GROUP" "g" ""
                    [EText (TextElement.__init__ "hello" "3")]))
    = Some (EGroup g)
    /\ DataElementGroup.title g = "g"
    /\ DataElementGroup.element_id g = ""
    /\ DataElementGroup.update_on_labfolder created g session
       = ([Text "No data element group ID provided."], Ok g).
Proof.
  apply (parsed_group_update_refused
           (fun _ => header_document) (Some session)
           (WireElement [("element_type", "DATA_ELEMENT_GROUP");
                         ("title", "g"); ("id", "77")]
              [WireElement [("element_type", "TEXT"); ("id", "3");
                            ("content", "hello")] []])
           (Some (EGroup (mkGroup "DATA_ELEMENT_GROUP" "g" ""
                            [EText (TextElement.__init__ "hello" "3")])))
           created session);
    reflexivity.
Defined.

(** ** Records without a table *)

Lemma quiet_record (s : string) (e : wire_element) : quiet [TextRecord s e].
Proof. intros m url [H | []]. discriminate H. Qed.

(** What the dispatch does with a record that is neither a group nor a
    table: it looks at the record only. *)
Lemma parse_leaf (h h' : string -> table_document)
  (u u' : option LabFolderUserInfo) (e : wire_element) :
  String.eqb (tag e) "DATA_ELEMENT_GROUP" = false ->
  String.eqb (tag e) "TABLE" = false ->
  parse_data_element h u e = parse_data_element h' u' e
  /\ quiet (fst (parse_data_element h u e))
  /\ exists r, snd (parse_data_element h u e) = Ok r.
Proof.
  intros Hg Ht. destruct e as [f cs]. unfold tag in *.
  cbn [parse_data_element]. rewrite Hg, Ht.
  split; [reflexivity |].
  destruct (String.eqb (get (WireElement f cs) "element_type" "") "DATA");
    [split; [apply quiet_nil | eexists; reflexivity] |].
  destruct (String.eqb (get (WireElement f cs) "element_type" "")
                       "DESCRIPTIVE_DATA");
    [split; [apply quiet_nil | eexists; reflexivity] |].
  destruct (String.eqb (get (WireElement f cs) "element_type" "") "TEXT");
    [split; [apply quiet_nil | eexists; reflexivity] |].
  destruct (String.eqb (get (WireElement f cs) "element_type" "") "IMAGE");
    [split; [apply quiet_nil | eexists; reflexivity] |].
  destruct (String.eqb (get (WireElement f cs) "element_type" "") "FILE");
    [split; [apply quiet_nil | eexists; reflexivity] |].
  split; [apply quiet_record | eexists; reflexivity].
Qed.

Lemma parse_children_table_free (h h' : string -> table_document)
  (u u' : option LabFolderUserInfo) (cs : list wire_element) :
  Forall (fun c =>
            parse_data_element h u c = parse_data_element h' u' c
            /\ quiet (fst (parse_data_element h u c))
            /\ exists r, snd (parse_data_element h u c) = Ok r) cs ->
  forall g,
    parse_children h u cs g = parse_children h' u' cs g
    /\ quiet (fst (parse_children h u cs g))
    /\ exists g', snd (parse_children h u cs g) = Ok g'.
Proof.
  induction 1 as [| c cs (Heq & Hq & r & Hr) _ IH]; intros g.
  - split; [reflexivity |]. split; [apply quiet_nil |].
    eexists. reflexivity.
  - cbn [parse_children]. rewrite <- Heq.
    destruct (parse_data_element h u c) as [l [x | ex]] eqn:Ec;
      cbn [snd fst] in *; [| discriminate Hr].
    set (g1 := match x with
               | Some y => DataElementGroup.add_child g y
               | None => g
               end).
    destruct (IH g1) as (Heq' & Hq' & g' & Hg').
    assert (Hk : forall hh uu,
               (match x with
                | Some y => parse_children hh uu cs
                              (DataElementGroup.add_child g y)
                | None => parse_children hh uu cs g
                end) = parse_children hh uu cs g1).
    { intros hh uu. unfold g1. destruct x; reflexivity. }
    cbn [io_bind]. rewrite !Hk, <- Heq'.
    destruct (parse_children h u cs g1) as [l' r'] eqn:Ecs.
    cbn [fst snd] in *.
    split; [reflexivity |]. split; [apply quiet_app; assumption |].
    exists g'. exact Hg'.
Qed.

(** X11: a record tree in which no record is tagged TABLE is parsed
    without the session: the call sends no request, returns, and gives
    the same lines and the same result whatever the session and the
    server are. *)
Theorem table_free_parse_needs_no_session
  (h h' : string -> table_document) (u u' : option LabFolderUserInfo)
  (e : wire_element) :
  table_free e = true ->
  parse_data_element h u e = parse_data_element h' u' e
  /\ quiet (fst (parse_data_element h u e))
  /\ exists r, snd (parse_data_element h u e) = Ok r.
Proof.
  induction e as [f cs IH] using wire_element_nested_ind.
  intros Hfree. cbn [table_free] in Hfree.
  apply andb_true_iff in Hfree. destruct Hfree as [Ht Hcs].
  apply negb_true_iff in Ht.
  destruct (String.eqb (tag (WireElement f cs)) "DATA_ELEMENT_GROUP")
    eqn:Hg.
  - apply String.eqb_eq in Hg.
    rewrite !(parse_group _ _ _ Hg). cbn [wire_children].
    assert (Hall : Forall (fun c =>
               parse_data_element h u c = parse_data_element h' u' c
               /\ quiet (fst (parse_data_element h u c))
               /\ exists r, snd (parse_data_element h u c) = Ok r) cs).
    { rewrite forallb_forall in Hcs. rewrite Forall_forall in IH.
      apply Forall_forall. intros c Hin. apply (IH c Hin), Hcs, Hin. }
    destruct (parse_children_table_free h h' u u' cs Hall
                (DataElementGroup.__init__
                   (get (WireElement f cs) "title" "") None))
      as (Heq & Hq & g' & Hg').
    rewrite <- Heq.
    destruct (parse_children h u cs _) as [l r] eqn:Ecs.
    cbn [fst snd] in *. subst r. cbn [io_bind ret].
    rewrite app_nil_r. cbn [fst snd].
    split; [reflexivity |]. split; [exact Hq |].
    eexists. reflexivity.
  - apply parse_leaf; assumption.
Qed.

Lemma table_free_parse_needs_no_session_witness :
  quiet (fst (parse_data_element (fun _ => header_document) None
                (WireElement [("element_type", "DATA_ELEMENT_GROUP");
                              ("title", "g")]
                   [WireElement [("element_type", "TEXT"); ("id", "3");
                                 ("content", "hello")] [];
                    WireElement [("element_type", "WELL_PLATE")] []]))).
Proof.
  apply (table_free_parse_needs_no_session
           (fun _ => header_document) (fun _ => header_document)
           None (Some session)
           (WireElement [("element_type", "DATA_ELEMENT_GROUP");
                         ("title", "g")]
              [WireElement [("element_type", "TEXT"); ("id", "3");
                            ("content", "hello")] [];
               WireElement [("element_type", "WELL_PLATE")] []])).
  reflexivity.
Defined.

(** ** Sheets added to a table *)

Lemma str_get_set_same {V : Type} (k : string) (v : V)
  (d : dict string V) :
  str_get k (str_set k v d) = Some v.
Proof.
  induction d as [| [k' v'] d IH]; cbn [str_set str_get].
  - rewrite String.eqb_refl. reflexivity.
  - destruct (String.eqb k k') eqn:E; cbn [str_get]; rewrite E.
    + reflexivity.
    + exact IH.
Qed.

Lemma str_get_set_other {V : Type} (k k' : string) (v : V)
  (d : dict string V) :
  k' <> k -> str_get k' (str_set k v d) = str_get k' d.
Proof.
  intros Hne. apply String.eqb_neq in Hne.
  induction d as [| [k0 v0] d IH]; cbn [str_set str_get].
  - rewrite Hne. reflexivity.
  - destruct (String.eqb k k0) eqn:E; cbn [str_get].
    + apply String.eqb_eq in E. subst k0. rewrite Hne. reflexivity.
    + rewrite IH. reflexivity.
Qed.

Lemma keys_str_set {V : Type} (k : string) (v : V) (d : dict string V) :
  keys (str_set k v d)
  = if existsb (String.eqb k) (keys d) then keys d else keys d ++ [k].
Proof.
  unfold keys.
  induction d as [| [k0 v0] d IH]; cbn [str_set map existsb fst app].
  - reflexivity.
  - destruct (String.eqb k k0) eqn:E; cbn [orb map fst].
    + reflexivity.
    + rewrite IH. destruct (existsb (String.eqb k) (map fst d));
        reflexivity.
Qed.

Lemma str_set_holds_frame (k : string) (df : DataFrame) (d : tables) :
  existsb is_frame (map snd (str_set k (SheetFrame df) d)) = true.
Proof.
  induction d as [| [k0 v0] d IH]; cbn [str_set map existsb snd].
  - reflexivity.
  - destruct (String.eqb k k0); cbn [map existsb snd is_frame].
    + reflexivity.
    + rewrite IH. apply orb_true_r.
Qed.

(** X12: [add_sheet] with a DataFrame prints nothing and changes the
    table only: the frame is found under its name afterwards, every
    other sheet is the one it was, and the sheets keep their order, a
    new name going last; a table that was [None] becomes the dict of
    this one sheet.  With a value that is no DataFrame the element is
    left as it is and the refusal is printed. *)
Theorem add_sheet_insert_lookup (self : TableElement.t) (name : string)
  (df : DataFrame) :
  exists tb',
    TableElement.add_sheet self name (SheetFrame df)
    = ([], Ok (TableElement.set_table self (Some tb')))
    /\ str_get name tb' = Some (SheetFrame df)
    /\ (forall k, k <> name ->
          str_get k tb'
          = match TableElement.table self with
            | Some tb => str_get k tb
            | None => None
            end)
    /\ keys tb'
       = match TableElement.table self with
         | Some tb => if existsb (String.eqb name) (keys tb)
                      then keys tb else keys tb ++ [name]
         | None => [name]
         end
    /\ (forall v, is_frame v = false ->
          TableElement.add_sheet self name v
          = ([Text "Table is not a pandas DataFrame."], Ok self)).
Proof.
  destruct self as [ty en el [tb |] cd ow ti].
  - exists (str_set name (SheetFrame df) tb).
    split; [reflexivity |].
    split; [apply str_get_set_same |].
    split; [intros k Hk; apply str_get_set_other; exact Hk |].
    split; [apply keys_str_set |].
    intros v Hv. unfold TableElement.add_sheet. rewrite Hv. reflexivity.
  - exists [(name, SheetFrame df)].
    split; [reflexivity |].
    split; [cbn; rewrite String.eqb_refl; reflexivity |].
    split.
    { intros k Hk. apply String.eqb_neq in Hk. cbn. rewrite Hk.
      reflexivity. }
    split; [reflexivity |].
    intros v Hv. unfold TableElement.add_sheet. rewrite Hv. reflexivity.
Qed.

Lemma convert_mixed_raises (self : TableElement.t) (header : bool)
  (k0 : string) (v0 : sheet_value) (rest : tables) :
  TableElement.table self = Some ((k0, v0) :: rest) ->
  is_frame v0 = false ->
  existsb is_frame (map snd rest) = true ->
  TableElement.convert_pd_to_export self header
  = ([Text "Table already converted to pandas DataFrame.";
      TextTables ((k0, v0) :: rest)], Raise AttributeError).
Proof.
  intros Ht Hv Hrest.
  unfold TableElement.convert_pd_to_export, TableElement.table_to_pd,
    TableElement.the_table.
  rewrite Ht. cbn [lift io_bind app map snd forallb existsb].
  rewrite Hv, Hrest. cbn [andb orb negb].
  cbn [print ret io_bind app try_except].
  cbn [for_each fst snd]. unfold TableElement.export_value at 1.
  cbn [snd]. destruct v0; try discriminate Hv; reflexivity.
Qed.

(** X13: a table is fetched, its first sheet arrives as the API sends it,
    and a DataFrame is added under another name.  The element cannot be
    sent any more: [update_on_labfolder], and [write_to_labfolder] for
    any entry, end in [AttributeError] without a request, because the
    export reaches the fetched sheet, which has none of the attributes
    of a frame. *)
Theorem sheet_added_to_fetched_table_blocks_write
  (http_get : string -> table_document) (ui : LabFolderUserInfo)
  (self loaded : TableElement.t) (to_pd hd header : bool)
  (k0 name entry : string) (w : wire_sheet) (rest : tables)
  (df : DataFrame) (a : reply) :
  TableElement.element_id self <> "" ->
  doc_sheets (http_get (api_address ui ++ "elements/table/"
                        ++ TableElement.element_id self)%string)
  = (k0, SheetWire w) :: rest ->
  snd (TableElement.load_table http_get self (Some ui) to_pd hd)
  = Ok loaded ->
  name <> k0 ->
  entry <> "" ->
  exists added,
    TableElement.add_sheet loaded name (SheetFrame df) = ([], Ok added)
    /\ snd (TableElement.update_on_labfolder a added ui header)
       = Raise AttributeError
    /\ quiet (fst (TableElement.update_on_labfolder a added ui header))
    /\ snd (TableElement.write_to_labfolder a added ui entry header)
       = Raise AttributeError
    /\ quiet (fst (TableElement.write_to_labfolder a added ui entry
                     header)).
Proof.
  intros Hid Hdoc Hload Hname Hentry.
  apply String.eqb_neq in Hid, Hname, Hentry.
  pose proof (load_table_table http_get self loaded ui to_pd hd Hid Hload)
    as Ht.
  rewrite Hdoc in Ht.
  set (tb' := (k0, SheetWire w) :: str_set name (SheetFrame df) rest).
  exists (TableElement.set_table loaded (Some tb')).
  assert (Hadd : TableElement.add_sheet loaded name (SheetFrame df)
                 = ([], Ok (TableElement.set_table loaded (Some tb')))).
  { unfold TableElement.add_sheet. cbn [is_frame negb]. rewrite Ht.
    unfold TableElement.the_table. rewrite Ht.
    cbn [lift io_bind ret app str_set]. rewrite Hname. reflexivity. }
  assert (Hconv : TableElement.convert_pd_to_export
                    (TableElement.set_table loaded (Some tb')) header
                  = ([Text "Table already converted to pandas DataFrame.";
                      TextTables tb'], Raise AttributeError)).
  { apply convert_mixed_raises;
      [reflexivity | reflexivity | apply str_set_holds_frame]. }
  assert (Hq : quiet [Text "Table already converted to pandas DataFrame.";
                      TextTables tb']).
  { intros m url [H | [H | []]]; discriminate H. }
  split; [exact Hadd |].
  unfold TableElement.update_on_labfolder, TableElement.write_to_labfolder.
  cbn [TableElement.set_table TableElement.table].
  change (TableElement.convert_pd_to_export
            {| TableElement.type := TableElement.type loaded;
               TableElement.entry_id := TableElement.entry_id loaded;
               TableElement.element_id := TableElement.element_id loaded;
               TableElement.table := Some tb';
               TableElement.creation_date :=
                 TableElement.creation_date loaded;
               TableElement.owner_id := TableElement.owner_id loaded;
               TableElement.title := TableElement.title loaded |} header)
    with (TableElement.convert_pd_to_export
            (TableElement.set_table loaded (Some tb')) header).
  rewrite Hconv, Hentry. cbn [andb io_bind fst snd].
  repeat split; try reflexivity; exact Hq.
Qed.

Lemma sheet_added_to_fetched_table_blocks_write_witness :
  exists added,
    TableElement.add_sheet
      (TableElement.set_table
         {| TableElement.type := "TABLE"; TableElement.entry_id := "e1";
            TableElement.element_id := "7";
            TableElement.table := None;
            TableElement.creation_date := "2024-01-01";
            TableElement.owner_id := "12"; TableElement.title := "T" |}
         (Some [("Sheet1", SheetWire header_sheet)]))
      "Sheet2" (SheetFrame plain_frame) = ([], Ok added)
    /\ snd (TableElement.update_on_labfolder created added session true)
       = Raise AttributeError
    /\ quiet (fst (TableElement.update_on_labfolder created added session
                     true))
    /\ snd (TableElement.write_to_labfolder created added session "e1" true)
       = Raise AttributeError
    /\ quiet (fst (TableElement.write_to_labfolder created added session
                     "e1" true)).
Proof.
  apply (sheet_added_to_fetched_table_blocks_write
           (fun _ => header_document) session unloaded_table
           (TableElement.set_table
              {| TableElement.type := "TABLE";
                 TableElement.entry_id := "e1";
                 TableElement.element_id := "7";
                 TableElement.table := None;
                 TableElement.creation_date := "2024-01-01";
                 TableElement.owner_id := "12";
                 TableElement.title := "T" |}
              (Some [("Sheet1", SheetWire header_sheet)]))
           true true true "Sheet1" "Sheet2" "e1" header_sheet []
           plain_frame created);
    (reflexivity || discriminate).
Defined.

(** ** A table after [to_dict] *)

Lemma to_dict_sheets_result (tb : tables) :
  exists l tb',
    io_for_each TableElement.to_dict_sheet tb = (l, Ok tb')
    /\ quiet l
    /\ keys tb' = keys tb
    /\ existsb is_frame (map snd tb') = false.
Proof.
  induction tb as [| [k v] tb (l & tb' & Heq & Hq & Hk & Hf)].
  - exists [], []. repeat split. apply quiet_nil.
  - cbn [io_for_each]. rewrite Heq.
    unfold TableElement.to_dict_sheet at 1. cbn [fst snd].
    destruct v as [df | w | d |]; cbn [ret print io_bind app].
    + exists l, ((k, SheetColumns (TableElement.frame_to_dict df)) :: tb').
      rewrite app_nil_r. split; [reflexivity |]. split; [exact Hq |].
      split; [unfold keys in *; cbn [map fst]; rewrite Hk; reflexivity |].
      cbn [map snd existsb is_frame orb]. exact Hf.
    + exists l, ((k, SheetWire w) :: tb').
      rewrite app_nil_r. split; [reflexivity |]. split; [exact Hq |].
      split; [unfold keys in *; cbn [map fst]; rewrite Hk; reflexivity |].
      cbn [map snd existsb is_frame orb]. exact Hf.
    + exists l, ((k, SheetColumns d) :: tb').
      rewrite app_nil_r. split; [reflexivity |]. split; [exact Hq |].
      split; [unfold keys in *; cbn [map fst]; rewrite Hk; reflexivity |].
      cbn [map snd existsb is_frame orb]. exact Hf.
    + eexists _, ((k, SheetOther) :: tb').
      rewrite app_nil_r. split; [reflexivity |].
      split; [apply (quiet_app [_] l); [apply quiet_text | exact Hq] |].
      split; [unfold keys in *; cbn [map fst]; rewrite Hk; reflexivity |].
      cbn [map snd existsb is_frame orb]. exact Hf.
Qed.

Lemma frameless_not_all_frames (tb : tables) :
  tb <> [] ->
  existsb is_frame (map snd tb) = false ->
  forallb is_frame (map snd tb) = false.
Proof.
  destruct tb as [| [k v] tb]; [intros H; contradiction H; reflexivity |].
  intros _ H. cbn [map snd existsb forallb] in *.
  apply orb_false_elim in H. destruct H as [H _]. rewrite H. reflexivity.
Qed.

(** X14: [to_dict()] on a table element with at least one sheet keeps
    the names and the order of the sheets and leaves no DataFrame among
    them; a second [to_dict()] changes nothing more.  Nothing turns the
    sheets back into frames on the way out, so the element cannot be
    sent afterwards: neither [write_to_labfolder] nor
    [update_on_labfolder] sends a request. *)
Theorem to_dict_then_write_never_sent
  (a : reply) (ui : LabFolderUserInfo) (entry : string) (header : bool)
  (self : TableElement.t) (tb : tables) :
  TableElement.table self = Some tb ->
  tb <> [] ->
  exists l tb',
    TableElement.to_dict self true
    = (l, Ok (None, TableElement.set_table self (Some tb')))
    /\ quiet l
    /\ keys tb' = keys tb
    /\ existsb is_frame (map snd tb') = false
    /\ snd (TableElement.to_dict
              (TableElement.set_table self (Some tb')) true)
       = Ok (None, TableElement.set_table self (Some tb'))
    /\ quiet (fst (TableElement.write_to_labfolder a
                     (TableElement.set_table self (Some tb')) ui entry
                     header))
    /\ quiet (fst (TableElement.update_on_labfolder a
                     (TableElement.set_table self (Some tb')) ui header)).
Proof.
  intros Ht Hne.
  destruct (to_dict_sheets_result tb) as (l & tb' & Heq & Hq & Hk & Hf).
  exists l, tb'.
  assert (Hne' : tb' <> []).
  { intros E. subst tb'. destruct tb; [apply Hne; reflexivity |].
    discriminate Hk. }
  pose proof (frameless_not_all_frames tb' Hne' Hf) as Hall.
  split.
  { unfold TableElement.to_dict, TableElement.the_table. rewrite Ht.
    cbn [lift io_bind app]. rewrite Heq. cbn [io_bind ret].
    rewrite app_nil_r. reflexivity. }
  split; [exact Hq |]. split; [exact Hk |]. split; [exact Hf |].
  split.
  { unfold TableElement.to_dict, TableElement.the_table.
    cbn [TableElement.set_table TableElement.table].
    rewrite snd_io_bind. cbn [lift snd].
    rewrite snd_io_bind, (to_dict_sheets_frameless tb' Hf). reflexivity. }
  match goal with
  | |- context [TableElement.write_to_labfolder a ?s _ _ _] =>
      set (self' := s) in *
  end.
  assert (Ht' : TableElement.table self' = Some tb') by reflexivity.
  clearbody self'. split.
  - unfold TableElement.write_to_labfolder. rewrite Ht'.
    destruct (String.eqb entry ""
              && negb (String.eqb (TableElement.entry_id self') "")).
    + apply (after_convert_quiet self' header tb' _ Ht' Hall).
      apply quiet_text.
    + destruct (String.eqb entry ""
                && String.eqb (TableElement.entry_id self') "").
      * apply quiet_text.
      * apply (after_convert_quiet self' header tb' _ Ht' Hall).
        apply quiet_text.
  - unfold TableElement.update_on_labfolder. rewrite Ht'.
    apply (after_convert_quiet self' header tb' _ Ht' Hall).
    apply quiet_text.
Qed.

Lemma to_dict_then_write_never_sent_witness :
  exists l tb',
    TableElement.to_dict (table_of_frame plain_frame) true
    = (l, Ok (None, TableElement.set_table (table_of_frame plain_frame)
                      (Some tb')))
    /\ quiet l
    /\ keys tb' = ["Sheet1"]
    /\ existsb is_frame (map snd tb') = false
    /\ snd (TableElement.to_dict
              (TableElement.set_table (table_of_frame plain_frame)
                 (Some tb')) true)
       = Ok (None, TableElement.set_table (table_of_frame plain_frame)
                     (Some tb'))
    /\ quiet (fst (TableElement.write_to_labfolder created
                     (TableElement.set_table (table_of_frame plain_frame)
                        (Some tb')) session "e1" true))
    /\ quiet (fst (TableElement.update_on_labfolder created
                     (TableElement.set_table (table_of_frame plain_frame)
                        (Some tb')) session true)).
Proof.
  apply (to_dict_then_write_never_sent created session "e1" true
           (table_of_frame plain_frame)
           [("Sheet1", SheetFrame plain_frame)]);
    (reflexivity || discriminate).
Defined.

(** ** The dict all table elements start from *)

(** X15: the default of the parameter [table] is one dict for all calls.
    Two table elements built without a table of their own and without
    fetching (no session, or no identifier) refer to that dict, so a
    sheet added to the first is a sheet of the second, and of every
    element built the same way afterwards. *)
Theorem default_table_shared_by_elements
  (http_get : string -> table_document)
  (u1 u2 u3 : option LabFolderUserInfo)
  (i1 e1 i2 e2 i3 e3 name : string) (p1 h1 p2 h2 p3 h3 : bool)
  (df : DataFrame) (default : tables) :
  u1 = None \/ i1 = "" ->
  u2 = None \/ i2 = "" ->
  u3 = None \/ i3 = "" ->
  exists o1 o2 o3 default',
    SharedTable.__init__ http_get u1 i1 e1 p1 h1 default = ([], Ok o1)
    /\ SharedTable.__init__ http_get u2 i2 e2 p2 h2 default = ([], Ok o2)
    /\ SharedTable.add_sheet default o1 name (SheetFrame df)
       = ([], Ok (default', o1))
    /\ default' = str_set name (SheetFrame df) default
    /\ TableElement.table (SharedTable.view default' o1) = Some default'
    /\ TableElement.table (SharedTable.view default' o2) = Some default'
    /\ SharedTable.__init__ http_get u3 i3 e3 p3 h3 default' = ([], Ok o3)
    /\ TableElement.table (SharedTable.view default' o3) = Some default'
    /\ str_get name default' = Some (SheetFrame df).
Proof.
  assert (Hinit : forall u i e p h d,
             u = None \/ i = "" ->
             exists o,
               SharedTable.__init__ http_get u i e p h d = ([], Ok o)
               /\ SharedTable.shares_default o = true).
  { intros u i e p h d Hu. unfold SharedTable.__init__,
      TableElement.__init__.
    destruct u as [ui |].
    - destruct Hu as [Hu | Hu]; [discriminate Hu |]. subst i.
      cbn. eexists. split; reflexivity.
    - cbn. eexists. split; reflexivity. }
  intros H1 H2 H3.
  destruct (Hinit u1 i1 e1 p1 h1 default H1) as (o1 & E1 & S1).
  destruct (Hinit u2 i2 e2 p2 h2 default H2) as (o2 & E2 & S2).
  destruct (Hinit u3 i3 e3 p3 h3
              (str_set name (SheetFrame df) default) H3)
    as (o3 & E3 & S3).
  exists o1, o2, o3, (str_set name (SheetFrame df) default).
  split; [exact E1 |]. split; [exact E2 |].
  split.
  { unfold SharedTable.add_sheet, SharedTable.view,
      TableElement.add_sheet. rewrite S1. reflexivity. }
  split; [reflexivity |].
  unfold SharedTable.view. rewrite S1, S2, S3.
  repeat split; try reflexivity; try exact E3.
  apply str_get_set_same.
Qed.

Lemma default_table_shared_by_elements_witness :
  exists o1 o2 o3 default',
    SharedTable.__init__ (fun _ => header_document) None "7" "e1" true true
      [] = ([], Ok o1)
    /\ SharedTable.__init__ (fun _ => header_document) (Some session) ""
         "e2" true true [] = ([], Ok o2)
    /\ SharedTable.add_sheet [] o1 "Sheet1" (SheetFrame plain_frame)
       = ([], Ok (default', o1))
    /\ default' = [("Sheet1", SheetFrame plain_frame)]
    /\ TableElement.table (SharedTable.view default' o1) = Some default'
    /\ TableElement.table (SharedTable.view default' o2) = Some default'
    /\ SharedTable.__init__ (fun _ => header_document) None "" "" true true
         default' = ([], Ok o3)
    /\ TableElement.table (SharedTable.view default' o3) = Some default'
    /\ str_get "Sheet1" default' = Some (SheetFrame plain_frame).
Proof.
  apply (default_table_shared_by_elements (fun _ => header_document)
           None (Some session) None "7" "e1" "" "e2" "" "" "Sheet1"
           true true true true true true plain_frame []);
    [left | right | left]; reflexivity.
Defined.

(** ** Entries *)

Section EntryProperties.

Variable entry_get : string -> entry_document.
Variable element_get : string -> wire_element.
Variable http_get : string -> table_document.

Lemma fetch_one (ui : LabFolderUserInfo) (url : string)
  (rest : list listed_element) (acc : list wire_element)
  (l : list line) (out : list wire_element) :
  (forall acc', Entry.fetch_listed element_get ui rest acc'
                = (l, Ok (acc' ++ out))) ->
  (r <-- Entry.requests_get_json element_get url ;;
   Entry.fetch_listed element_get ui rest (acc ++ [r]))
  = (Sent GET url :: l, Ok (acc ++ element_get url :: out)).
Proof.
  intros IH. unfold Entry.requests_get_json.
  cbn [print ret io_bind app]. rewrite IH, <- app_assoc. reflexivity.
Qed.

Lemma fetch_listed_spec (ui : LabFolderUserInfo)
  (listing : list listed_element) (acc : list wire_element) :
  Entry.fetch_listed element_get ui listing acc
  = (map (listed_line ui) listing,
     Ok (acc ++ map (fun l => element_get (element_url ui l))
                    (filter (fun l => supported (listed_type l)) listing))).
Proof.
  revert acc. induction listing as [| [ty id] rest IH]; intros acc.
  - cbn. rewrite app_nil_r. reflexivity.
  - cbn [Entry.fetch_listed listed_type listed_id map filter].
    unfold listed_line at 1. cbn [listed_type].
    destruct (String.eqb ty "FILE") eqn:E1;
      [apply String.eqb_eq in E1; subst ty; apply fetch_one; exact IH |].
    destruct (String.eqb ty "IMAGE") eqn:E2;
      [apply String.eqb_eq in E2; subst ty; apply fetch_one; exact IH |].
    destruct (String.eqb ty "TEXT") eqn:E3;
      [apply String.eqb_eq in E3; subst ty; apply fetch_one; exact IH |].
    destruct (String.eqb ty "TABLE") eqn:E4;
      [apply String.eqb_eq in E4; subst ty; apply fetch_one; exact IH |].
    destruct (String.eqb ty "DATA_ELEMENT_GROUP") eqn:E5;
      [apply String.eqb_eq in E5; subst ty; apply fetch_one; exact IH |].
    destruct (String.eqb ty "DATA") eqn:E6;
      [apply String.eqb_eq in E6; subst ty; apply fetch_one; exact IH |].
    destruct (String.eqb ty "WELL_PLATE") eqn:E7;
      [apply String.eqb_eq in E7; subst ty; apply fetch_one; exact IH |].
    assert (Hs : supported ty = false).
    { unfold supported. cbn [existsb].
      rewrite E1, E2, E3, E4, E5, E6, E7. reflexivity. }
    rewrite Hs. cbn [print io_bind app]. rewrite IH. reflexivity.
Qed.

(** X16: [get_entry(raw=True)] asks for the entry and then, in the order
    of the listing, for every listed element of a type it knows, each
    from the endpoint of its type (a group and a data element from the
    same one); an element of another type costs a printed line and
    leaves no item.  The entry takes title, author, project, tags and
    creation date from the document, keeps its identifier, and holds
    the fetched records in that order. *)
Theorem get_entry_raw_fetches_listed_in_order
  (self : Entry.t) (ui : LabFolderUserInfo) :
  Entry.get_entry entry_get element_get http_get self ui true
  = (Sent GET (api_address ui ++ "entries/" ++ Entry.entry_id self)%string
       :: map (listed_line ui)
              (entry_elements
                 (entry_get (api_address ui ++ "entries/"
                             ++ Entry.entry_id self)%string)),
     Ok {| Entry.entry_id := Entry.entry_id self;
           Entry.title :=
             entry_title (entry_get (api_address ui ++ "entries/"
                                     ++ Entry.entry_id self)%string);
           Entry.author_id :=
             entry_author_id (entry_get (api_address ui ++ "entries/"
                                         ++ Entry.entry_id self)%string);
           Entry.project_id :=
             entry_project_id (entry_get (api_address ui ++ "entries/"
                                          ++ Entry.entry_id self)%string);
           Entry.tags :=
             entry_tags (entry_get (api_address ui ++ "entries/"
                                    ++ Entry.entry_id self)%string);
           Entry.creation_date :=
             entry_creation_date
               (entry_get (api_address ui ++ "entries/"
                           ++ Entry.entry_id self)%string);
           Entry.elements :=
             map (fun l => Raw (element_get (element_url ui l)))
                 (filter (fun l => supported (listed_type l))
                    (entry_elements
                       (entry_get (api_address ui ++ "entries/"
                                   ++ Entry.entry_id self)%string))) |}).
Proof.
  unfold Entry.get_entry, Entry._get_entry.
  cbn [print io_bind app]. rewrite fetch_listed_spec.
  cbn [app io_bind ret fst snd negb Entry.set_elements Entry.entry_id
       Entry.title Entry.author_id Entry.project_id Entry.tags
       Entry.creation_date].
  rewrite !app_nil_r, map_map. reflexivity.
Qed.

Lemma parse_elements_slots (u : option LabFolderUserInfo)
  (es : list wire_element) (rs : list (option Element)) :
  snd (parse_elements http_get u es) = Ok rs ->
  Forall2 slot_of es (map of_parsed rs).
Proof.
  revert rs. unfold parse_elements.
  induction es as [| e es IH]; intros rs H.
  - cbn in H. apply Ok_inj in H. subst rs. constructor.
  - cbn [io_for_each] in H. rewrite snd_io_bind in H.
    destruct (snd (parse_data_element http_get u e)) as [r | ex] eqn:Er;
      [| discriminate H].
    rewrite snd_io_bind in H.
    destruct (snd (io_for_each (parse_data_element http_get u) es))
      as [rs' | ex]; [| discriminate H].
    cbn in H. apply Ok_inj in H. subst rs. cbn [map].
    constructor; [| apply IH; reflexivity].
    unfold slot_of. destruct (recognized (tag e)) eqn:Hrec.
    + destruct (parse_recognized http_get u e r Hrec Er) as (x & Hx & Hc).
      subst r. exists x. split; [reflexivity | exact Hc].
    + rewrite (parse_unknown http_get u e Hrec) in Er.
      cbn in Er. apply Ok_inj in Er. subst r. reflexivity.
Qed.

Lemma get_entry_parsed (self e' : Entry.t) (ui : LabFolderUserInfo) :
  snd (Entry.get_entry entry_get element_get http_get self ui false)
  = Ok e' ->
  Entry.entry_id e' = Entry.entry_id self
  /\ Entry.title e'
     = entry_title (entry_get (api_address ui ++ "entries/"
                               ++ Entry.entry_id self)%string)
  /\ Entry.tags e'
     = entry_tags (entry_get (api_address ui ++ "entries/"
                              ++ Entry.entry_id self)%string)
  /\ Forall2 slot_of
       (map (fun l => element_get (element_url ui l))
            (filter (fun l => supported (listed_type l))
               (entry_elements
                  (entry_get (api_address ui ++ "entries/"
                              ++ Entry.entry_id self)%string))))
       (Entry.elements e').
Proof.
  unfold Entry.get_entry, Entry._get_entry.
  cbn [print]. rewrite fetch_listed_spec.
  cbn [print app io_bind ret fst snd negb].
  match goal with
  | |- context [parse_elements http_get (Some ui) ?es] =>
      pose proof (parse_elements_slots (Some ui) es) as Hslots;
      destruct (parse_elements http_get (Some ui) es) as [l [rs | ex]]
  end; cbn [snd fst app] in *; [| discriminate].
  intros H. apply Ok_inj in H. subst e'.
  cbn [Entry.set_elements Entry.entry_id Entry.title Entry.tags
       Entry.elements].
  repeat split. exact (Hslots rs eq_refl).
Qed.

(** X17: [get_entry()], which parses, keeps one item per fetched record,
    in the order of the listing: an object of the class of the record's
    tag, or [None] for a record whose tag the dispatch does not know (a
    well plate, which is fetched and then has no class). *)
Theorem get_entry_parsed_one_item_per_record
  (self e' : Entry.t) (ui : LabFolderUserInfo) :
  snd (Entry.get_entry entry_get element_get http_get self ui false)
  = Ok e' ->
  Forall2 slot_of
    (map (fun l => element_get (element_url ui l))
         (filter (fun l => supported (listed_type l))
            (entry_elements
               (entry_get (api_address ui ++ "entries/"
                           ++ Entry.entry_id self)%string))))
    (Entry.elements e')
  /\ List.length (Entry.elements e')
     = List.length
         (filter (fun l => supported (listed_type l))
            (entry_elements
               (entry_get (api_address ui ++ "entries/"
                           ++ Entry.entry_id self)%string))).
Proof.
  intros H. destruct (get_entry_parsed self e' ui H) as (_ & _ & _ & Hs).
  split; [exact Hs |].
  apply Forall2_length in Hs. rewrite length_map in Hs.
  symmetry. exact Hs.
Qed.

Lemma object_not_serializable (recs : list wire_element)
  (slots : list entry_element) :
  Forall2 slot_of recs slots ->
  existsb (fun r => recognized (tag r)) recs = true ->
  forallb json_serializable slots = false.
Proof.
  induction 1 as [| r s recs slots Hs _ IH]; cbn [existsb forallb];
    intros H; [discriminate H |].
  unfold slot_of in Hs. destruct (recognized (tag r)).
  - destruct Hs as (x & Hx & _). subst s. reflexivity.
  - cbn [orb] in H. rewrite (IH H). apply andb_false_r.
Qed.

(** X18: an entry that was fetched with [get_entry()] and holds an
    element of a class of this package cannot be sent back: its items
    are objects, which the request cannot serialise, so [update_entry]
    and [make_entry] end in [TypeError] before anything is sent. *)
Theorem fetched_entry_not_sent_back
  (self e' : Entry.t) (ui : LabFolderUserInfo) (a : reply) :
  Entry.entry_id self <> "" ->
  snd (Entry.get_entry entry_get element_get http_get self ui false)
  = Ok e' ->
  existsb (fun l => recognized (tag (element_get (element_url ui l))))
          (filter (fun l => supported (listed_type l))
             (entry_elements
                (entry_get (api_address ui ++ "entries/"
                            ++ Entry.entry_id self)%string))) = true ->
  Entry.update_entry a e' ui = ([], Raise TypeError)
  /\ Entry.make_entry a e' ui = ([], Raise TypeError).
Proof.
  intros Hid H Hrec. apply String.eqb_neq in Hid.
  destruct (get_entry_parsed self e' ui H) as (Hi & _ & _ & Hs).
  assert (Hser : forallb json_serializable (Entry.elements e') = false).
  { apply (object_not_serializable _ _ Hs).
    rewrite existsb_map_compose in *. exact Hrec. }
  unfold Entry.update_entry, Entry.make_entry, requests_send_json.
  rewrite Hi, Hid, Hser. split; reflexivity.
Qed.

End EntryProperties.

Lemma get_entry_parsed_one_item_per_record_witness :
  Forall2 slot_of [text_record; well_plate_record]
          (Entry.elements fetched_entry)
  /\ List.length (Entry.elements fetched_entry) = 2%nat.
Proof.
  apply (get_entry_parsed_one_item_per_record
           (fun _ => entry_listing) element_server
           (fun _ => header_document) unfetched_entry fetched_entry
           session).
  reflexivity.
Defined.

Lemma fetched_entry_not_sent_back_witness :
  Entry.update_entry created fetched_entry session = ([], Raise TypeError)
  /\ Entry.make_entry created fetched_entry session
     = ([], Raise TypeError).
Proof.
  apply (fetched_entry_not_sent_back
           (fun _ => entry_listing) element_server
           (fun _ => header_document) unfetched_entry fetched_entry
           session created);
    (reflexivity || discriminate).
Defined.

(** X19: [make_entry] takes over the identifier the server answers with
    at status 201, and [update_entry] then writes to the entry of that
    identifier and reports by the status it gets.  At any other status
    the entry is left as it is, and a new entry, which has no identifier
    yet, is refused by [update_entry] without a request. *)
Theorem entry_created_then_updated
  (self : Entry.t) (ui : LabFolderUserInfo) (a a' : reply) :
  forallb json_serializable (Entry.elements self) = true ->
  (reply_status a = 201 ->
   forall i, str_get "id" (reply_json a) = Some i -> i <> "" ->
     Entry.make_entry a self ui
     = ([Sent POST (api_address ui ++ "entries")%string],
        Ok (Entry.set_entry_id self i))
     /\ Entry.update_entry a' (Entry.set_entry_id self i) ui
        = ([Sent PUT (api_address ui ++ "entries/" ++ i)%string;
            Text (if reply_status a' =? 200
                  then "Entry updated successfully."
                  else ("Error updating entry: "
                        ++ str (reply_status a'))%string)],
           Ok (Entry.set_entry_id self i)))
  /\ (reply_status a <> 201 ->
      Entry.make_entry a self ui
      = ([Sent POST (api_address ui ++ "entries")%string;
          Text ("Error creating entry: " ++ str (reply_status a))%string],
         Ok self)
      /\ (Entry.entry_id self = "" ->
          Entry.update_entry a' self ui
          = ([Text "Entry ID not set."], Ok self))).
Proof.
  intros Hser. split.
  - intros Hst i Hi Hne. apply String.eqb_neq in Hne.
    unfold Entry.make_entry, Entry.update_entry, requests_send_json,
      requests_send, json_id.
    cbn [Entry.set_entry_id Entry.entry_id Entry.elements].
    rewrite Hser, Hne.
    cbn [io_bind status_code json lift app ret].
    rewrite Hst, Hi. cbn [Z.eqb Pos.eqb lift io_bind app ret].
    split; [reflexivity |].
    destruct (reply_status a' =? 200); reflexivity.
  - intros Hst. apply Z.eqb_neq in Hst.
    unfold Entry.make_entry, Entry.update_entry, requests_send_json,
      requests_send.
    rewrite Hser. cbn [io_bind status_code app]. rewrite Hst.
    split; [reflexivity |].
    intros Hid. rewrite Hid. reflexivity.
Qed.

Lemma entry_created_then_updated_witness :
  Entry.make_entry created new_entry session
  = ([Sent POST "https://lab.example/api/v2/entries"],
     Ok (Entry.set_entry_id new_entry "4711"))
  /\ Entry.update_entry refused (Entry.set_entry_id new_entry "4711")
       session
     = ([Sent PUT "https://lab.example/api/v2/entries/4711";
         Text "Error updating entry: 500"],
        Ok (Entry.set_entry_id new_entry "4711")).
Proof.
  apply (proj1 (entry_created_then_updated new_entry session created
                  refused eq_refl) eq_refl "4711" eq_refl).
  discriminate.
Defined.

(** ** Groups with children that have no payload *)

Lemma children_to_dict_raises (cs : list Element) :
  Forall (fun c =>
            (lacks_to_dict c = true ->
             snd (child_to_dict c) = Raise AttributeError)
            /\ (forall ex, snd (child_to_dict c) = Raise ex ->
                           ex = AttributeError)) cs ->
  (existsb lacks_to_dict cs = true ->
   snd (children_to_dict cs) = Raise AttributeError)
  /\ (forall ex, snd (children_to_dict cs) = Raise ex ->
                 ex = AttributeError).
Proof.
  induction 1 as [| c cs [Hc1 Hc2] _ [IH1 IH2]];
    cbn [existsb children_to_dict].
  - split; [intros H; discriminate H | intros ex H; discriminate H].
  - rewrite snd_io_bind.
    destruct (snd (child_to_dict c)) as [r | ex0] eqn:Ec.
    + rewrite snd_io_bind.
      destruct (snd (children_to_dict cs)) as [rs | ex1] eqn:Ecs.
      * split.
        -- intros H. apply orb_true_iff in H. destruct H as [H | H].
           ++ discriminate (Hc1 H).
           ++ discriminate (IH1 H).
        -- intros ex H. discriminate H.
      * split.
        -- intros _. rewrite (IH2 ex1 eq_refl). reflexivity.
        -- intros ex H. inversion H. subst ex. exact (IH2 ex1 eq_refl).
    + split.
      * intros _. rewrite (Hc2 ex0 eq_refl). reflexivity.
      * intros ex H. inversion H. subst ex. exact (Hc2 ex0 eq_refl).
Qed.

Lemma child_to_dict_raises (e : Element) :
  (lacks_to_dict e = true -> snd (child_to_dict e) = Raise AttributeError)
  /\ (forall ex, snd (child_to_dict e) = Raise ex -> ex = AttributeError).
Proof.
  induction e as [x | x | x | x | x | x | ty ti i cs IH]
    using Element_nested_ind.
  - split; [reflexivity | intros ex H; inversion H; reflexivity].
  - split; [intros H; discriminate H | intros ex H; discriminate H].
  - split; [reflexivity | intros ex H; inversion H; reflexivity].
  - split; [reflexivity | intros ex H; inversion H; reflexivity].
  - split; [reflexivity | intros ex H; inversion H; reflexivity].
  - split; [intros H; discriminate H |].
    intros ex. cbn [child_to_dict]. rewrite snd_io_bind.
    unfold TableElement.to_dict, TableElement.the_table.
    destruct (TableElement.table x) as [tb |].
    + rewrite snd_io_bind. cbn [lift snd]. rewrite snd_io_bind.
      destruct (to_dict_sheets_result tb) as (l & tb' & Heq & _).
      rewrite Heq. cbn [snd]. intros H. discriminate H.
    + cbn. intros H. inversion H. reflexivity.
  - rewrite child_to_dict_group.
    destruct (children_to_dict_raises cs IH) as [H1 H2].
    cbn [lacks_to_dict]. rewrite snd_io_bind.
    destruct (snd (children_to_dict cs)) as [rs | ex0].
    + split.
      * intros H. discriminate (H1 H).
      * intros ex H. discriminate H.
    + split.
      * intros _. rewrite (H2 ex0 eq_refl). reflexivity.
      * intros ex H. inversion H. subst ex. exact (H2 ex0 eq_refl).
Qed.

(** X20: a group that holds, at any depth, a data, file, image or text
    element is never sent.  These classes define no [to_dict], so the
    payload of the group cannot be built: [write_to_labfolder] for any
    entry, and [update_on_labfolder] for a group with an identifier,
    end in [AttributeError] before a request goes out. *)
Theorem group_with_plain_child_never_sent
  (a : reply) (ui : LabFolderUserInfo) (self : DataElementGroup.t)
  (entry : string) :
  existsb lacks_to_dict (DataElementGroup.children self) = true ->
  entry <> "" ->
  snd (DataElementGroup.write_to_labfolder a self ui entry)
  = Raise AttributeError
  /\ quiet (fst (DataElementGroup.write_to_labfolder a self ui entry))
  /\ (DataElementGroup.element_id self <> "" ->
      snd (DataElementGroup.update_on_labfolder a self ui)
      = Raise AttributeError
      /\ quiet (fst (DataElementGroup.update_on_labfolder a self ui))).
Proof.
  intros Hlack Hentry. apply String.eqb_neq in Hentry.
  pose proof (DataElementGroup_to_dict_quiet self) as Hq.
  assert (Hraise : snd (DataElementGroup.to_dict self)
                   = Raise AttributeError).
  { destruct self as [ty ti i cs]. cbn [DataElementGroup.children] in Hlack.
    unfold DataElementGroup.to_dict. rewrite snd_io_bind.
    rewrite (proj1 (child_to_dict_raises (EGroup (mkGroup ty ti i cs)))
               Hlack).
    reflexivity. }
  unfold DataElementGroup.write_to_labfolder,
    DataElementGroup.update_on_labfolder.
  rewrite Hentry.
  destruct (DataElementGroup.to_dict self) as [l [r | ex]];
    cbn [fst snd] in *; [discriminate Hraise |].
  apply Raise_inj in Hraise. subst ex. cbn [io_bind fst snd].
  split; [reflexivity |]. split; [exact Hq |].
  intros Hid. apply String.eqb_neq in Hid. rewrite Hid.
  cbn [fst snd]. split; [reflexivity | exact Hq].
Qed.

Lemma group_with_plain_child_never_sent_witness :
  snd (DataElementGroup.write_to_labfolder created group_of_data session
         "e1")
  = Raise AttributeError.
Proof.
  apply (group_with_plain_child_never_sent created session group_of_data
           "e1"); [reflexivity | discriminate].
Defined.

(** ** Entries that hold a table without a value *)

Lemma table_to_pd_valueless (self : TableElement.t) (in_place : bool)
  (k : string) (w : wire_sheet) (rest : tables) :
  TableElement.table self = Some ((k, SheetWire w) :: rest) ->
  existsb is_frame (map snd rest) = false ->
  all_dicts (dataTable w) = true ->
  Forall (fun c => holds_value (dataTable w) c = false)
         (column_keys (dataTable w)) ->
  snd (TableElement.table_to_pd self true in_place) = Raise IndexError.
Proof.
  intros Ht Hrest Hd Hnone.
  assert (Hraise : table_to_pandas (dataTable w) true = Raise IndexError).
  { unfold table_to_pandas.
    rewrite (row_records_dicts (dataTable w) Hd). cbn [bind]. cbv zeta.
    rewrite (pruned_without_value (dataTable w) Hnone). reflexivity. }
  unfold TableElement.table_to_pd, TableElement.the_table. rewrite Ht.
  rewrite snd_io_bind. cbn [lift snd map existsb is_frame orb].
  rewrite Hrest. rewrite snd_io_bind.
  cbn [for_each snd TableElement.sheet_grid bind lift].
  rewrite Hraise. reflexivity.
Qed.

Lemma TableElement_init_valueless (http_get : string -> table_document)
  (ui : LabFolderUserInfo) (element_id entry_id k : string)
  (table : option tables) (w : wire_sheet) (rest : tables) :
  element_id <> "" ->
  doc_sheets (http_get (api_address ui ++ "elements/table/"
                        ++ element_id)%string)
  = (k, SheetWire w) :: rest ->
  existsb is_frame (map snd rest) = false ->
  all_dicts (dataTable w) = true ->
  Forall (fun c => holds_value (dataTable w) c = false)
         (column_keys (dataTable w)) ->
  snd (TableElement.__init__ http_get (Some ui) element_id entry_id table
         true true)
  = Raise IndexError.
Proof.
  intros Hid Hdoc Hrest Hd Hnone. apply String.eqb_neq in Hid.
  unfold TableElement.__init__. rewrite Hid. cbn [negb].
  rewrite snd_io_bind.
  unfold TableElement.load_table. cbn [TableElement.element_id].
  rewrite Hid. rewrite snd_io_bind. cbn [print snd].
  rewrite snd_io_bind.
  rewrite (table_to_pd_valueless _ true k w rest);
    [reflexivity | cbn [TableElement.table]; rewrite Hdoc; reflexivity
     | exact Hrest | exact Hd | exact Hnone].
Qed.

Lemma io_for_each_raises {A B : Type} (f : A -> io B) (xs : list A)
  (x : A) (ex : exn) :
  In x xs -> snd (f x) = Raise ex ->
  exists ex', snd (io_for_each f xs) = Raise ex'.
Proof.
  intros Hin Hx. induction xs as [| y xs IH]; [contradiction Hin |].
  cbn [io_for_each]. rewrite snd_io_bind.
  destruct (snd (f y)) as [b | ey] eqn:Ey; [| exists ey; reflexivity].
  rewrite snd_io_bind.
  destruct Hin as [Hin | Hin].
  - subst y. rewrite Hx in Ey. discriminate Ey.
  - destruct (IH Hin) as [ex' Hex']. rewrite Hex'.
    exists ex'. reflexivity.
Qed.

Section EntryTables.

Variable entry_get : string -> entry_document.
Variable element_get : string -> wire_element.
Variable http_get : string -> table_document.

(** X21: a table one of whose sheets holds no value (an empty sheet, or
    nulls only) makes its whole entry unreadable.  The record of such a
    table is parsed with the header on, the conversion of the first
    sheet raises [IndexError], nothing on the way handles it, and so
    [get_entry()] of an entry that lists the table ends in an exception
    instead of returning the entry. *)
Theorem entry_with_valueless_table_not_fetched
  (self : Entry.t) (ui : LabFolderUserInfo) (l : listed_element)
  (record : wire_element) (k : string) (w : wire_sheet) (rest : tables) :
  In l (entry_elements
          (entry_get (api_address ui ++ "entries/"
                      ++ Entry.entry_id self)%string)) ->
  supported (listed_type l) = true ->
  record = element_get (element_url ui l) ->
  tag record = "TABLE" ->
  get record "id" "" <> "" ->
  doc_sheets (http_get (api_address ui ++ "elements/table/"
                        ++ get record "id" "")%string)
  = (k, SheetWire w) :: rest ->
  existsb is_frame (map snd rest) = false ->
  all_dicts (dataTable w) = true ->
  Forall (fun c => holds_value (dataTable w) c = false)
         (column_keys (dataTable w)) ->
  snd (parse_data_element http_get (Some ui) record) = Raise IndexError
  /\ exists ex,
       snd (Entry.get_entry entry_get element_get http_get self ui false)
       = Raise ex.
Proof.
  intros Hin Hsup Hrec Htag Hid Hdoc Hrest Hd Hnone.
  assert (Hparse : snd (parse_data_element http_get (Some ui) record)
                   = Raise IndexError).
  { clear Hrec. destruct record as [f cs]. unfold tag in Htag.
    cbn [parse_data_element]. rewrite Htag.
    cbn [String.eqb Ascii.eqb Bool.eqb].
    rewrite snd_io_bind, snd_io_bind.
    rewrite (TableElement_init_valueless http_get ui _ _ k _ w rest
               Hid Hdoc Hrest Hd Hnone).
    reflexivity. }
  split; [exact Hparse |].
  unfold Entry.get_entry, Entry._get_entry.
  cbn [print]. rewrite fetch_listed_spec.
  cbn [print app io_bind ret fst snd negb].
  match goal with
  | |- context [parse_elements http_get (Some ui) ?es] =>
      assert (Hraise : exists ex,
                 snd (parse_elements http_get (Some ui) es) = Raise ex);
      [| destruct (parse_elements http_get (Some ui) es) as [l' [rs | ex]]]
  end.
  - unfold parse_elements.
    apply (io_for_each_raises _ _ record IndexError); [| exact Hparse].
    rewrite Hrec. apply in_map_iff. exists l. split; [reflexivity |].
    apply filter_In. split; assumption.
  - destruct Hraise as [ex Hex]. discriminate Hex.
  - exists ex. reflexivity.
Qed.

End EntryTables.

Lemma entry_with_valueless_table_not_fetched_witness :
  snd (parse_data_element (fun _ => empty_sheet_document) (Some session)
         table_record) = Raise IndexError
  /\ exists ex,
       snd (Entry.get_entry (fun _ => table_listing) (fun _ => table_record)
              (fun _ => empty_sheet_document) unfetched_entry session false)
       = Raise ex.
Proof.
  apply (entry_with_valueless_table_not_fetched
           (fun _ => table_listing) (fun _ => table_record)
           (fun _ => empty_sheet_document) unfetched_entry session
           {| listed_type := "TABLE"; listed_id := "7" |}
           table_record "Sheet1" empty_sheet []);
    try reflexivity.
  - left. reflexivity.
  - discriminate.
  - constructor.
Defined.
